(** * Fog: visitor bucketing, probability estimator, auto-stop and auto-ramp

    A shallow embedding of the assignment and decision core of the Fog
    worker and SDK:

    - [Hash]    : [fnv1a] and [bucket]            (sdk/src/hash.ts, worker/src/lib/hash.ts)
    - [Stats]   : [sampleBeta], [bayesianProbability], [multiVariantProbabilities]
                                                  (worker/src/lib/stats.ts)
    - [Results] : [evaluateExperimentStop], [evaluateFlagRamp] and the
                  evaluation step of [handleResults]  (worker/src/routes/results.ts)

    and of the code around it:

    - [Aggregation] : the two aggregation loops of [handleResults]
    - [Admin]       : [handleExperiments]         (worker/src/routes/experiments.ts)
    - [Init]        : [handleInit]                (worker/src/routes/init.ts)
    - [BotDetect]   : [isBot]                     (worker/src/lib/bot-detect.ts)
    - [Track]       : [handleTrack], [writeEvent] (worker/src/routes/track.ts,
                                                   worker/src/lib/analytics.ts)
    - [Identity]    : the address truncation of [generateVisitorId]
                                                  (worker/src/lib/identity.ts)
    - [Salt]        : [getSalt], [handleScheduled] (worker/src/lib/salt.ts,
                                                   worker/src/cron/rotate-salt.ts)
    - [Sdk]         : [init], [getVariant], [isEnabled], [track]
                                                  (sdk/src/index.ts)

    Modelling conventions.  A JavaScript number that the code only compares,
    adds, divides or floors is an exact rational ([Q]); the 32-bit integer
    operations of the hash are integers ([Z]) with their wrap-around written
    out; the sampler, which needs square roots, logarithms and cosines, lives
    in the real numbers ([R]).  NaN and the infinities are outside the model,
    and so is the rounding of doubles: see [Hash.bucket] for what that means
    for the bucketing.
    [Math.random] is an explicit stream of draws threaded through the
    estimator, the key-value namespace is a finite map together with the log
    of the writes made to it, and the clock is an argument.  Request
    headers, parsed bodies, the identifier drawn by [crypto.randomUUID], the
    salt drawn by [generateSalt] and the visitor id computed by
    [generateVisitorId] (an HMAC, not modelled) are arguments too; the
    analytics dataset is the list of the points written to it. *)

From Stdlib Require Import ZArith QArith Qround Qminmax Reals Lra Lia List.
From stdpp Require Import gmap strings list fin_maps pretty sorting.

(* ===================================================================== *)
(** ** JavaScript 32-bit integer operations *)
(* ===================================================================== *)

Module JS.

Local Open Scope Z_scope.

(** ToUint32 and ToInt32 of an integral number. *)
Definition ToUint32 (x : Z) : Z := x mod 2 ^ 32.

Definition ToInt32 (x : Z) : Z := (x + 2 ^ 31) mod 2 ^ 32 - 2 ^ 31.

(** [a ^ b]: both operands go through ToInt32, the result is the signed
    32-bit integer with the XOR-ed bit pattern. *)
Definition xor (a b : Z) : Z := Z.lxor (ToInt32 a) (ToInt32 b).

(** [Math.imul(a, b)]: the low 32 bits of the product, read as signed. *)
Definition imul (a b : Z) : Z := ToInt32 ((ToUint32 a * ToUint32 b) mod 2 ^ 32).

(** [x >>> 0]. *)
Definition ushr0 (x : Z) : Z := ToUint32 x.

(** [a % b] on integers: the remainder takes the sign of the dividend. *)
Definition rem (a b : Z) : Z := Z.rem a b.

End JS.

(* ===================================================================== *)
(** ** Bucketing (hash.ts) *)
(* ===================================================================== *)

Module Hash.

(** A JavaScript string is its sequence of UTF-16 code units, which is
    what [charCodeAt] reads. *)
Definition jsstring : Type := list Z.

(** Code units of an ASCII literal (code unit = byte there). *)
Definition ascii_units (s : string) : jsstring :=
  map (fun a => Z.of_N (Ascii.N_of_ascii a)) (String.list_ascii_of_string s).

Definition FNV_OFFSET_BASIS : Z := 0x811c9dc5.
Definition FNV_PRIME : Z := 0x01000193.

(** One turn of the loop body:
    [hash ^= str.charCodeAt(i); hash = Math.imul(hash, 0x01000193)]. *)
Definition fnv1a_step (hash c : Z) : Z := JS.imul (JS.xor hash c) FNV_PRIME.

(** The accumulator after the [for] loop. *)
Definition fnv1a_acc (str : jsstring) : Z :=
  fold_left fnv1a_step str FNV_OFFSET_BASIS.

(** [fnv1a(str)]: [((hash >>> 0) % 10000) / 10000]. *)
Definition fnv1a (str : jsstring) : Q :=
  (inject_Z (JS.rem (JS.ushr0 (fnv1a_acc str)) 10000) / inject_Z 10000)%Q.

Inductive BucketType : Set := experiment | flag.

(** [a < b] and [a >= b] on numbers. *)
Definition Qltb (a b : Q) : bool :=
  match (a ?= b)%Q with Lt => true | _ => false end.

Definition Qgeb (a b : Q) : bool := Qle_bool b a.

(** [bucket(visitorId, experimentId, variantCount, trafficPercent, type)];
    an omitted [type] defaults to ["experiment"].

    The quotient [trafficPercent / 100] and the rescaling are exact here,
    where the code rounds each operation to a double.  The hash is a
    multiple of 1/10000.  For a whole-number [trafficPercent] both sides of
    the threshold test are then the doubles nearest to two multiples of
    1/10000, and the test comes out as it does here; for a fractional one
    (0.9, say) the rounded quotient can differ from the exact one and the
    test with it.  The rounded value of [scaled * variantCount] can fall just
    below a whole number that the exact value reaches, so on the boundary
    between two variants the code may answer the lower one.  The theorems
    about [bucket] below are stated so as to hold either way: they rest on
    the order of the numbers, or are stated for whole-number percentages and
    leave the boundary points open. *)
Definition bucket (visitorId experimentId : jsstring) (variantCount : Z)
    (trafficPercent : Q) (type : option BucketType) : Z :=
  let n := fnv1a (visitorId ++ experimentId) in
  match default experiment type with
  | flag => if Qltb n (trafficPercent / 100) then 1%Z else 0%Z
  | experiment =>
      if Qgeb n (trafficPercent / 100) then (-1)%Z
      else
        let scaled := (n / (trafficPercent / 100))%Q in
        Z.min (Qfloor (scaled * inject_Z variantCount)) (variantCount - 1)
  end.

(** The hash as the documentation describes it: an unsigned 32-bit
    accumulator, XOR with the character code, multiplication by the prime
    modulo 2^32. *)
Definition fnv1a32_step (acc c : Z) : Z :=
  ((Z.lxor acc c) * 0x01000193) mod 2 ^ 32.

Definition fnv1a32 (str : jsstring) : Z :=
  fold_left fnv1a32_step str 0x811c9dc5%Z.

End Hash.

(* ===================================================================== *)
(** ** Probability estimator (stats.ts) *)
(* ===================================================================== *)

Module Stats.

(** [Math.random]: the generator is the sequence of numbers it is going to
    return and a cursor into it. *)
Record Rng : Type := mkRng { draws : nat -> R; cursor : nat }.

Definition advance (k : nat) (g : Rng) : Rng :=
  {| draws := draws g; cursor := k + cursor g |}.

Definition Math_random (g : Rng) : R * Rng :=
  (draws g (cursor g), advance 1 g).

Local Open Scope R_scope.

(** [sampleBeta(alpha, beta)]: Box-Muller normal approximation, clamped. *)
Definition sampleBeta (alpha beta : R) (g : Rng) : R * Rng :=
  let mu := alpha / (alpha + beta) in
  let variance :=
    (alpha * beta) / ((alpha + beta) ^ 2 * (alpha + beta + 1)) in
  let (u1, g1) := Math_random g in
  let (u2, g2) := Math_random g1 in
  let z := sqrt (-2 * ln u1) * cos (2 * PI * u2) in
  (Rmax 0 (Rmin 1 (mu + sqrt variance * z)), g2).

(** [b > a]. *)
Definition Rgtb (b a : R) : bool := if Rlt_dec a b then true else false.

Definition SAMPLES : Z := 10000.

(** The [for] loop of [bayesianProbability] with [n] iterations left. *)
Fixpoint sampling_loop (n : nat) (cc ct tc tt : R) (wins : Z) (g : Rng)
    : Z * Rng :=
  match n with
  | O => (wins, g)
  | S n' =>
      let (a, g1) := sampleBeta (cc + 1) (ct - cc + 1) g in
      let (b, g2) := sampleBeta (tc + 1) (tt - tc + 1) g1 in
      sampling_loop n' cc ct tc tt (if Rgtb b a then (wins + 1)%Z else wins) g2
  end.

(** [bayesianProbability(controlConversions, controlTotal,
    treatmentConversions, treatmentTotal)]. *)
Definition bayesianProbability
    (controlConversions controlTotal treatmentConversions treatmentTotal : R)
    (g : Rng) : Q * Rng :=
  let cc := Rmax 0 (Rmin controlConversions controlTotal) in
  let ct := Rmax 0 controlTotal in
  let tc := Rmax 0 (Rmin treatmentConversions treatmentTotal) in
  let tt := Rmax 0 treatmentTotal in
  let (wins, g') := sampling_loop (Z.to_nat SAMPLES) cc ct tc tt 0%Z g in
  ((inject_Z wins / inject_Z SAMPLES)%Q, g').

Record VariantData : Type :=
  mkVariantData { conversions : R; total : R }.

(** The callback of [variants.map((v, i) => ...)] applied from index [i]
    on, in index order. *)
Fixpoint map_from (control : VariantData) (i : nat) (vs : list VariantData)
    (g : Rng) : list (option Q) * Rng :=
  match vs with
  | [] => ([], g)
  | v :: vs' =>
      let (p, g1) :=
        if Nat.eqb i 0 then (None, g)
        else
          let (x, g') :=
            bayesianProbability (conversions control) (total control)
              (conversions v) (total v) g in
          (Some x, g') in
      let (ps, g2) := map_from control (S i) vs' g1 in
      (p :: ps, g2)
  end.

(** [multiVariantProbabilities(variants)]; [None] is [null]. *)
Definition multiVariantProbabilities (variants : list VariantData) (g : Rng)
    : list (option Q) * Rng :=
  match variants with
  | [] => ([], g)
  | control :: _ => map_from control 0 variants g
  end.

(** The number of draws one call of [bayesianProbability] consumes. *)
Definition draws_per_call : nat := 4 * Z.to_nat SAMPLES.

(** The paired draws of iteration [i] of the loop started at [g], and the
    number of iterations among the first [n] whose treatment draw is
    larger. *)
Definition draw_pair (cc ct tc tt : R) (g : Rng) (i : nat) : R * R :=
  (fst (sampleBeta (cc + 1) (ct - cc + 1) (advance (4 * i) g)),
   fst (sampleBeta (tc + 1) (tt - tc + 1) (advance (4 * i + 2) g))).

Definition treatment_wins (cc ct tc tt : R) (g : Rng) (i : nat) : bool :=
  let (a, b) := draw_pair cc ct tc tt g i in Rgtb b a.

Definition winning_draws (cc ct tc tt : R) (g : Rng) (n : nat) : nat :=
  length (List.filter (treatment_wins cc ct tc tt g) (seq 0 n)).

End Stats.

(* ===================================================================== *)
(** ** Results evaluation (routes/results.ts) *)
(* ===================================================================== *)

Module Results.

Inductive Status : Set := active | paused | completed.

Inductive ExperimentType : Set := TypeExperiment | TypeFlag.

(** [interface Experiment] of types.ts; an optional field is an [option]. *)
Record Experiment : Type := mkExperiment {
  id : string;
  name : string;
  variants : list string;
  trafficPercent : Q;
  status : Status;
  type : option ExperimentType;
  createdAt : string;
  updatedAt : string;
  winner : option string;
  completedAt : option string;
  minSamplesPerVariant : option Z;
  autoStop : option bool
}.

(** *** The key-value namespace [env.FOG_KV]

    Keys of the form [experiment:<id>] hold serialized experiment records,
    keys of the form [autostop:<id>] hold a counter printed in decimal.
    The two families are kept as two typed maps over the full key, and
    every [put] is also appended to a log. *)
Inductive KVValue : Type :=
| Json (e : Experiment)      (* JSON.stringify(e) *)
| Text (n : Z).              (* String(n) *)

Record KV : Type := mkKV {
  records : gmap string Experiment;
  counters : gmap string Z;
  puts : list (string * KVValue)
}.

(** An evaluation either returns or throws. *)
Inductive Outcome (A : Type) : Type :=
| Ok (a : A)
| Thrown.
Arguments Ok {A} a.
Arguments Thrown {A}.

Definition KVM (A : Type) : Type := KV -> Outcome A * KV.

Definition ret {A} (a : A) : KVM A := fun kv => (Ok a, kv).

Definition bind {A B} (c : KVM A) (k : A -> KVM B) : KVM B :=
  fun kv =>
    match c kv with
    | (Ok a, kv') => k a kv'
    | (Thrown, kv') => (Thrown, kv')
    end.

Definition lift {A} (o : Outcome A) : KVM A := fun kv => (o, kv).

Notation "x <- c ;; k" := (bind c (fun x => k))
  (at level 100, c at next level, right associativity).

Definition get_json (key : string) : KVM (option Experiment) :=
  fun kv => (Ok (records kv !! key), kv).

Definition get_text (key : string) : KVM (option Z) :=
  fun kv => (Ok (counters kv !! key), kv).

Definition put_json (key : string) (e : Experiment) : KVM unit :=
  fun kv =>
    (Ok tt, {| records := <[key := e]> (records kv);
               counters := counters kv;
               puts := puts kv ++ [(key, Json e)] |}).

Definition put_text (key : string) (n : Z) : KVM unit :=
  fun kv =>
    (Ok tt, {| records := records kv;
               counters := <[key := n]> (counters kv);
               puts := puts kv ++ [(key, Text n)] |}).

(** *** Aggregated statistics

    [stats] is keyed by the variant column of the aggregation rows, which
    the tracker writes as [String(variantIndex)]; a key is the index it
    prints.  The keys are the indices of assigned variants (0, 1, ...); the
    column [-1], which the tracker writes for a visitor outside the traffic
    of the experiment, is not in this domain. *)
Record VariantStats : Type := mkVariantStats {
  impressions : Z;
  conversions : Z;
  totalRevenue : Q
}.

(** [stats[v]] followed by a field access: throws when [v] is not a key. *)
Definition stat (stats : gmap nat VariantStats) (v : nat) : Outcome VariantStats :=
  match stats !! v with
  | Some s => Ok s
  | None => Thrown
  end.

(** [expVariantNames[Number(v)] ?? `variant ${v}`]. *)
Definition variantName (expVariantNames : list string) (v : nat) : string :=
  default ("variant " +:+ pretty v) (expVariantNames !! v).

(** An array read [probabilities[i]]: [None] is [undefined], [Some None]
    is [null]. *)
Definition JsProb : Type := option (option Q).

(** [prob > c] and [prob < c]; both are false on [undefined]. *)
Definition prob_gt (prob : JsProb) (c : Q) : bool :=
  match prob with
  | Some (Some p) => Hash.Qltb c p
  | _ => false
  end.

Definition prob_lt (prob : JsProb) (c : Q) : bool :=
  match prob with
  | Some (Some p) => Hash.Qltb p c
  | _ => false
  end.

Definition RAMP_SCHEDULE : list Q := [10; 25; 50; 75; 100]%Q.
Definition FLAG_RAMP_THRESHOLD : Q := 0.95%Q.
Definition FLAG_CONSECUTIVE_REQUIRED : Z := 3.

(** *** evaluateExperimentStop *)

(** [variantKeys.every((v) => stats[v].impressions >= minSamples)]. *)
Fixpoint every_min (variantKeys : list nat) (stats : gmap nat VariantStats)
    (minSamples : Z) : Outcome bool :=
  match variantKeys with
  | [] => Ok true
  | v :: rest =>
      match stat stats v with
      | Thrown => Thrown
      | Ok s =>
          if (minSamples <=? impressions s)%Z
          then every_min rest stats minSamples
          else Ok false
      end
  end.

(** The record written on a win:
    [{...experiment, status: "completed", winner, completedAt: now, updatedAt: now}]. *)
Definition completed_with (experiment : Experiment) (w now : string) : Experiment :=
  {| id := id experiment;
     name := name experiment;
     variants := variants experiment;
     trafficPercent := trafficPercent experiment;
     status := completed;
     type := type experiment;
     createdAt := createdAt experiment;
     updatedAt := now;
     winner := Some w;
     completedAt := Some now;
     minSamplesPerVariant := minSamplesPerVariant experiment;
     autoStop := autoStop experiment |}.

(** The [for (let i = 1; i < variantKeys.length; i++)] loop: [rest] holds
    [variantKeys[i..]], [control] is [variantKeys[0]]. *)
Fixpoint stop_loop (now : string) (experiment : Experiment)
    (probabilities : list (option Q)) (expVariantNames : list string)
    (control : nat) (rest : list nat) (i : nat) : KVM (option Experiment) :=
  match rest with
  | [] => ret None
  | v :: rest' =>
      let prob : JsProb := probabilities !! i in
      match prob with
      | Some None =>
          stop_loop now experiment probabilities expVariantNames control rest' (S i)
      | _ =>
          let winner :=
            if prob_gt prob 0.99%Q then Some (variantName expVariantNames v)
            else if prob_lt prob 0.01%Q then Some (variantName expVariantNames control)
            else None in
          match winner with
          | Some w =>
              let updated := completed_with experiment w now in
              _ <- put_json ("experiment:" +:+ id experiment) updated ;;
              ret (Some updated)
          | None =>
              stop_loop now experiment probabilities expVariantNames control rest' (S i)
          end
      end
  end.

Definition evaluateExperimentStop (now : string) (experiment : Experiment)
    (variantKeys : list nat) (stats : gmap nat VariantStats)
    (probabilities : list (option Q)) (expVariantNames : list string)
    : KVM (option Experiment) :=
  let minSamples := default 100%Z (minSamplesPerVariant experiment) in
  allHaveMinSamples <- lift (every_min variantKeys stats minSamples) ;;
  if negb allHaveMinSamples then ret None
  else
    match variantKeys with
    | [] => ret None
    | control :: rest =>
        stop_loop now experiment probabilities expVariantNames control rest 1
    end.

(** *** evaluateFlagRamp *)

(** [{...experiment, trafficPercent: nextStep, updatedAt: now}]. *)
Definition ramped_to (experiment : Experiment) (nextStep : Q) (now : string)
    : Experiment :=
  {| id := id experiment;
     name := name experiment;
     variants := variants experiment;
     trafficPercent := nextStep;
     status := status experiment;
     type := type experiment;
     createdAt := createdAt experiment;
     updatedAt := now;
     winner := winner experiment;
     completedAt := completedAt experiment;
     minSamplesPerVariant := minSamplesPerVariant experiment;
     autoStop := autoStop experiment |}.

Definition evaluateFlagRamp (now : string) (experiment : Experiment)
    (probabilities : list (option Q)) : KVM (option Experiment) :=
  let prob : JsProb := probabilities !! 1%nat in
  match prob with
  | Some None => ret None
  | _ =>
      let autoStopKey := "autostop:" +:+ id experiment in
      if prob_gt prob FLAG_RAMP_THRESHOLD then
        raw <- get_text autoStopKey ;;
        let consecutive :=
          match raw with Some n => (n + 1)%Z | None => 1%Z end in
        _ <- put_text autoStopKey consecutive ;;
        if (FLAG_CONSECUTIVE_REQUIRED <=? consecutive)%Z then
          let currentTraffic := trafficPercent experiment in
          match find (fun step => Hash.Qltb currentTraffic step) RAMP_SCHEDULE with
          | Some nextStep =>
              let updated := ramped_to experiment nextStep now in
              _ <- put_json ("experiment:" +:+ id experiment) updated ;;
              _ <- put_text autoStopKey 0%Z ;;
              ret (Some updated)
          | None => ret None
          end
        else ret None
      else
        _ <- put_text autoStopKey 0%Z ;;
        ret None
  end.

(** *** handleResults, from the aggregated [stats] on

    The request parsing and the two aggregation queries that fill [stats]
    are collaborators; the function below starts at the lookup of the
    experiment record and returns the body of the 200 response. *)

Record VariantRow : Type := mkVariantRow {
  row_index : nat;
  row_name : string;
  row_impressions : Z;
  row_conversions : Z;
  row_conversionRate : Q;
  row_probability : option Q;
  row_totalRevenue : Q;
  row_revenuePerVisitor : Q
}.

Record Response : Type := mkResponse {
  resp_experimentId : string;
  resp_variants : list VariantRow;
  resp_status : option Status;
  resp_winner : option string;
  resp_completedAt : option string
}.

(** [array.map((v, i) => f(v, i))] for a callback that may throw. *)
Fixpoint mapi_from {A B} (f : A -> nat -> Outcome B) (i : nat) (l : list A)
    : Outcome (list B) :=
  match l with
  | [] => Ok []
  | x :: l' =>
      match f x i with
      | Thrown => Thrown
      | Ok y =>
          match mapi_from f (S i) l' with
          | Thrown => Thrown
          | Ok ys => Ok (y :: ys)
          end
      end
  end.

(** [Object.keys(stats).sort((a, b) => Number(a) - Number(b))]. *)
Definition sorted_keys (stats : gmap nat VariantStats) : list nat :=
  merge_sort Nat.le (elements (dom stats)).

Definition variantData (stats : gmap nat VariantStats) (v : nat) (_ : nat)
    : Outcome Stats.VariantData :=
  match stat stats v with
  | Thrown => Thrown
  | Ok s =>
      Ok {| Stats.conversions := IZR (conversions s);
            Stats.total := IZR (impressions s) |}
  end.

Definition variantRow (stats : gmap nat VariantStats)
    (expVariantNames : list string) (probabilities : list (option Q))
    (v : nat) (i : nat) : Outcome VariantRow :=
  match stat stats v with
  | Thrown => Thrown
  | Ok s =>
      Ok {| row_index := v;
            row_name := variantName expVariantNames v;
            row_impressions := impressions s;
            row_conversions := conversions s;
            row_conversionRate :=
              if (0 <? impressions s)%Z
              then (inject_Z (conversions s) / inject_Z (impressions s))%Q
              else 0%Q;
            row_probability := default None (probabilities !! i);
            row_totalRevenue := totalRevenue s;
            row_revenuePerVisitor :=
              if (0 <? impressions s)%Z
              then (totalRevenue s / inject_Z (impressions s))%Q
              else 0%Q |}
  end.

Definition is_active (s : Status) : bool :=
  match s with active => true | _ => false end.

Definition is_experiment (t : ExperimentType) : bool :=
  match t with TypeExperiment => true | TypeFlag => false end.

Definition is_flag (t : ExperimentType) : bool :=
  match t with TypeFlag => true | TypeExperiment => false end.

(** [if (updated) finalExp = updated]. *)
Definition or_else (updated : option Experiment) (finalExp : option Experiment)
    : option Experiment :=
  match updated with Some u => Some u | None => finalExp end.

(** The block under "Auto-stopping: evaluate stopping conditions for
    active experiments/flags"; the result is [finalExp]. *)
Definition evaluate (now : string) (experiment : option Experiment)
    (variantKeys : list nat) (stats : gmap nat VariantStats)
    (probabilities : list (option Q)) (expVariantNames : list string)
    : KVM (option Experiment) :=
  let finalExp := experiment in
  match experiment with
  | Some e =>
      if is_active (status e) then
        let expType := default TypeExperiment (type e) in
        if is_experiment expType && default true (autoStop e) then
          updated <- evaluateExperimentStop now e variantKeys stats
                       probabilities expVariantNames ;;
          ret (or_else updated finalExp)
        else if is_flag expType then
          updated <- evaluateFlagRamp now e probabilities ;;
          ret (or_else updated finalExp)
        else ret finalExp
      else ret finalExp
  | None => ret finalExp
  end.

Definition handleResults (experimentId : string)
    (stats : gmap nat VariantStats) (now : string) (g : Stats.Rng)
    : KVM (Response * Stats.Rng) :=
  experiment <- get_json ("experiment:" +:+ experimentId) ;;
  let expVariantNames :=
    match experiment with Some e => variants e | None => [] end in
  let variantKeys := sorted_keys stats in
  variantDataForStats <- lift (mapi_from (variantData stats) 0 variantKeys) ;;
  let (probabilities, g') :=
    Stats.multiVariantProbabilities variantDataForStats g in
  rows <- lift (mapi_from (variantRow stats expVariantNames probabilities)
                  0 variantKeys) ;;
  finalExp <- evaluate now experiment variantKeys stats probabilities
                expVariantNames ;;
  ret ({| resp_experimentId := experimentId;
          resp_variants := rows;
          resp_status := option_map status finalExp;
          resp_winner := finalExp ≫= winner;
          resp_completedAt := finalExp ≫= completedAt |}, g').

(** *** Vocabulary of the decision rules *)


(** [next] is the smallest value of the ramp schedule strictly greater
    than [current]. *)
Definition next_step (current next : Q) : Prop :=
  In next RAMP_SCHEDULE
  /\ (current < next)%Q
  /\ forall s : Q, In s RAMP_SCHEDULE -> (current < s)%Q -> (next <= s)%Q.

(** The namespace after [put(key, String(n))] and after
    [put(key, JSON.stringify(e))]. *)
Definition with_text (key : string) (n : Z) (kv : KV) : KV :=
  snd (put_text key n kv).

Definition with_json (key : string) (e : Experiment) (kv : KV) : KV :=
  snd (put_json key e kv).

(** The two keys an evaluation of [experiment] touches, and the counter
    value a qualifying evaluation writes: the stored one plus one, or 1
    when there is none. *)
Definition recordKey (experiment : Experiment) : string :=
  "experiment:" +:+ id experiment.

Definition counterKey (experiment : Experiment) : string :=
  "autostop:" +:+ id experiment.

Definition incremented (experiment : Experiment) (kv : KV) : Z :=
  match counters kv !! counterKey experiment with
  | Some n => (n + 1)%Z
  | None => 1%Z
  end.

End Results.

(* ===================================================================== *)
(** ** Records and counts of the route's test-suite (results.test.ts) *)
(* ===================================================================== *)

Module Fixtures.

Import Results.

(** [makeExperiment()]. *)
Definition stopTest : Experiment :=
  {| id := "aabbccddeeff"; name := "Stop Test";
     variants := ["control"; "treatment"]; trafficPercent := 100;
     status := active; type := Some TypeExperiment;
     createdAt := ""; updatedAt := "";
     winner := None; completedAt := None;
     minSamplesPerVariant := Some 100%Z; autoStop := Some true |}.

(** [makeExperiment({ status: "completed", winner: "treatment" })]. *)
Definition stoppedTest : Experiment :=
  {| id := "aabbccddeeff"; name := "Stop Test";
     variants := ["control"; "treatment"]; trafficPercent := 100;
     status := completed; type := Some TypeExperiment;
     createdAt := ""; updatedAt := "";
     winner := Some "treatment"; completedAt := None;
     minSamplesPerVariant := Some 100%Z; autoStop := Some true |}.

(** [makeExperiment({ minSamplesPerVariant: 200 })]. *)
Definition stopTest200 : Experiment :=
  {| id := "aabbccddeeff"; name := "Stop Test";
     variants := ["control"; "treatment"]; trafficPercent := 100;
     status := active; type := Some TypeExperiment;
     createdAt := ""; updatedAt := "";
     winner := None; completedAt := None;
     minSamplesPerVariant := Some 200%Z; autoStop := Some true |}.

(** [makeFlag(10)]. *)
Definition flagTest : Experiment :=
  {| id := "f1a9f1a9f1a9"; name := "Flag Test";
     variants := ["off"; "on"]; trafficPercent := 10;
     status := active; type := Some TypeFlag;
     createdAt := ""; updatedAt := "";
     winner := None; completedAt := None;
     minSamplesPerVariant := None; autoStop := None |}.

Definition kv_of (e : Experiment) (counter : option Z) : KV :=
  {| records := {[ recordKey e := e ]};
     counters :=
       match counter with
       | Some n => {[ counterKey e := n ]}
       | None => ∅
       end;
     puts := [] |}.

(** Impressions and conversions of variants "0" and "1". *)
Definition counts (i0 c0 i1 c1 : Z) : gmap nat VariantStats :=
  <[ 0%nat := {| impressions := i0; conversions := c0; totalRevenue := 0 |} ]>
    (<[ 1%nat := {| impressions := i1; conversions := c1; totalRevenue := 0 |} ]> ∅).

Definition fixed_draws : Stats.Rng :=
  {| Stats.draws := fun _ => (1 / 2)%R; Stats.cursor := 0 |}.

End Fixtures.

(* ===================================================================== *)
(** ** Aggregation of the query rows (routes/results.ts, "Aggregate per-variant") *)
(* ===================================================================== *)

Module Aggregation.

Section Keys.

(** The variant column is a string used as an object key; the loops below
    only compare it for equality, so any key type with decidable equality
    serves. *)
Context {K : Type} `{Countable K}.

(** [interface AERow] with [Number(row.count)] already applied, and
    [interface AERevenueRow] with [Number(row.total_revenue)] applied. *)
Record AERow : Type := mkAERow {
  variant : K;
  eventType : string;
  count : Z
}.

Record AERevenueRow : Type := mkAERevenueRow {
  revenue_variant : K;
  total_revenue : Q
}.

Definition zero : Results.VariantStats :=
  {| Results.impressions := 0; Results.conversions := 0;
     Results.totalRevenue := 0 |}.

(** [if (!stats[v]) stats[v] = { impressions: 0, conversions: 0, totalRevenue: 0 }]. *)
Definition touch (stats : gmap K Results.VariantStats) (v : K)
    : gmap K Results.VariantStats :=
  match stats !! v with
  | Some _ => stats
  | None => <[v := zero]> stats
  end.

Definition add_impressions (n : Z) (s : Results.VariantStats) : Results.VariantStats :=
  {| Results.impressions := Results.impressions s + n;
     Results.conversions := Results.conversions s;
     Results.totalRevenue := Results.totalRevenue s |}.

Definition add_conversions (n : Z) (s : Results.VariantStats) : Results.VariantStats :=
  {| Results.impressions := Results.impressions s;
     Results.conversions := Results.conversions s + n;
     Results.totalRevenue := Results.totalRevenue s |}.

Definition add_totalRevenue (q : Q) (s : Results.VariantStats) : Results.VariantStats :=
  {| Results.impressions := Results.impressions s;
     Results.conversions := Results.conversions s;
     Results.totalRevenue := Results.totalRevenue s + q |}.

(** Body of [for (const row of rows)]. *)
Definition add_row (stats : gmap K Results.VariantStats) (row : AERow)
    : gmap K Results.VariantStats :=
  let stats := touch stats (variant row) in
  if String.eqb (eventType row) "impression"
  then alter (add_impressions (count row)) (variant row) stats
  else if String.eqb (eventType row) "conversion"
  then alter (add_conversions (count row)) (variant row) stats
  else stats.

(** Body of [for (const row of revenueRows)]. *)
Definition add_revenue (stats : gmap K Results.VariantStats) (row : AERevenueRow)
    : gmap K Results.VariantStats :=
  let stats := touch stats (revenue_variant row) in
  alter (add_totalRevenue (total_revenue row)) (revenue_variant row) stats.

(** [stats] after both loops. *)
Definition aggregate (rows : list AERow) (revenueRows : list AERevenueRow)
    : gmap K Results.VariantStats :=
  fold_left add_revenue revenueRows (fold_left add_row rows ∅).

(** What a row does to the entry of its own variant. *)
Definition row_effect (row : AERow) (s : Results.VariantStats)
    : Results.VariantStats :=
  if String.eqb (eventType row) "impression"
  then add_impressions (count row) s
  else if String.eqb (eventType row) "conversion"
  then add_conversions (count row) s
  else s.

(** Some row of [rows], or of [revenueRows], is about variant [v]. *)
Definition mentioned (v : K) (rows : list AERow)
    (revenueRows : list AERevenueRow) : bool :=
  existsb (fun r => bool_decide (variant r = v)) rows
  || existsb (fun r => bool_decide (revenue_variant r = v)) revenueRows.

(** The counts of the rows of variant [v] with event type [ty], added up in
    row order, and likewise the revenue of [v]. *)
Definition counted (v : K) (ty : string) (rows : list AERow) : Z :=
  fold_left Z.add
    (map count
       (List.filter
          (fun r => bool_decide (variant r = v) && String.eqb (eventType r) ty)
          rows))
    0%Z.

Definition revenue (v : K) (revenueRows : list AERevenueRow) : Q :=
  fold_left Qplus
    (map total_revenue
       (List.filter (fun r => bool_decide (revenue_variant r = v)) revenueRows))
    0%Q.

End Keys.

End Aggregation.

(* ===================================================================== *)
(** ** Experiment records: create, read, update, delete (routes/experiments.ts) *)
(* ===================================================================== *)

Module Admin.

Import Results.

(** The namespace of [Results] together with the key [experiments:index],
    which holds the JSON array of the ids. *)
Record Store : Type := mkStore {
  kv : KV;
  index : option (list string)
}.

(** [getIndex]: [raw ? JSON.parse(raw) : []]. *)
Definition getIndex (st : Store) : list string := default [] (index st).

(** [setIndex]. *)
Definition setIndex (ids : list string) (st : Store) : Store :=
  {| kv := kv st; index := Some ids |}.

(** [env.FOG_KV.put(`experiment:${id}`, JSON.stringify(e))]. *)
Definition putRecord (id : string) (e : Experiment) (st : Store) : Store :=
  {| kv := with_json ("experiment:" +:+ id) e (kv st); index := index st |}.

(** [env.FOG_KV.delete(`experiment:${id}`)]. *)
Definition deleteRecord (id : string) (st : Store) : Store :=
  {| kv := {| records := delete ("experiment:" +:+ id) (records (kv st));
              counters := counters (kv st);
              puts := puts (kv st) |};
     index := index st |}.

Definition getRecord (id : string) (st : Store) : option Experiment :=
  records (kv st) !! ("experiment:" +:+ id).

(** [Partial<Experiment>]: the parsed request body.  A field is [None] when
    the body does not have it; values outside the declared type of a field
    (a JSON null, a string where a number is expected) are not modelled. *)
Record Body : Type := mkBody {
  b_id : option string;
  b_name : option string;
  b_variants : option (list string);
  b_trafficPercent : option Q;
  b_status : option Status;
  b_type : option ExperimentType;
  b_createdAt : option string;
  b_updatedAt : option string;
  b_winner : option string;
  b_completedAt : option string;
  b_minSamplesPerVariant : option Z;
  b_autoStop : option bool
}.

Inductive Method : Set := GET | POST | PUT | PATCH | DELETE | OtherMethod.

(** [jsonResponse(body, status)]. *)
Inductive Reply : Type :=
| ReplyList (status : nat) (experiments : list Experiment)
| ReplyExperiment (status : nat) (experiment : Experiment)
| ReplyDeleted (status : nat) (deleted : string)
| ReplyError (status : nat) (error : string).

(** Truthiness of an optional string: present and not empty. *)
Definition truthy (s : option string) : bool :=
  match s with
  | Some s => negb (String.eqb s EmptyString)
  | None => false
  end.

(** [trafficPercent < 0 || trafficPercent > 100]. *)
Definition out_of_range (trafficPercent : Q) : bool :=
  Hash.Qltb trafficPercent 0 || Hash.Qltb 100 trafficPercent.

(** The record built by POST. *)
Definition created (body : Body) (variants : list string) (trafficPercent : Q)
    (uuid now : string) : Experiment :=
  {| id := uuid;
     name := default EmptyString (b_name body);
     variants := variants;
     trafficPercent := trafficPercent;
     status := default active (b_status body);
     type := None;
     createdAt := now;
     updatedAt := now;
     winner := None;
     completedAt := None;
     minSamplesPerVariant := None;
     autoStop := None |}.

(** [b ?? a] on an optional field of the record: the body's value when it
    has one. *)
Definition over {A} (b a : option A) : option A :=
  match b with Some x => Some x | None => a end.

(** [{ ...existing, ...body, id: existing.id, createdAt: existing.createdAt,
       updatedAt: now }]. *)
Definition merged (existing : Experiment) (body : Body) (now : string) : Experiment :=
  {| id := id existing;
     name := default (name existing) (b_name body);
     variants := default (variants existing) (b_variants body);
     trafficPercent := default (trafficPercent existing) (b_trafficPercent body);
     status := default (status existing) (b_status body);
     type := over (b_type body) (type existing);
     createdAt := createdAt existing;
     updatedAt := now;
     winner := over (b_winner body) (winner existing);
     completedAt := over (b_completedAt body) (completedAt existing);
     minSamplesPerVariant :=
       over (b_minSamplesPerVariant body) (minSamplesPerVariant existing);
     autoStop := over (b_autoStop body) (autoStop existing) |}.

(** [handleExperiments].  [id] is [idFromPath(pathname)], [body] is the
    parsed JSON body ([None] when parsing throws), [uuid] is what
    [crypto.randomUUID()] returns and [now] the clock. *)
Definition handleExperiments (method : Method) (id : option string)
    (body : option Body) (uuid now : string) (st : Store) : Reply * Store :=
  match method, truthy id with
  | GET, false =>
      let ids := getIndex st in
      (ReplyList 200 (omap (fun i => getRecord i st) ids), st)
  | POST, false =>
      match body with
      | None => (ReplyError 400 "Invalid JSON", st)
      | Some body =>
          if negb (truthy (b_name body))
          then (ReplyError 400 "name required", st)
          else
            let variants := default ["control"; "treatment"] (b_variants body) in
            if (length variants <? 2)%nat
            then (ReplyError 400 "variants must have at least 2 entries", st)
            else
              let trafficPercent := default 100%Q (b_trafficPercent body) in
              if out_of_range trafficPercent
              then (ReplyError 400
                      "trafficPercent must be a number between 0 and 100", st)
              else
                let experiment := created body variants trafficPercent uuid now in
                let st1 := putRecord (Results.id experiment) experiment st in
                let ids := getIndex st1 in
                (ReplyExperiment 201 experiment,
                 setIndex (ids ++ [Results.id experiment]) st1)
      end
  | GET, true =>
      match getRecord (default EmptyString id) st with
      | None => (ReplyError 404 "Not found", st)
      | Some e => (ReplyExperiment 200 e, st)
      end
  | PUT, true | PATCH, true =>
      match getRecord (default EmptyString id) st with
      | None => (ReplyError 404 "Not found", st)
      | Some existing =>
          match body with
          | None => (ReplyError 400 "Invalid JSON", st)
          | Some body =>
              if bool_decide (is_Some (b_variants body))
              then (ReplyError 400
                      "variants cannot be changed after experiment creation", st)
              else if match b_trafficPercent body with
                      | Some t => out_of_range t
                      | None => false
                      end
              then (ReplyError 400
                      "trafficPercent must be a number between 0 and 100", st)
              else
                let updated := merged existing body now in
                (ReplyExperiment 200 updated,
                 putRecord (default EmptyString id) updated st)
          end
      end
  | DELETE, true =>
      let st1 := deleteRecord (default EmptyString id) st in
      let ids := getIndex st1 in
      (ReplyDeleted 200 (default EmptyString id),
       setIndex (List.filter (fun i => negb (String.eqb i (default EmptyString id))) ids) st1)
  | _, _ => (ReplyError 405 "Method not allowed", st)
  end.

(** A record as the API admits it: at least two variants and a traffic
    percentage within [0, 100]. *)
Definition admissible (e : Experiment) : Prop :=
  (2 <= length (variants e))%nat
  /\ (0 <= trafficPercent e)%Q /\ (trafficPercent e <= 100)%Q.

(** Every stored record is admissible and sits under the key of its own id. *)
Definition well_formed (kv : KV) : Prop :=
  forall (key : string) (e : Experiment),
    records kv !! key = Some e ->
    key = "experiment:" +:+ id e /\ admissible e.

(** The index lists exactly the ids that have a record, each once. *)
Definition listed (st : Store) : Prop :=
  NoDup (getIndex st)
  /\ forall i : string, i ∈ getIndex st <-> is_Some (getRecord i st).

Definition consistent (st : Store) : Prop :=
  well_formed (kv st) /\ listed st.

End Admin.

(* ===================================================================== *)
(** ** Assignments for a visitor (routes/init.ts) *)
(* ===================================================================== *)

Module Init.

Import Results.

Record InitResponse : Type := mkInitResponse {
  visitorId : Hash.jsstring;
  assignments : gmap string Z
}.

(** The array [experiments] after [Promise.all]: every read pushes its
    record when there is one and it is active.  [order] lists the ids of
    the index in the order in which their reads complete. *)
Definition load (order : list string) (st : Admin.Store) : list Experiment :=
  List.filter (fun exp => is_active (status exp))
    (omap (fun id => Admin.getRecord id st) order).

(** [bucket(visitorId, exp.id, exp.variants.length, exp.trafficPercent)]:
    the call passes no [type]. *)
Definition variant_of (visitorId : Hash.jsstring) (exp : Experiment) : Z :=
  Hash.bucket visitorId (Hash.ascii_units (id exp))
    (Z.of_nat (length (variants exp))) (trafficPercent exp) None.

(** One turn of the loop over [experiments]. *)
Definition assign_step (visitorId : Hash.jsstring) (assignments : gmap string Z)
    (exp : Experiment) : gmap string Z :=
  let variant := variant_of visitorId exp in
  if (0 <=? variant)%Z then <[id exp := variant]> assignments else assignments.

Definition assign (visitorId : Hash.jsstring) (experiments : list Experiment)
    : gmap string Z :=
  fold_left (assign_step visitorId) experiments ∅.

(** [handleInit].  [param] is the query parameter [visitorId] ([None] when
    it is absent) and [generated] what [generateVisitorId] resolves to. *)
Definition handleInit (param : option Hash.jsstring) (generated : Hash.jsstring)
    (order : list string) (st : Admin.Store) : InitResponse :=
  let visitorId := default generated param in
  {| visitorId := visitorId;
     assignments := assign visitorId (load order st) |}.

End Init.

(* ===================================================================== *)
(** ** Bot detection by User-Agent (lib/bot-detect.ts) *)
(* ===================================================================== *)

Module BotDetect.

(** Case folding of the [i] flag on the characters a pattern of lower-case
    letters and hyphens can meet: an upper-case ASCII letter matches its
    lower-case form, every other character only itself. *)
Definition lower (c : Ascii.ascii) : Ascii.ascii :=
  let n := Ascii.nat_of_ascii c in
  if (65 <=? n)%nat && (n <=? 90)%nat then Ascii.ascii_of_nat (n + 32) else c.

(** The literal [pattern] matches at the start of [s]. *)
Fixpoint matches_at (pattern s : string) : bool :=
  match pattern, s with
  | EmptyString, _ => true
  | String p ps, String c cs => Ascii.eqb p (lower c) && matches_at ps cs
  | String _ _, EmptyString => false
  end.

(** The literal [pattern] matches somewhere in [s]. *)
Fixpoint search (pattern s : string) : bool :=
  matches_at pattern s
  || match s with
     | EmptyString => false
     | String _ cs => search pattern cs
     end.

(** The alternatives of [BOT_UA_PATTERN], in the order of the source. *)
Definition BOT_UA_PATTERN : list string :=
  ["bot"; "crawler"; "spider"; "scraper"; "googlebot"; "bingbot"; "slurp";
   "duckduckbot"; "baiduspider"; "yandexbot"; "facebookexternalhit";
   "twitterbot"; "linkedinbot"; "whatsapp"; "telegrambot"; "gptbot";
   "claude-web"; "anthropic"; "ccbot"; "google-extended"; "perplexitybot";
   "applebot"; "amazonbot"; "bytespider"].

(** [RegExp.prototype.test] of an alternation of literals. *)
Definition test (alternatives : list string) (s : string) : bool :=
  existsb (fun pattern => search pattern s) alternatives.

(** [isBot]: [userAgent] is the header [User-Agent], [None] when the
    request has none. *)
Definition isBot (userAgent : option string) : bool :=
  let ua := default EmptyString userAgent in
  test BOT_UA_PATTERN ua.

(** The alternatives that are not already implied by a shorter one. *)
Definition CORE_PATTERN : list string :=
  ["bot"; "crawler"; "spider"; "scraper"; "slurp"; "facebookexternalhit";
   "whatsapp"; "claude-web"; "anthropic"; "google-extended"].

End BotDetect.

(* ===================================================================== *)
(** ** Event tracking (routes/track.ts, lib/analytics.ts) *)
(* ===================================================================== *)

Module Track.

Import Results.

(** The parsed request body; every field may be missing. *)
Record TrackPayload : Type := mkTrackPayload {
  visitorId : option Hash.jsstring;
  experimentId : option string;
  event : option string;
  variantIndex : option Z;
  eventName : option string;
  value : option Q
}.

(** A data point of the analytics dataset.  [blob2] is the number whose
    decimal form [String(data.variantIndex)] is written. *)
Record DataPoint : Type := mkDataPoint {
  blob1 : option string;
  blob2 : Z;
  blob3 : string;
  blob4 : string;
  double1 : Q;
  index1 : Hash.jsstring
}.

(** [AnalyticsEvent]: [{ ...body, visitorId, variantIndex }]. *)
Record AnalyticsEvent : Type := mkAnalyticsEvent {
  ev_visitorId : Hash.jsstring;
  ev_experimentId : option string;
  ev_event : string;
  ev_variantIndex : Z;
  ev_eventName : option string;
  ev_value : option Q
}.

(** [writeEvent]: the dataset is the list of the points written, oldest
    first. *)
Definition writeEvent (data : AnalyticsEvent) (dataset : list DataPoint)
    : list DataPoint :=
  dataset ++ [ {| blob1 := ev_experimentId data;
                  blob2 := ev_variantIndex data;
                  blob3 := ev_event data;
                  blob4 := default EmptyString (ev_eventName data);
                  double1 := default 1%Q (ev_value data);
                  index1 := ev_visitorId data |} ].

(** A response: its status and the [error] of its body, if it has one. *)
Record Reply : Type := mkReply {
  reply_status : nat;
  reply_error : option string
}.

Definition failure (status : nat) (error : string) : Reply :=
  {| reply_status := status; reply_error := Some error |}.

Definition no_content : Reply :=
  {| reply_status := 204; reply_error := None |}.

(** A visitor id is falsy when it is missing or the empty string. *)
Definition has_visitor (v : option Hash.jsstring) : bool :=
  match v with
  | Some (_ :: _) => true
  | _ => false
  end.

(** The last step: the event is written unless the request is a bot's. *)
Definition record_event (userAgent : option string) (body : TrackPayload)
    (event : string) (visitorId : Hash.jsstring) (variantIndex : Z)
    (dataset : list DataPoint) : Reply * list DataPoint :=
  (no_content,
   if negb (BotDetect.isBot userAgent)
   then writeEvent {| ev_visitorId := visitorId;
                      ev_experimentId := experimentId body;
                      ev_event := event;
                      ev_variantIndex := variantIndex;
                      ev_eventName := eventName body;
                      ev_value := value body |} dataset
   else dataset).

(** [handleTrack].  [body] is the parsed JSON body ([None] when parsing
    throws), [userAgent] the header [User-Agent], [generated] what
    [generateVisitorId] resolves to (it is only called for a pageview; its
    use of the salt keys is in [Salt]); the records are only read. *)
Definition handleTrack (body : option TrackPayload) (userAgent : option string)
    (generated : Hash.jsstring) (st : Admin.Store) (dataset : list DataPoint)
    : Reply * list DataPoint :=
  match body with
  | None => (failure 400 "Invalid JSON", dataset)
  | Some body =>
      if negb (Admin.truthy (event body))
      then (failure 400 "event required", dataset)
      else
        let event := default EmptyString (event body) in
        if String.eqb event "pageview"
        then record_event userAgent body event generated 0 dataset
        else
          if negb (has_visitor (visitorId body))
             || negb (Admin.truthy (experimentId body))
          then (failure 400
                  "visitorId and experimentId required for impression/conversion events",
                dataset)
          else
            let experimentId := default EmptyString (experimentId body) in
            let visitorId := default [] (visitorId body) in
            match Admin.getRecord experimentId st with
            | None => (failure 404 "Experiment not found", dataset)
            | Some exp =>
                let variantIndex :=
                  Hash.bucket visitorId (Hash.ascii_units experimentId)
                    (Z.of_nat (length (variants exp))) (trafficPercent exp) None in
                record_event userAgent body event visitorId variantIndex dataset
            end
  end.

End Track.

(* ===================================================================== *)
(** ** Address truncation (lib/identity.ts) and the daily salt (lib/salt.ts,
       cron/rotate-salt.ts) *)
(* ===================================================================== *)

Module Identity.

(** The character [.] (code 46). *)
Definition dot : Ascii.ascii := Ascii.ascii_of_nat 46.

(** [s.split(sep)] for a one-character separator: the pieces between the
    separators, at least one. *)
Fixpoint split (sep : Ascii.ascii) (s : string) : list string :=
  match s with
  | EmptyString => [EmptyString]
  | String c cs =>
      if Ascii.eqb c sep then EmptyString :: split sep cs
      else match split sep cs with
           | piece :: pieces => String c piece :: pieces
           | [] => [String c EmptyString]
           end
  end.

(** [pieces.join(sep)]. *)
Fixpoint join (sep : string) (pieces : list string) : string :=
  match pieces with
  | [] => EmptyString
  | [piece] => piece
  | piece :: rest => piece +:+ sep +:+ join sep rest
  end.

(** [truncatedIp]: [ip] is the header [CF-Connecting-IP]. *)
Definition truncatedIp (ip : option string) : string :=
  let ip := default "0.0.0.0" ip in
  join "." (take 3 (split dot ip)).

(** No dot occurs in [s]. *)
Fixpoint dotless (s : string) : bool :=
  match s with
  | EmptyString => true
  | String c cs => negb (Ascii.eqb c dot) && dotless cs
  end.

End Identity.

Module Salt.

(** The keys [salt:<date>] of the namespace, indexed by the number of the
    UTC day the date names, and the module-level variable [cached] of one
    isolate. *)
Definition Salts : Type := gmap Z string.
Definition Cache : Type := option (Z * string).

(** [cached?.date === today]. *)
Definition hit (cached : Cache) (today : Z) : option string :=
  match cached with
  | Some (date, salt) => if (date =? today)%Z then Some salt else None
  | None => None
  end.

(** [getSalt]: [today] is the day of the clock, [fresh] what
    [generateSalt()] would return. *)
Definition getSalt (today : Z) (fresh : string) (cached : Cache) (salts : Salts)
    : string * Cache * Salts :=
  match hit cached today with
  | Some salt => (salt, cached, salts)
  | None =>
      let stored := salts !! today in
      if Admin.truthy stored
      then let salt := default EmptyString stored in
           (salt, Some (today, salt), salts)
      else (fresh, Some (today, fresh), <[today := fresh]> salts)
  end.

(** [handleScheduled]. *)
Definition handleScheduled (today : Z) (fresh : string) (salts : Salts) : Salts :=
  let tomorrow := (today + 1)%Z in
  let alreadyExists := salts !! tomorrow in
  let salts1 :=
    if Admin.truthy alreadyExists then salts else <[tomorrow := fresh]> salts in
  let yesterday := (today - 1)%Z in
  delete yesterday salts1.

End Salt.

(* ===================================================================== *)
(** ** The client (sdk/src/index.ts) *)
(* ===================================================================== *)

Module Sdk.

Inductive SdkStatus : Set := pending | ready | excluded | error.

Definition is_ready (s : SdkStatus) : bool :=
  match s with ready => true | _ => false end.

(** The module-level variables. *)
Record State : Type := mkState {
  _endpoint : string;
  _visitorId : Hash.jsstring;
  _assignments : gmap string Z;
  _status : SdkStatus
}.

(** [reset]. *)
Definition reset : State :=
  {| _endpoint := EmptyString; _visitorId := []; _assignments := ∅;
     _status := pending |}.

(** What the request of [init] comes to: a response that is not [ok], a
    response whose body parses to [data], or a rejection. *)
Inductive Fetched : Type :=
| NotOk (status : nat)
| Data (data : Init.InitResponse)
| Rejected (isTimeout : bool) (message : string).

Inductive InitError : Type :=
| HttpStatus (status : nat)
| Timeout
| Other (message : string).

Inductive InitResult : Type :=
| Settled (status : SdkStatus)
| Failed (error : InitError).

(** [init], from the point where the request settles; the timeout and
    the optional interception of [window.dataLayer] are not modelled. *)
Definition init (endpoint : string) (fetched : Fetched) (s : State)
    : InitResult * State :=
  let s := {| _endpoint := endpoint; _visitorId := _visitorId s;
              _assignments := _assignments s; _status := pending |} in
  match fetched with
  | NotOk status =>
      (Failed (HttpStatus status),
       {| _endpoint := _endpoint s; _visitorId := _visitorId s;
          _assignments := _assignments s; _status := error |})
  | Data data =>
      let status :=
        if bool_decide (Init.assignments data = ∅) then excluded else ready in
      (Settled status,
       {| _endpoint := _endpoint s; _visitorId := Init.visitorId data;
          _assignments := Init.assignments data; _status := status |})
  | Rejected isTimeout message =>
      (Failed (if isTimeout then Timeout else Other message),
       {| _endpoint := _endpoint s; _visitorId := _visitorId s;
          _assignments := _assignments s; _status := error |})
  end.

(** [getVariant]. *)
Definition getVariant (experimentId : string) (s : State) : Z :=
  if negb (is_ready (_status s)) then (-1)%Z
  else default (-1)%Z (_assignments s !! experimentId).

(** [isEnabled]. *)
Definition isEnabled (experimentId : string) (s : State) : bool :=
  (getVariant experimentId s =? 1)%Z.

Record TrackOptions : Type := mkTrackOptions {
  experimentId : string;
  eventName : option string;
  value : option Q
}.

(** [track]: the payload posted to [/track], [None] when nothing is sent. *)
Definition track (event : string) (options : TrackOptions) (s : State)
    : option Track.TrackPayload :=
  if negb (is_ready (_status s)) then None
  else Some {| Track.visitorId := Some (_visitorId s);
               Track.experimentId := Some (experimentId options);
               Track.event := Some event;
               Track.variantIndex := None;
               Track.eventName := eventName options;
               Track.value := value options |}.

End Sdk.

(* ===================================================================== *)
(** ** A generator without noise *)
(* ===================================================================== *)

Module Scenarios.

(** Every draw is 1/4.  The second uniform of each Box-Muller pair then gives
    [cos(2 * PI / 4) = 0], so every sample is the clamped posterior mean. *)
Definition quarter_draws : Stats.Rng :=
  {| Stats.draws := fun _ => (1 / 4)%R; Stats.cursor := 0 |}.

End Scenarios.

(* ===================================================================== *)
(** * Properties of the hash and of bucketing *)
(* ===================================================================== *)

Section Int32.

Local Open Scope Z_scope.

Lemma ToInt32_mod (x : Z) : JS.ToInt32 x mod 2 ^ 32 = x mod 2 ^ 32.
Proof.
  unfold JS.ToInt32.
  rewrite <- Zminus_mod_idemp_l, Z.mod_mod by lia.
  rewrite Zminus_mod_idemp_l. f_equal. lia.
Qed.

Lemma lxor_mod_pow2 (a b n : Z) :
  0 <= n -> Z.lxor a b mod 2 ^ n = Z.lxor (a mod 2 ^ n) (b mod 2 ^ n).
Proof.
  intros Hn. apply Z.bits_inj'. intros i Hi.
  rewrite Z.lxor_spec, !Z.testbit_mod_pow2, Z.lxor_spec by lia.
  destruct (i <? n); reflexivity.
Qed.

Lemma xor_mod (a b : Z) :
  JS.xor a b mod 2 ^ 32 = Z.lxor (a mod 2 ^ 32) (b mod 2 ^ 32).
Proof.
  unfold JS.xor. rewrite lxor_mod_pow2 by lia. now rewrite !ToInt32_mod.
Qed.

Lemma imul_mod (a b : Z) :
  JS.imul a b mod 2 ^ 32 = (a mod 2 ^ 32 * b) mod 2 ^ 32.
Proof.
  unfold JS.imul, JS.ToUint32.
  rewrite ToInt32_mod, Z.mod_mod by lia.
  now rewrite Z.mul_mod_idemp_r by lia.
Qed.

Lemma fnv1a_step_mod (h c : Z) :
  Hash.fnv1a_step h c mod 2 ^ 32 = Hash.fnv1a32_step (h mod 2 ^ 32) c.
Proof.
  unfold Hash.fnv1a_step, Hash.fnv1a32_step, Hash.FNV_PRIME.
  rewrite imul_mod, xor_mod.
  rewrite <- (Z.mul_mod_idemp_l (Z.lxor (h mod 2 ^ 32) c)) by lia.
  rewrite lxor_mod_pow2, Z.mod_mod by lia. reflexivity.
Qed.

Lemma fold_step_mod (str : list Z) (h : Z) :
  fold_left Hash.fnv1a_step str h mod 2 ^ 32
  = fold_left Hash.fnv1a32_step str (h mod 2 ^ 32).
Proof.
  revert h. induction str as [|c str IH]; intros h; simpl.
  - reflexivity.
  - now rewrite IH, fnv1a_step_mod.
Qed.

Lemma fnv1a_acc_unsigned (str : Hash.jsstring) :
  JS.ushr0 (Hash.fnv1a_acc str) = Hash.fnv1a32 str.
Proof.
  unfold JS.ushr0, JS.ToUint32, Hash.fnv1a_acc, Hash.fnv1a32.
  rewrite fold_step_mod. reflexivity.
Qed.

Lemma fnv1a32_range (str : Hash.jsstring) : 0 <= Hash.fnv1a32 str < 2 ^ 32.
Proof.
  rewrite <- fnv1a_acc_unsigned. unfold JS.ushr0, JS.ToUint32.
  apply Z.mod_pos_bound. lia.
Qed.

Lemma fnv1a_bucket_index (str : Hash.jsstring) :
  JS.rem (JS.ushr0 (Hash.fnv1a_acc str)) 10000 = Hash.fnv1a32 str mod 10000.
Proof.
  rewrite fnv1a_acc_unsigned. unfold JS.rem.
  apply Z.rem_mod_nonneg; [apply fnv1a32_range | lia].
Qed.

End Int32.

Section Bucketing.

Local Open Scope Q_scope.

Lemma Qltb_lt (a b : Q) : Hash.Qltb a b = true <-> a < b.
Proof.
  unfold Hash.Qltb. rewrite Qlt_alt.
  destruct (a ?= b); split; congruence.
Qed.

Lemma Qltb_ge (a b : Q) : Hash.Qltb a b = false <-> b <= a.
Proof.
  pose proof (Qltb_lt a b) as H. split.
  - intros Hf. apply Qnot_lt_le. intros Hlt. apply H in Hlt. congruence.
  - intros Hle. destruct (Hash.Qltb a b); [|reflexivity].
    exfalso. apply (Qle_not_lt _ _ Hle). now apply H.
Qed.

Lemma Qgeb_ge (a b : Q) : Hash.Qgeb a b = true <-> b <= a.
Proof. unfold Hash.Qgeb. apply Qle_bool_iff. Qed.

Lemma Qgeb_lt (a b : Q) : Hash.Qgeb a b = false <-> a < b.
Proof.
  pose proof (Qgeb_ge a b) as H. split.
  - intros Hf. apply Qnot_le_lt. intros Hle. apply H in Hle. congruence.
  - intros Hlt. destruct (Hash.Qgeb a b); [|reflexivity].
    exfalso. apply (Qlt_not_le _ _ Hlt). now apply H.
Qed.

Lemma fnv1a_quantized (str : Hash.jsstring) :
  Hash.fnv1a str = inject_Z (Hash.fnv1a32 str mod 10000) / inject_Z 10000.
Proof. unfold Hash.fnv1a. now rewrite fnv1a_bucket_index. Qed.

Lemma fnv1a_unit_interval (str : Hash.jsstring) :
  0 <= Hash.fnv1a str /\ Hash.fnv1a str < 1.
Proof.
  rewrite fnv1a_quantized.
  pose proof (Z.mod_pos_bound (Hash.fnv1a32 str) 10000 ltac:(lia)) as [Hlo Hhi].
  set (k := (Hash.fnv1a32 str mod 10000)%Z) in *.
  split.
  - apply Qle_shift_div_l; [reflexivity|].
    rewrite Qmult_0_l. change (inject_Z 0 <= inject_Z k).
    rewrite <- Zle_Qle. exact Hlo.
  - apply Qlt_shift_div_r; [reflexivity|].
    rewrite Qmult_1_l. rewrite <- Zlt_Qlt. exact Hhi.
Qed.

Lemma bucket_flag_eq (v e : Hash.jsstring) (c : Z) (p : Q) :
  Hash.bucket v e c p (Some Hash.flag)
  = if Hash.Qltb (Hash.fnv1a (v ++ e)) (p / 100) then 1%Z else 0%Z.
Proof. reflexivity. Qed.

Lemma bucket_experiment_eq (v e : Hash.jsstring) (c : Z) (p : Q) :
  Hash.bucket v e c p (Some Hash.experiment)
  = if Hash.Qgeb (Hash.fnv1a (v ++ e)) (p / 100) then (-1)%Z
    else Z.min (Qfloor (Hash.fnv1a (v ++ e) / (p / 100) * inject_Z c)) (c - 1).
Proof. reflexivity. Qed.

Lemma percent_mono (p1 p2 : Q) : p1 < p2 -> p1 / 100 < p2 / 100.
Proof.
  intros H. unfold Qdiv. apply Qmult_lt_compat_r; [reflexivity | exact H].
Qed.

End Bucketing.


(** C1.  Ramp-stability of flag mode: a visitor that is on at traffic
    percentage [p1] is on at every larger percentage [p2]. *)
Theorem bucket_flag_ramp_stable :
  forall (v e : Hash.jsstring) (c : Z) (p1 p2 : Q),
    (p1 < p2)%Q ->
    Hash.bucket v e c p1 (Some Hash.flag) = 1%Z ->
    Hash.bucket v e c p2 (Some Hash.flag) = 1%Z.
Proof.
  intros v e c p1 p2 Hp. rewrite !bucket_flag_eq.
  destruct (Hash.Qltb (Hash.fnv1a (v ++ e)) (p1 / 100)) eqn:H1; [|discriminate].
  intros _. apply Qltb_lt in H1.
  assert (H2 : (Hash.fnv1a (v ++ e) < p2 / 100)%Q).
  { eapply Qlt_trans; [exact H1 | now apply percent_mono]. }
  apply Qltb_lt in H2. now rewrite H2.
Qed.

Lemma bucket_flag_ramp_stable_witness :
  (10 < 50)%Q
  /\ Hash.bucket (Hash.ascii_units "visitor-0") (Hash.ascii_units "flag-ramp")
       1 10 (Some Hash.flag) = 1%Z
  /\ Hash.bucket (Hash.ascii_units "visitor-0") (Hash.ascii_units "flag-ramp")
       1 50 (Some Hash.flag) = 1%Z.
Proof.
  split; [reflexivity|]. split; [vm_compute; reflexivity|].
  apply (bucket_flag_ramp_stable _ _ 1%Z 10%Q 50%Q);
    [reflexivity | vm_compute; reflexivity].
Defined.

(** C9.  Exclusion boundaries of experiment mode, for a variant count of at
    least two: at 0% every visitor is excluded, at 100% none is and the
    result lies in [0, variantCount - 1]. *)
Theorem bucket_experiment_boundaries :
  forall (v e : Hash.jsstring) (c : Z),
    (2 <= c)%Z ->
    Hash.bucket v e c 0 (Some Hash.experiment) = (-1)%Z
    /\ Hash.bucket v e c 100 (Some Hash.experiment) <> (-1)%Z
    /\ (0 <= Hash.bucket v e c 100 (Some Hash.experiment) <= c - 1)%Z.
Proof.
  intros v e c Hc. rewrite !bucket_experiment_eq.
  destruct (fnv1a_unit_interval (v ++ e)) as [Hlo Hhi].
  set (n := Hash.fnv1a (v ++ e)) in *.
  assert (H0 : Hash.Qgeb n (0 / 100) = true).
  { apply Qgeb_ge. apply Qle_trans with 0%Q; [discriminate | exact Hlo]. }
  assert (H100 : Hash.Qgeb n (100 / 100) = false).
  { apply Qgeb_lt. apply Qlt_le_trans with 1%Q; [exact Hhi | discriminate]. }
  rewrite H0, H100.
  assert (Hfloor : (0 <= Qfloor (n / (100 / 100) * inject_Z c))%Z).
  { change 0%Z with (Qfloor 0). apply Qfloor_resp_le.
    apply Qmult_le_0_compat.
    - apply Qle_shift_div_l; [reflexivity|]. now rewrite Qmult_0_l.
    - change (inject_Z 0 <= inject_Z c)%Q. rewrite <- Zle_Qle. lia. }
  split; [reflexivity|]. lia.
Qed.

Lemma bucket_experiment_boundaries_witness :
  (2 <= 3)%Z
  /\ Hash.bucket (Hash.ascii_units "visitor-1") (Hash.ascii_units "exp-2") 3 0
       (Some Hash.experiment) = (-1)%Z
  /\ Hash.bucket (Hash.ascii_units "visitor-1") (Hash.ascii_units "exp-2") 3 100
       (Some Hash.experiment) <> (-1)%Z.
Proof.
  pose proof (bucket_experiment_boundaries
                (Hash.ascii_units "visitor-1") (Hash.ascii_units "exp-2") 3%Z
                ltac:(lia)) as (H0 & H100 & _).
  split; [lia|]. split; [exact H0 | exact H100].
Defined.

(* ===================================================================== *)
(** * Properties of the probability estimator *)
(* ===================================================================== *)

Section Sampling.

Lemma advance_advance (a b : nat) (g : Stats.Rng) :
  Stats.advance a (Stats.advance b g) = Stats.advance (a + b) g.
Proof. unfold Stats.advance. simpl. f_equal. lia. Qed.

Lemma advance_0 (g : Stats.Rng) : Stats.advance 0 g = g.
Proof. destruct g. reflexivity. Qed.

Lemma sampleBeta_state (alpha beta : R) (g : Stats.Rng) :
  snd (Stats.sampleBeta alpha beta g) = Stats.advance 2 g.
Proof. reflexivity. Qed.

Variables cc ct tc tt : R.

(** One iteration at [g] is iteration 0 of the loop started at [g]. *)
Lemma sampling_loop_S (n : nat) (wins : Z) (g : Stats.Rng) :
  Stats.sampling_loop (S n) cc ct tc tt wins g
  = Stats.sampling_loop n cc ct tc tt
      (if Stats.treatment_wins cc ct tc tt g 0 then (wins + 1)%Z else wins)
      (Stats.advance 4 g).
Proof.
  unfold Stats.treatment_wins, Stats.draw_pair. reflexivity.
Qed.

Lemma treatment_wins_shift (g : Stats.Rng) (i : nat) :
  Stats.treatment_wins cc ct tc tt g (S i)
  = Stats.treatment_wins cc ct tc tt (Stats.advance 4 g) i.
Proof.
  unfold Stats.treatment_wins, Stats.draw_pair.
  rewrite !advance_advance.
  replace (4 * i + 4)%nat with (4 * S i)%nat by lia.
  replace (4 * i + 2 + 4)%nat with (4 * S i + 2)%nat by lia.
  reflexivity.
Qed.

Lemma winning_draws_S (g : Stats.Rng) (n : nat) :
  Stats.winning_draws cc ct tc tt g (S n)
  = ((if Stats.treatment_wins cc ct tc tt g 0 then 1 else 0)
     + Stats.winning_draws cc ct tc tt (Stats.advance 4 g) n)%nat.
Proof.
  unfold Stats.winning_draws.
  change (seq 0 (S n)) with (0%nat :: seq 1 n).
  rewrite <- seq_shift. cbn [List.filter].
  rewrite List.filter_map_swap.
  rewrite (List.filter_ext _ (Stats.treatment_wins cc ct tc tt (Stats.advance 4 g)))
    by (intros i; apply treatment_wins_shift).
  destruct (Stats.treatment_wins cc ct tc tt g 0); cbn [length Nat.add];
    now rewrite List.length_map.
Qed.

(** The loop counts the winning draws and consumes four numbers per
    iteration. *)
Lemma sampling_loop_counts (n : nat) :
  forall (wins : Z) (g : Stats.Rng),
    Stats.sampling_loop n cc ct tc tt wins g
    = ((wins + Z.of_nat (Stats.winning_draws cc ct tc tt g n))%Z,
       Stats.advance (4 * n) g).
Proof.
  induction n as [|n IH]; intros wins g.
  - simpl. rewrite advance_0. f_equal. unfold Stats.winning_draws. simpl. lia.
  - rewrite sampling_loop_S, IH, winning_draws_S, advance_advance.
    f_equal; [|f_equal; lia].
    destruct (Stats.treatment_wins cc ct tc tt g 0); lia.
Qed.

Lemma winning_draws_le (g : Stats.Rng) (n : nat) :
  (Stats.winning_draws cc ct tc tt g n <= n)%nat.
Proof.
  unfold Stats.winning_draws.
  etransitivity; [apply List.filter_length_le|]. now rewrite List.length_seq.
Qed.

End Sampling.

Section Clamping.

Local Open Scope R_scope.

Lemma clamp_conversions_range (conv tot : R) :
  0 <= Rmax 0 (Rmin conv tot) <= Rmax 0 tot.
Proof.
  unfold Rmax, Rmin. repeat destruct (Rle_dec _ _); lra.
Qed.

Lemma clamp_total_range (tot : R) : 0 <= Rmax 0 tot.
Proof. apply Rmax_l. Qed.

Lemma clamp_conversions_idem (conv tot : R) :
  Rmax 0 (Rmin (Rmax 0 (Rmin conv tot)) (Rmax 0 tot)) = Rmax 0 (Rmin conv tot).
Proof.
  unfold Rmax, Rmin. repeat destruct (Rle_dec _ _); lra.
Qed.

Lemma clamp_conversions_nearest (conv tot : R) :
  Rmax 0 (Rmin conv tot) = Rmax 0 (Rmin conv (Rmax 0 tot)).
Proof.
  unfold Rmax, Rmin. repeat destruct (Rle_dec _ _); lra.
Qed.

Lemma clamp_total_idem (tot : R) : Rmax 0 (Rmax 0 tot) = Rmax 0 tot.
Proof.
  unfold Rmax. repeat destruct (Rle_dec _ _); lra.
Qed.

End Clamping.

Lemma samples_nat : Z.of_nat (Z.to_nat Stats.SAMPLES) = 10000%Z.
Proof. apply Z2Nat.id. unfold Stats.SAMPLES. lia. Qed.

Lemma bayesianProbability_eq (cconv ctot tconv ttot : R) (g : Stats.Rng) :
  Stats.bayesianProbability cconv ctot tconv ttot g
  = ((inject_Z
        (Z.of_nat
           (Stats.winning_draws
              (Rmax 0 (Rmin cconv ctot)) (Rmax 0 ctot)
              (Rmax 0 (Rmin tconv ttot)) (Rmax 0 ttot)
              g (Z.to_nat Stats.SAMPLES)))
      / inject_Z 10000)%Q,
     Stats.advance (4 * Z.to_nat Stats.SAMPLES) g).
Proof.
  unfold Stats.bayesianProbability. rewrite sampling_loop_counts.
  rewrite Z.add_0_l. reflexivity.
Qed.

Lemma fraction_unit_interval (wins : Z) :
  (0 <= wins <= 10000)%Z ->
  (0 <= inject_Z wins / inject_Z 10000)%Q
  /\ (inject_Z wins / inject_Z 10000 <= 1)%Q.
Proof.
  intros [Hlo Hhi]. split.
  - apply Qle_shift_div_l; [reflexivity|].
    rewrite Qmult_0_l. change (inject_Z 0 <= inject_Z wins)%Q.
    now rewrite <- Zle_Qle.
  - apply Qle_shift_div_r; [reflexivity|].
    rewrite Qmult_1_l. now rewrite <- Zle_Qle.
Qed.

(** C6.  [bayesianProbability] is total on its four numeric inputs.  The
    conversions it samples with are the inputs clamped into [0, total] and
    the totals are clamped into [0, oo), so both Beta parameters are at least
    1; calling it on the raw inputs is calling it on the clamped ones.  The
    value returned is the number of the 10,000 paired draws won by the
    treatment, divided by 10,000, a number in [0, 1]. *)
Theorem bayesianProbability_clamps_and_bounds :
  forall (cconv ctot tconv ttot : R) (g : Stats.Rng),
    let cc := Rmax 0 (Rmin cconv ctot) in
    let ct := Rmax 0 ctot in
    let tc := Rmax 0 (Rmin tconv ttot) in
    let tt := Rmax 0 ttot in
    let wins := Z.of_nat (Stats.winning_draws cc ct tc tt g (Z.to_nat Stats.SAMPLES)) in
    (0 <= cc <= ct)%R /\ (0 <= ct)%R /\ (0 <= tc <= tt)%R /\ (0 <= tt)%R
    /\ cc = Rmax 0 (Rmin cconv ct) /\ tc = Rmax 0 (Rmin tconv tt)
    /\ (1 <= cc + 1)%R /\ (1 <= ct - cc + 1)%R
    /\ (1 <= tc + 1)%R /\ (1 <= tt - tc + 1)%R
    /\ Stats.bayesianProbability cconv ctot tconv ttot g
       = Stats.bayesianProbability cc ct tc tt g
    /\ Z.of_nat (Z.to_nat Stats.SAMPLES) = 10000%Z
    /\ (0 <= wins <= 10000)%Z
    /\ fst (Stats.bayesianProbability cconv ctot tconv ttot g)
       = (inject_Z wins / inject_Z 10000)%Q
    /\ (0 <= fst (Stats.bayesianProbability cconv ctot tconv ttot g))%Q
    /\ (fst (Stats.bayesianProbability cconv ctot tconv ttot g) <= 1)%Q.
Proof.
  intros cconv ctot tconv ttot g cc ct tc tt wins.
  pose proof (clamp_conversions_range cconv ctot) as Hc.
  pose proof (clamp_conversions_range tconv ttot) as Ht.
  fold cc ct in Hc. fold tc tt in Ht.
  assert (Hw : (0 <= wins <= 10000)%Z).
  { subst wins. rewrite <- samples_nat.
    pose proof (winning_draws_le cc ct tc tt g (Z.to_nat Stats.SAMPLES)). lia. }
  split; [lra|]. split; [lra|]. split; [lra|]. split; [lra|].
  split; [apply clamp_conversions_nearest|].
  split; [apply clamp_conversions_nearest|].
  split; [lra|]. split; [lra|]. split; [lra|]. split; [lra|].
  split.
  { rewrite !bayesianProbability_eq. subst cc ct tc tt.
    now rewrite !clamp_conversions_idem, !clamp_total_idem. }
  split; [apply samples_nat|].
  split; [exact Hw|].
  rewrite bayesianProbability_eq. cbn [fst].
  split; [reflexivity|]. apply fraction_unit_interval, Hw.
Qed.

Section MultiVariant.

Variable control : Stats.VariantData.

Lemma bayesianProbability_state (a b c d : R) (g : Stats.Rng) :
  snd (Stats.bayesianProbability a b c d g) = Stats.advance Stats.draws_per_call g.
Proof. now rewrite bayesianProbability_eq. Qed.

Lemma map_from_length (vs : list Stats.VariantData) :
  forall (i : nat) (g : Stats.Rng),
    length (fst (Stats.map_from control i vs g)) = length vs.
Proof.
  induction vs as [|v vs IH]; intros i g; [reflexivity|].
  cbn [Stats.map_from].
  destruct (Nat.eqb i 0).
  - specialize (IH (S i) g).
    destruct (Stats.map_from control (S i) vs g). simpl in *. now rewrite IH.
  - destruct (Stats.bayesianProbability _ _ _ _ g) as [x g'].
    specialize (IH (S i) g').
    destruct (Stats.map_from control (S i) vs g'). simpl in *. now rewrite IH.
Qed.

(** Away from index 0 every element is compared with [control], the call
    for the [j]-th of them starting after [j] earlier calls. *)
Lemma map_from_lookup (vs : list Stats.VariantData) :
  forall (i j : nat) (g : Stats.Rng) (v : Stats.VariantData),
    i <> 0%nat ->
    vs !! j = Some v ->
    fst (Stats.map_from control i vs g) !! j
    = Some (Some (fst (Stats.bayesianProbability
                         (Stats.conversions control) (Stats.total control)
                         (Stats.conversions v) (Stats.total v)
                         (Stats.advance (Stats.draws_per_call * j) g)))).
Proof.
  induction vs as [|v0 vs IH]; intros i j g v Hi Hj; [discriminate|].
  cbn [Stats.map_from].
  destruct (Nat.eqb_spec i 0) as [->|_]; [congruence|].
  pose proof (bayesianProbability_state
                (Stats.conversions control) (Stats.total control)
                (Stats.conversions v0) (Stats.total v0) g) as Hst.
  destruct (Stats.bayesianProbability _ _ _ _ g) as [x g'] eqn:Hbp.
  cbn [snd] in Hst. subst g'.
  destruct j as [|j].
  - injection Hj as <-.
    destruct (Stats.map_from control (S i) vs _) as [l r].
    cbn [fst]. change ((Some x :: l) !! 0%nat) with (Some (Some x)).
    rewrite Nat.mul_0_r, advance_0, Hbp. reflexivity.
  - specialize (IH (S i) j (Stats.advance Stats.draws_per_call g) v
                   ltac:(lia) Hj).
    destruct (Stats.map_from control (S i) vs _) as [l r].
    cbn [fst] in IH |- *.
    change ((Some x :: l) !! S j) with (l !! j).
    rewrite IH, advance_advance.
    replace (Stats.draws_per_call * j + Stats.draws_per_call)%nat
      with (Stats.draws_per_call * S j)%nat by lia.
    reflexivity.
Qed.

End MultiVariant.

Lemma multiVariantProbabilities_cons (control : Stats.VariantData)
    (rest : list Stats.VariantData) (g : Stats.Rng) :
  fst (Stats.multiVariantProbabilities (control :: rest) g)
  = None :: fst (Stats.map_from control 1 rest g).
Proof.
  cbn [Stats.multiVariantProbabilities Stats.map_from Nat.eqb].
  now destruct (Stats.map_from control 1 rest g).
Qed.

Lemma multiVariantProbabilities_length (variants : list Stats.VariantData)
    (g : Stats.Rng) :
  length (fst (Stats.multiVariantProbabilities variants g)) = length variants.
Proof.
  destruct variants as [|control rest]; [reflexivity|].
  rewrite multiVariantProbabilities_cons. cbn [length].
  now rewrite map_from_length.
Qed.

(** C7.  [multiVariantProbabilities] returns an array of the length of its
    input: [[]] for [[]], [[null]] for a single element, [null] at index 0,
    and at every index [i >= 1] the value of [bayesianProbability] called on
    the counts of [variants[0]] and of [variants[i]] (the call that follows
    the [i - 1] calls made for the indices before it). *)
Theorem multiVariantProbabilities_shape :
  forall (variants : list Stats.VariantData) (g : Stats.Rng)
         (control v : Stats.VariantData) (i : nat),
    variants !! 0%nat = Some control ->
    variants !! i = Some v ->
    (1 <= i)%nat ->
    (forall (vs : list Stats.VariantData) (g0 : Stats.Rng),
        length (fst (Stats.multiVariantProbabilities vs g0)) = length vs)
    /\ Stats.multiVariantProbabilities [] g = ([], g)
    /\ Stats.multiVariantProbabilities [control] g = ([None], g)
    /\ fst (Stats.multiVariantProbabilities variants g) !! 0%nat = Some None
    /\ fst (Stats.multiVariantProbabilities variants g) !! i
       = Some (Some (fst (Stats.bayesianProbability
                            (Stats.conversions control) (Stats.total control)
                            (Stats.conversions v) (Stats.total v)
                            (Stats.advance (Stats.draws_per_call * (i - 1)) g)))).
Proof.
  intros variants g control v i H0 Hi Hpos.
  split; [apply multiVariantProbabilities_length|].
  split; [reflexivity|]. split; [reflexivity|].
  destruct variants as [|c rest]; [discriminate|].
  injection H0 as ->.
  rewrite multiVariantProbabilities_cons.
  split; [reflexivity|].
  destruct i as [|j]; [lia|].
  change ((control :: rest) !! S j) with (rest !! j) in Hi.
  replace (S j - 1)%nat with j by lia.
  now apply (map_from_lookup control rest 1 j g v).
Qed.

Lemma multiVariantProbabilities_shape_witness :
  let control := {| Stats.conversions := 10; Stats.total := 1000 |} in
  let treatment := {| Stats.conversions := 900; Stats.total := 1000 |} in
  let g := {| Stats.draws := fun _ => (1 / 2)%R; Stats.cursor := 0 |} in
  [control; treatment] !! 0%nat = Some control
  /\ [control; treatment] !! 1%nat = Some treatment
  /\ (1 <= 1)%nat
  /\ fst (Stats.multiVariantProbabilities [control; treatment] g) !! 1%nat
     = Some (Some (fst (Stats.bayesianProbability 10 1000 900 1000
                          (Stats.advance (Stats.draws_per_call * (1 - 1)) g)))).
Proof.
  intros control treatment g.
  split; [reflexivity|]. split; [reflexivity|]. split; [lia|].
  apply (multiVariantProbabilities_shape [control; treatment] g control treatment 1);
    [reflexivity | reflexivity | lia].
Defined.

(* ===================================================================== *)
(** * Properties of the evaluators *)
(* ===================================================================== *)

Section RampSchedule.

Local Open Scope Q_scope.

Lemma find_next_step (current next : Q) :
  find (fun step => Hash.Qltb current step) Results.RAMP_SCHEDULE = Some next
  <-> Results.next_step current next.
Proof.
  unfold Results.next_step, Results.RAMP_SCHEDULE. cbn [find In].
  split.
  - intros H.
    destruct (Hash.Qltb current 10) eqn:H10;
      [|destruct (Hash.Qltb current 25) eqn:H25;
        [|destruct (Hash.Qltb current 50) eqn:H50;
          [|destruct (Hash.Qltb current 75) eqn:H75;
            [|destruct (Hash.Qltb current 100) eqn:H100; [|discriminate]]]]];
      injection H as <-;
      repeat match goal with
             | Ht : Hash.Qltb _ _ = true |- _ => apply Qltb_lt in Ht
             | Hf : Hash.Qltb _ _ = false |- _ => apply Qltb_ge in Hf
             end;
      (split; [tauto|]); (split; [assumption|]);
      intros s Hs Hlt;
      repeat (destruct Hs as [<-|Hs]; [| ]); try contradiction;
      try discriminate;
      exfalso; eapply Qlt_irrefl, Qlt_le_trans; eassumption.
  - intros (Hin & Hlt & Hmin).
    assert (Hsmall : forall s, In s [10; 25; 50; 75; 100] -> s < next ->
                               Hash.Qltb current s = false).
    { intros s Hs Hsn. apply Qltb_ge. apply Qnot_lt_le. intros Hcs.
      apply (Qlt_not_le _ _ Hsn). apply Hmin; assumption. }
    apply Qltb_lt in Hlt.
    repeat (destruct Hin as [<-|Hin]; [| ]); try contradiction;
      repeat (rewrite Hsmall by (cbn [In]; first [tauto | reflexivity]));
      rewrite ?Hlt; reflexivity.
Qed.

Lemma find_no_step (current : Q) :
  find (fun step => Hash.Qltb current step) Results.RAMP_SCHEDULE = None
  <-> 100 <= current.
Proof.
  unfold Results.RAMP_SCHEDULE. cbn [find]. split.
  - intros H.
    destruct (Hash.Qltb current 10); [discriminate|].
    destruct (Hash.Qltb current 25); [discriminate|].
    destruct (Hash.Qltb current 50); [discriminate|].
    destruct (Hash.Qltb current 75); [discriminate|].
    destruct (Hash.Qltb current 100) eqn:H100; [discriminate|].
    now apply Qltb_ge.
  - intros H.
    assert (Hge : forall s, s <= 100 -> Hash.Qltb current s = false).
    { intros s Hs. apply Qltb_ge. eapply Qle_trans; eassumption. }
    rewrite !Hge by discriminate. reflexivity.
Qed.

End RampSchedule.

Section FlagRamp.

Variables (now : string) (experiment : Results.Experiment).

Let autoStopKey : string := Results.counterKey experiment.
Let recordKey : string := Results.recordKey experiment.
Let incremented : Results.KV -> Z := Results.incremented experiment.

Lemma ramp_above (probabilities : list (option Q)) (p : Q) (kv : Results.KV) :
  probabilities !! 1%nat = Some (Some p) ->
  (Results.FLAG_RAMP_THRESHOLD < p)%Q ->
  Results.evaluateFlagRamp now experiment probabilities kv
  = let consecutive := incremented kv in
    let kv1 := Results.with_text autoStopKey consecutive kv in
    if (3 <=? consecutive)%Z then
      match find (fun step => Hash.Qltb (Results.trafficPercent experiment) step)
              Results.RAMP_SCHEDULE with
      | Some nextStep =>
          let updated := Results.ramped_to experiment nextStep now in
          (Results.Ok (Some updated),
           Results.with_text autoStopKey 0
             (Results.with_json recordKey updated kv1))
      | None => (Results.Ok None, kv1)
      end
    else (Results.Ok None, kv1).
Proof.
  intros Hp Hgt. apply Qltb_lt in Hgt.
  unfold Results.evaluateFlagRamp. rewrite Hp.
  cbn [Results.prob_gt]. rewrite Hgt.
  unfold Results.bind, Results.get_text, incremented, Results.incremented,
    autoStopKey, recordKey, Results.counterKey, Results.recordKey,
    Results.with_text, Results.with_json, Results.FLAG_CONSECUTIVE_REQUIRED.
  cbn zeta. cbn [Results.put_text fst snd].
  destruct (Results.counters kv !! ("autostop:" +:+ Results.id experiment))
    as [n|];
    match goal with |- context [(3 <=? ?c)%Z] => destruct (3 <=? c)%Z end;
    try reflexivity;
    destruct (find _ Results.RAMP_SCHEDULE); reflexivity.
Qed.

Lemma ramp_below (probabilities : list (option Q)) (kv : Results.KV) :
  probabilities !! 1%nat <> Some None ->
  Results.prob_gt (probabilities !! 1%nat) Results.FLAG_RAMP_THRESHOLD = false ->
  Results.evaluateFlagRamp now experiment probabilities kv
  = (Results.Ok None, Results.with_text autoStopKey 0 kv).
Proof.
  intros Hnull Hle. unfold Results.evaluateFlagRamp.
  rewrite Hle. destruct (probabilities !! 1%nat) as [[p|]|];
    [reflexivity | congruence | reflexivity].
Qed.

End FlagRamp.

Section Namespace.

Lemma with_text_counter (key : string) (n : Z) (kv : Results.KV) :
  Results.counters (Results.with_text key n kv) !! key = Some n.
Proof. cbn. apply lookup_insert_eq. Qed.

Lemma with_text_records (key : string) (n : Z) (kv : Results.KV) :
  Results.records (Results.with_text key n kv) = Results.records kv.
Proof. reflexivity. Qed.

Lemma with_text_puts (key : string) (n : Z) (kv : Results.KV) :
  Results.puts (Results.with_text key n kv)
  = Results.puts kv ++ [(key, Results.Text n)].
Proof. reflexivity. Qed.

Lemma with_json_record (key : string) (e : Results.Experiment) (kv : Results.KV) :
  Results.records (Results.with_json key e kv) !! key = Some e.
Proof. cbn. apply lookup_insert_eq. Qed.

Lemma with_json_counters (key : string) (e : Results.Experiment) (kv : Results.KV) :
  Results.counters (Results.with_json key e kv) = Results.counters kv.
Proof. reflexivity. Qed.

Lemma with_json_puts (key : string) (e : Results.Experiment) (kv : Results.KV) :
  Results.puts (Results.with_json key e kv)
  = Results.puts kv ++ [(key, Results.Json e)].
Proof. reflexivity. Qed.

End Namespace.

Lemma evaluate_active_flag (now : string) (e : Results.Experiment)
    (variantKeys : list nat) (stats : gmap nat Results.VariantStats)
    (probabilities : list (option Q)) (expVariantNames : list string)
    (kv : Results.KV) :
  Results.status e = Results.active ->
  Results.type e = Some Results.TypeFlag ->
  Results.evaluate now (Some e) variantKeys stats probabilities expVariantNames kv
  = Results.bind (Results.evaluateFlagRamp now e probabilities)
      (fun updated => Results.ret (Results.or_else updated (Some e))) kv.
Proof.
  intros Hs Ht. unfold Results.evaluate. rewrite Hs, Ht. reflexivity.
Qed.

(** C3.  The auto-ramp rule, for a flag whose probability P(on beats off) is
    the number [p].  Above 0.95 the stored counter plus one (1 when absent)
    is written back; if that value is at least 3 and [next] is the smallest
    schedule value strictly greater than the current traffic percentage, the
    record is persisted with [trafficPercent = next] and the counter is then
    written as 0; if no schedule value is strictly greater, or the value is
    below 3, nothing else is written and no decision is returned.  At or
    below 0.95 the only write is the counter, set to 0.  [handleResults]
    runs this rule on every evaluation of an active flag. *)
Theorem evaluateFlagRamp_rule :
  forall (now : string) (experiment : Results.Experiment)
         (probabilities : list (option Q)) (p : Q) (kv : Results.KV),
    probabilities !! 1%nat = Some (Some p) ->
    let key := Results.counterKey experiment in
    let consecutive := Results.incremented experiment kv in
    let counted := Results.with_text key consecutive kv in
    let run := Results.evaluateFlagRamp now experiment probabilities kv in
    (Results.RAMP_SCHEDULE = [10; 25; 50; 75; 100]%Q)
    /\ (Results.counters kv !! key = None -> consecutive = 1%Z)
    /\ (forall n : Z, Results.counters kv !! key = Some n -> consecutive = (n + 1)%Z)
    /\ ((0.95 < p)%Q ->
        (forall next : Q,
            (3 <= consecutive)%Z ->
            Results.next_step (Results.trafficPercent experiment) next ->
            let updated := Results.ramped_to experiment next now in
            run = (Results.Ok (Some updated),
                   Results.with_text key 0
                     (Results.with_json (Results.recordKey experiment) updated counted))
            /\ Results.trafficPercent updated = next
            /\ Results.records (snd run) !! Results.recordKey experiment = Some updated
            /\ Results.counters (snd run) !! key = Some 0%Z)
        /\ ((3 <= consecutive)%Z ->
            (forall s : Q, In s Results.RAMP_SCHEDULE ->
                           ~ (Results.trafficPercent experiment < s)%Q) ->
            run = (Results.Ok None, counted))
        /\ ((consecutive < 3)%Z -> run = (Results.Ok None, counted))
        /\ Results.counters counted !! key = Some consecutive
        /\ Results.records counted = Results.records kv)
    /\ ((p <= 0.95)%Q ->
        run = (Results.Ok None, Results.with_text key 0 kv)
        /\ Results.records (snd run) = Results.records kv
        /\ Results.counters (snd run) !! key = Some 0%Z)
    /\ (forall (variantKeys : list nat) (stats : gmap nat Results.VariantStats)
               (expVariantNames : list string),
           Results.status experiment = Results.active ->
           Results.type experiment = Some Results.TypeFlag ->
           Results.evaluate now (Some experiment) variantKeys stats
             probabilities expVariantNames kv
           = Results.bind (Results.evaluateFlagRamp now experiment probabilities)
               (fun updated => Results.ret (Results.or_else updated (Some experiment)))
               kv).
Proof.
  intros now experiment probabilities p kv Hp key consecutive counted run.
  split; [reflexivity|].
  split; [intros H; subst consecutive; unfold Results.incremented; fold key;
          now rewrite H|].
  split; [intros n H; subst consecutive; unfold Results.incremented; fold key;
          now rewrite H|].
  split; [|split].
  - intros Hgt.
    pose proof (ramp_above now experiment probabilities p kv Hp Hgt) as Hrun.
    fold run in Hrun. cbv zeta in Hrun. fold key consecutive counted in Hrun.
    split; [|split; [|split; [|split]]].
    + intros next Hc Hnext updated.
      apply find_next_step in Hnext.
      apply Z.leb_le in Hc. rewrite Hc, Hnext in Hrun. fold updated in Hrun.
      rewrite Hrun. cbn [snd].
      split; [reflexivity|]. split; [reflexivity|].
      split; [|apply with_text_counter].
      rewrite with_text_records. apply with_json_record.
    + intros Hc Hnone.
      apply Z.leb_le in Hc. rewrite Hc in Hrun.
      assert (Hfind : find (fun step => Hash.Qltb (Results.trafficPercent experiment) step)
                        Results.RAMP_SCHEDULE = None).
      { apply find_no_step. apply Qnot_lt_le. apply Hnone.
        unfold Results.RAMP_SCHEDULE. cbn [In]. tauto. }
      now rewrite Hfind in Hrun.
    + intros Hc. apply Z.leb_gt in Hc. now rewrite Hc in Hrun.
    + apply with_text_counter.
    + reflexivity.
  - intros Hle.
    assert (Hrun : run = (Results.Ok None, Results.with_text key 0 kv)).
    { apply ramp_below; rewrite Hp; [discriminate|].
      cbn [Results.prob_gt]. now apply Qltb_ge. }
    rewrite Hrun. cbn [snd].
    split; [reflexivity|]. split; [reflexivity|]. apply with_text_counter.
  - intros variantKeys stats expVariantNames Hs Ht.
    now apply evaluate_active_flag.
Qed.

Lemma evaluateFlagRamp_rule_witness :
  let probabilities := [None; Some 0.97%Q] in
  let kv := Fixtures.kv_of Fixtures.flagTest (Some 2%Z) in
  let updated := Results.ramped_to Fixtures.flagTest 25 "2026-01-01T00:00:00.000Z" in
  probabilities !! 1%nat = Some (Some 0.97%Q)
  /\ Results.evaluateFlagRamp "2026-01-01T00:00:00.000Z" Fixtures.flagTest probabilities kv
     = (Results.Ok (Some updated),
        Results.with_text "autostop:f1a9f1a9f1a9" 0
          (Results.with_json "experiment:f1a9f1a9f1a9" updated
             (Results.with_text "autostop:f1a9f1a9f1a9" 3 kv)))
  /\ Results.trafficPercent updated = 25%Q.
Proof.
  intros probabilities kv updated.
  split; [reflexivity|].
  pose proof (evaluateFlagRamp_rule "2026-01-01T00:00:00.000Z" Fixtures.flagTest
                probabilities 0.97%Q kv eq_refl) as H.
  cbv zeta in H.
  destruct H as (_ & _ & _ & Habove & _).
  destruct (Habove eq_refl) as (Hramp & _).
  assert (Hthree : (3 <= Results.incremented Fixtures.flagTest kv)%Z)
    by (vm_compute; discriminate).
  assert (Hnext : Results.next_step (Results.trafficPercent Fixtures.flagTest) 25)
    by (apply find_next_step; reflexivity).
  destruct (Hramp 25%Q Hthree Hnext) as (Hrun & Htraffic & _).
  split; [exact Hrun | exact Htraffic].
Defined.

(** C10.  When [probabilities] has fewer than two entries, [probabilities[1]]
    is [undefined], which is not [null]: the early return is skipped, the
    comparison with the threshold is false, and the evaluator writes 0 to the
    flag's counter (creating it if absent), returns no decision and leaves
    every experiment record as it was. *)
Theorem evaluateFlagRamp_short_probabilities :
  forall (now : string) (experiment : Results.Experiment)
         (probabilities : list (option Q)) (kv : Results.KV),
    (length probabilities < 2)%nat ->
    let key := Results.counterKey experiment in
    let run := Results.evaluateFlagRamp now experiment probabilities kv in
    probabilities !! 1%nat = None
    /\ run = (Results.Ok None, Results.with_text key 0 kv)
    /\ Results.counters (snd run) !! key = Some 0%Z
    /\ Results.records (snd run) = Results.records kv
    /\ Results.puts (snd run) = Results.puts kv ++ [(key, Results.Text 0)].
Proof.
  intros now experiment probabilities kv Hlen key run.
  assert (Hundef : probabilities !! 1%nat = None)
    by (apply lookup_ge_None; lia).
  assert (Hrun : run = (Results.Ok None, Results.with_text key 0 kv)).
  { apply ramp_below; rewrite Hundef; [discriminate | reflexivity]. }
  rewrite Hrun. cbn [snd].
  split; [exact Hundef|]. split; [reflexivity|].
  split; [apply with_text_counter|]. split; reflexivity.
Qed.

Lemma evaluateFlagRamp_short_probabilities_witness :
  let kv := Fixtures.kv_of Fixtures.flagTest None in
  (length [@None Q] < 2)%nat
  /\ Results.evaluateFlagRamp "2026-01-01T00:00:00.000Z" Fixtures.flagTest [None] kv
     = (Results.Ok None, Results.with_text "autostop:f1a9f1a9f1a9" 0 kv)
  /\ Results.counters kv !! "autostop:f1a9f1a9f1a9" = None.
Proof.
  intros kv.
  pose proof (evaluateFlagRamp_short_probabilities "2026-01-01T00:00:00.000Z"
                Fixtures.flagTest [None] kv ltac:(simpl; lia)) as H.
  cbv zeta in H. destruct H as (_ & Hrun & _).
  split; [simpl; lia|]. split; [exact Hrun | reflexivity].
Defined.

Section ExperimentStop.

Variables (now : string) (experiment : Results.Experiment).
Variables (probabilities : list (option Q)) (expVariantNames : list string).

Lemma every_min_false (stats : gmap nat Results.VariantStats) (minSamples : Z)
    (variantKeys : list nat) :
  (forall k, k ∈ variantKeys -> is_Some (stats !! k)) ->
  (exists v s, v ∈ variantKeys /\ stats !! v = Some s
               /\ (Results.impressions s < minSamples)%Z) ->
  Results.every_min variantKeys stats minSamples = Results.Ok false.
Proof.
  induction variantKeys as [|k keys IH]; intros Hall (v & s & Hv & Hs & Hlt).
  - inversion Hv.
  - cbn [Results.every_min]. unfold Results.stat.
    destruct (Hall k ltac:(left)) as [sk Hsk]. rewrite Hsk.
    destruct (Z.leb_spec minSamples (Results.impressions sk)) as [Hge|_];
      [|reflexivity].
    apply IH.
    + intros k' Hk'. apply Hall. now right.
    + apply elem_of_cons in Hv as [->|Hv].
      * rewrite Hsk in Hs. injection Hs as ->. lia.
      * eauto.
Qed.





End ExperimentStop.




Lemma sorted_keys_elem (stats : gmap nat Results.VariantStats) (k : nat) :
  k ∈ Results.sorted_keys stats <-> is_Some (stats !! k).
Proof.
  unfold Results.sorted_keys. rewrite merge_sort_Permutation.
  rewrite elem_of_elements. apply elem_of_dom.
Qed.

(** C4.  Sample-size precondition: when some variant of [stats] has fewer
    impressions than [minSamplesPerVariant] (100 when unset),
    [evaluateExperimentStop] returns no decision and leaves the namespace and
    its write log untouched, whatever the probabilities are.  This holds for
    the keys [handleResults] passes (the sorted keys of [stats]) and for any
    list of keys of [stats] that contains the variant. *)
Theorem evaluateExperimentStop_gated :
  forall (now : string) (experiment : Results.Experiment)
         (stats : gmap nat Results.VariantStats)
         (probabilities : list (option Q)) (expVariantNames : list string)
         (kv : Results.KV) (v : nat) (s : Results.VariantStats),
    stats !! v = Some s ->
    (Results.impressions s
     < match Results.minSamplesPerVariant experiment with
       | Some m => m
       | None => 100
       end)%Z ->
    Results.evaluateExperimentStop now experiment (Results.sorted_keys stats)
      stats probabilities expVariantNames kv
    = (Results.Ok None, kv)
    /\ forall variantKeys : list nat,
         (forall k, k ∈ variantKeys -> is_Some (stats !! k)) ->
         v ∈ variantKeys ->
         Results.evaluateExperimentStop now experiment variantKeys stats
           probabilities expVariantNames kv
         = (Results.Ok None, kv).
Proof.
  intros now experiment stats probabilities expVariantNames kv v s Hs Hlt.
  assert (Hgen : forall variantKeys : list nat,
             (forall k, k ∈ variantKeys -> is_Some (stats !! k)) ->
             v ∈ variantKeys ->
             Results.evaluateExperimentStop now experiment variantKeys stats
               probabilities expVariantNames kv
             = (Results.Ok None, kv)).
  { intros variantKeys Hall Hv.
    unfold Results.evaluateExperimentStop, Results.bind, Results.lift.
    rewrite (every_min_false stats
               (default 100%Z (Results.minSamplesPerVariant experiment))
               variantKeys Hall).
    - reflexivity.
    - exists v, s. split; [exact Hv|]. split; [exact Hs | exact Hlt]. }
  split; [|exact Hgen].
  apply Hgen.
  - intros k Hk. now apply sorted_keys_elem.
  - apply sorted_keys_elem. rewrite Hs. eauto.
Qed.

Lemma evaluateExperimentStop_gated_witness :
  let stats := Fixtures.counts 100 5 100 90 in
  let kv := Fixtures.kv_of Fixtures.stopTest200 None in
  stats !! 0%nat
  = Some {| Results.impressions := 100; Results.conversions := 5;
            Results.totalRevenue := 0 |}
  /\ (100 < 200)%Z
  /\ Results.evaluateExperimentStop "2026-01-01T00:00:00.000Z" Fixtures.stopTest200
       (Results.sorted_keys stats) stats [None; Some 1%Q]
       ["control"; "treatment"] kv
     = (Results.Ok None, kv).
Proof.
  intros stats kv.
  split; [reflexivity|]. split; [lia|].
  assert (Hlow : (100 < 200)%Z) by lia.
  exact (proj1 (evaluateExperimentStop_gated "2026-01-01T00:00:00.000Z"
                  Fixtures.stopTest200 stats [None; Some 1%Q]
                  ["control"; "treatment"] kv 0%nat
                  {| Results.impressions := 100; Results.conversions := 5;
                     Results.totalRevenue := 0 |}
                  eq_refl Hlow)).
Defined.

Section HandleResults.

Lemma sorted_keys_in_stats (stats : gmap nat Results.VariantStats) (k : nat) :
  k ∈ Results.sorted_keys stats -> is_Some (stats !! k).
Proof. apply sorted_keys_elem. Qed.

Lemma mapi_from_ok {A B} (f : A -> nat -> Results.Outcome B) (l : list A) :
  forall i : nat,
    (forall x k, x ∈ l -> exists y, f x k = Results.Ok y) ->
    exists ys, Results.mapi_from f i l = Results.Ok ys /\ length ys = length l.
Proof.
  induction l as [|x l IH]; intros i Hf.
  - exists []. split; reflexivity.
  - destruct (Hf x i ltac:(left)) as [y Hy].
    destruct (IH (S i)) as (ys & Hys & Hlen).
    { intros x' k Hx'. apply Hf. now right. }
    exists (y :: ys). cbn [Results.mapi_from]. rewrite Hy, Hys.
    split; [reflexivity | simpl; now rewrite Hlen].
Qed.

Lemma variantData_ok (stats : gmap nat Results.VariantStats) (v k : nat) :
  v ∈ Results.sorted_keys stats ->
  exists y, Results.variantData stats v k = Results.Ok y.
Proof.
  intros Hv. destruct (sorted_keys_in_stats stats v Hv) as [s Hs].
  unfold Results.variantData, Results.stat. rewrite Hs. eauto.
Qed.

Lemma variantRow_ok (stats : gmap nat Results.VariantStats)
    (names : list string) (probabilities : list (option Q)) (v k : nat) :
  v ∈ Results.sorted_keys stats ->
  exists y, Results.variantRow stats names probabilities v k = Results.Ok y.
Proof.
  intros Hv. destruct (sorted_keys_in_stats stats v Hv) as [s Hs].
  unfold Results.variantRow, Results.stat. rewrite Hs. eauto.
Qed.

Lemma evaluate_inactive (now : string) (e : Results.Experiment)
    (variantKeys : list nat) (stats : gmap nat Results.VariantStats)
    (probabilities : list (option Q)) (expVariantNames : list string)
    (kv : Results.KV) :
  Results.status e <> Results.active ->
  Results.evaluate now (Some e) variantKeys stats probabilities expVariantNames kv
  = (Results.Ok (Some e), kv).
Proof.
  intros Hs. unfold Results.evaluate.
  destruct (Results.status e); [congruence | reflexivity | reflexivity].
Qed.

End HandleResults.

(** C5.  A results evaluation of a record that is not active (paused or
    completed) calls neither evaluator: the evaluation block returns the
    record as read, the request answers with its stored status, winner and
    completion time, and the namespace, with its write log, is exactly what
    it was before the request. *)
Theorem handleResults_inactive_noop :
  forall (experimentId : string) (stats : gmap nat Results.VariantStats)
         (now : string) (g : Stats.Rng) (kv : Results.KV)
         (e : Results.Experiment),
    Results.records kv !! ("experiment:" +:+ experimentId) = Some e ->
    Results.status e <> Results.active ->
    (forall (variantKeys : list nat) (probabilities : list (option Q))
            (expVariantNames : list string),
        Results.evaluate now (Some e) variantKeys stats probabilities
          expVariantNames kv
        = (Results.Ok (Some e), kv))
    /\ exists (resp : Results.Response) (g' : Stats.Rng),
         Results.handleResults experimentId stats now g kv
         = (Results.Ok (resp, g'), kv)
         /\ Results.resp_status resp = Some (Results.status e)
         /\ Results.resp_winner resp = Results.winner e
         /\ Results.resp_completedAt resp = Results.completedAt e
         /\ length (Results.resp_variants resp)
            = length (Results.sorted_keys stats).
Proof.
  intros experimentId stats now g kv e Hrec Hstatus.
  split; [intros; now apply evaluate_inactive|].
  unfold Results.handleResults, Results.bind, Results.get_json, Results.lift.
  rewrite Hrec.
  destruct (mapi_from_ok (Results.variantData stats) (Results.sorted_keys stats) 0)
    as (datas & Hdatas & _).
  { intros v k Hv. now apply variantData_ok. }
  rewrite Hdatas.
  destruct (Stats.multiVariantProbabilities datas g) as [probabilities g'].
  destruct (mapi_from_ok
              (Results.variantRow stats (Results.variants e) probabilities)
              (Results.sorted_keys stats) 0)
    as (rows & Hrows & Hlen).
  { intros v k Hv. now apply variantRow_ok. }
  rewrite Hrows, evaluate_inactive by exact Hstatus.
  eexists _, g'. split; [reflexivity|].
  cbn. repeat split. exact Hlen.
Qed.

Lemma handleResults_inactive_noop_witness :
  let kv := Fixtures.kv_of Fixtures.stoppedTest None in
  let stats := Fixtures.counts 1000 10 1000 900 in
  Results.records kv !! ("experiment:" +:+ "aabbccddeeff") = Some Fixtures.stoppedTest
  /\ Results.status Fixtures.stoppedTest <> Results.active
  /\ exists (resp : Results.Response) (g' : Stats.Rng),
       Results.handleResults "aabbccddeeff" stats "2026-01-01T00:00:00.000Z"
         Fixtures.fixed_draws kv
       = (Results.Ok (resp, g'), kv)
       /\ Results.resp_status resp = Some Results.completed
       /\ Results.resp_winner resp = Some "treatment".
Proof.
  intros kv stats.
  assert (Hrec : Results.records kv !! ("experiment:" +:+ "aabbccddeeff")
                 = Some Fixtures.stoppedTest) by reflexivity.
  assert (Hst : Results.status Fixtures.stoppedTest <> Results.active)
    by discriminate.
  split; [exact Hrec|]. split; [exact Hst|].
  destruct (handleResults_inactive_noop "aabbccddeeff" stats
              "2026-01-01T00:00:00.000Z" Fixtures.fixed_draws kv
              Fixtures.stoppedTest Hrec Hst)
    as (_ & resp & g' & Hrun & Hstatus & Hwinner & _).
  exists resp, g'. split; [exact Hrun|]. split; [exact Hstatus | exact Hwinner].
Defined.

(* ===================================================================== *)
(** * Worked values *)
(* ===================================================================== *)

(** Published FNV-1a 32-bit test vectors. *)
Example fnv1a32_empty : Hash.fnv1a32 (Hash.ascii_units "") = 0x811c9dc5%Z.
Proof. reflexivity. Qed.

Example fnv1a32_a : Hash.fnv1a32 (Hash.ascii_units "a") = 0xe40c292c%Z.
Proof. vm_compute. reflexivity. Qed.

Example fnv1a32_foobar :
  JS.ushr0 (Hash.fnv1a_acc (Hash.ascii_units "foobar")) = 0xbf9cf968%Z.
Proof. vm_compute. reflexivity. Qed.

Example fnv1a_hello : Hash.fnv1a (Hash.ascii_units "hello") = 0.1723%Q.
Proof. vm_compute. reflexivity. Qed.

(** With no variants the clamp to [variantCount - 1] yields the sentinel. *)
Example bucket_zero_variants :
  Hash.bucket (Hash.ascii_units "visitor-1") (Hash.ascii_units "exp") 0 100 None
  = (-1)%Z.
Proof. vm_compute. reflexivity. Qed.

Example clamp_excess : Rmax 0 (Rmin 7 5) = 5%R.
Proof. unfold Rmax, Rmin. repeat destruct (Rle_dec _ _); lra. Qed.

Example clamp_negative : Rmax 0 (Rmin (-3) 5) = 0%R.
Proof. unfold Rmax, Rmin. repeat destruct (Rle_dec _ _); lra. Qed.

Example sorted_keys_numeric :
  Results.sorted_keys (Fixtures.counts 1000 10 1000 900) = [0; 1]%nat.
Proof. vm_compute. reflexivity. Qed.

Example variantName_fallback : Results.variantName ["control"] 3 = "variant 3".
Proof. vm_compute. reflexivity. Qed.

(** Two qualifying evaluations after a reset do not ramp; the third does. *)
Example ramp_first_hit :
  Results.evaluateFlagRamp "t" Fixtures.flagTest [None; Some 0.97%Q]
    (Fixtures.kv_of Fixtures.flagTest None)
  = (Results.Ok None,
     Results.with_text "autostop:f1a9f1a9f1a9" 1
       (Fixtures.kv_of Fixtures.flagTest None)).
Proof. vm_compute. reflexivity. Qed.

Example ramp_interrupted :
  Results.evaluateFlagRamp "t" Fixtures.flagTest [None; Some 0.5%Q]
    (Fixtures.kv_of Fixtures.flagTest (Some 2%Z))
  = (Results.Ok None,
     Results.with_text "autostop:f1a9f1a9f1a9" 0
       (Fixtures.kv_of Fixtures.flagTest (Some 2%Z))).
Proof. vm_compute. reflexivity. Qed.

(** Control wins when the treatment's probability falls below 0.01. *)
Example control_wins :
  fst (Results.evaluateExperimentStop "t" Fixtures.stopTest [0; 1]%nat
         (Fixtures.counts 1000 900 1000 10) [None; Some 0.0004%Q]
         ["control"; "treatment"] (Fixtures.kv_of Fixtures.stopTest None))
  = Results.Ok (Some (Results.completed_with Fixtures.stopTest "control" "t")).
Proof. vm_compute. reflexivity. Qed.

(* ===================================================================== *)
(** * Further properties of bucketing *)
(* ===================================================================== *)

Section BucketRange.

Local Open Scope Q_scope.

Lemma Qle_div_iff (a b p : Q) : 0 < p -> (a <= b / p <-> a * p <= b).
Proof.
  intros Hp. split.
  - intros H. apply Qle_trans with (b / p * p).
    + apply Qmult_le_compat_r; [exact H | now apply Qlt_le_weak].
    + assert (E : b / p * p == b).
      { field. intros E. rewrite E in Hp. discriminate. }
      rewrite E. apply Qle_refl.
  - now apply Qle_shift_div_l.
Qed.

Lemma Qdiv_lt_iff (a b p : Q) : 0 < p -> (b / p < a <-> b < a * p).
Proof.
  intros Hp. split.
  - intros H. apply Qnot_le_lt. intros Hle.
    apply (Qlt_not_le _ _ H). now apply Qle_div_iff.
  - now apply Qlt_shift_div_r.
Qed.

Lemma Qfloor_eq_iff (x : Q) (k : Z) :
  Qfloor x = k <-> inject_Z k <= x /\ x < inject_Z (k + 1).
Proof.
  split.
  - intros <-. split; [apply Qfloor_le | apply Qlt_floor].
  - intros [Hlo Hhi].
    pose proof (Qfloor_le x) as Hf. pose proof (Qlt_floor x) as Hc.
    assert (H1 : (k < Qfloor x + 1)%Z).
    { rewrite Zlt_Qlt. eapply Qle_lt_trans; eassumption. }
    assert (H2 : (Qfloor x < k + 1)%Z).
    { rewrite Zlt_Qlt. eapply Qle_lt_trans; eassumption. }
    lia.
Qed.

Lemma percent_pos (p : Q) : 0 < p <-> 0 < p / 100.
Proof.
  split; intros H.
  - apply Qlt_shift_div_l; [reflexivity|]. now rewrite Qmult_0_l.
  - apply Qnot_le_lt. intros Hle. apply (Qlt_not_le _ _ H).
    apply Qle_shift_div_r; [reflexivity|].
    rewrite Qmult_0_l. exact Hle.
Qed.

(** The rescaled hash times the variant count, written without the nested
    division. *)
Lemma scaled_times_count (n p c : Q) :
  0 < p -> n / (p / 100) * c == n * 100 * c / p.
Proof.
  intros Hp. field. intros E. rewrite E in Hp. discriminate.
Qed.

(** Experiment mode, for at least one variant: either the hash is at or
    above the threshold and the visitor is excluded, or it is below and the
    floor is already a valid index. *)
Lemma bucket_experiment_cases (v e : Hash.jsstring) (c : Z) (p : Q) :
  (1 <= c)%Z ->
  let n := Hash.fnv1a (v ++ e) in
  (p / 100 <= n /\ Hash.bucket v e c p (Some Hash.experiment) = (-1)%Z)
  \/ (n < p / 100 /\ 0 < p
      /\ Hash.bucket v e c p (Some Hash.experiment)
         = Qfloor (n * 100 * inject_Z c / p)
      /\ (0 <= Qfloor (n * 100 * inject_Z c / p) <= c - 1)%Z).
Proof.
  intros Hc n. rewrite bucket_experiment_eq. fold n.
  destruct (fnv1a_unit_interval (v ++ e)) as [Hlo Hhi]. fold n in Hlo, Hhi.
  destruct (Hash.Qgeb n (p / 100)) eqn:Hge.
  - left. split; [now apply Qgeb_ge | reflexivity].
  - right. apply Qgeb_lt in Hge.
    assert (Hp : 0 < p).
    { apply percent_pos. eapply Qle_lt_trans; eassumption. }
    assert (Hc0 : 0 < inject_Z c).
    { change (inject_Z 0 < inject_Z c). rewrite <- Zlt_Qlt. lia. }
    rewrite (Qfloor_comp _ _ (scaled_times_count n p (inject_Z c) Hp)).
    set (x := n * 100 * inject_Z c / p).
    assert (Hx0 : 0 <= x).
    { apply Qle_shift_div_l; [exact Hp|]. rewrite Qmult_0_l.
      apply Qmult_le_0_compat; [apply Qmult_le_0_compat|].
      - exact Hlo.
      - discriminate.
      - now apply Qlt_le_weak. }
    assert (Hxc : x < inject_Z c).
    { apply Qlt_shift_div_r; [exact Hp|].
      assert (E1 : inject_Z c * p == p * inject_Z c) by ring.
      rewrite E1. apply Qmult_lt_compat_r; [exact Hc0|].
      assert (E2 : p / 100 * 100 == p) by field.
      rewrite <- E2. apply Qmult_lt_compat_r; [reflexivity | exact Hge]. }
    assert (Hf0 : (0 <= Qfloor x)%Z).
    { change 0%Z with (Qfloor 0). now apply Qfloor_resp_le. }
    assert (Hfc : (Qfloor x < c)%Z).
    { rewrite Zlt_Qlt. eapply Qle_lt_trans; [apply Qfloor_le | exact Hxc]. }
    split; [exact Hge|]. split; [exact Hp|]. split; lia.
Qed.

End BucketRange.

Lemma bucket_default_type (v e : Hash.jsstring) (c : Z) (p : Q) :
  Hash.bucket v e c p None = Hash.bucket v e c p (Some Hash.experiment).
Proof. reflexivity. Qed.

(** X1.  Flag mode only ever answers 0 or 1, answers 0 for every visitor at
    0% and 1 for every visitor at 100%. *)
Theorem bucket_flag_values :
  forall (v e : Hash.jsstring) (c : Z) (p : Q),
    (Hash.bucket v e c p (Some Hash.flag) = 0%Z
     \/ Hash.bucket v e c p (Some Hash.flag) = 1%Z)
    /\ Hash.bucket v e c 0 (Some Hash.flag) = 0%Z
    /\ Hash.bucket v e c 100 (Some Hash.flag) = 1%Z.
Proof.
  intros v e c p. rewrite !bucket_flag_eq.
  destruct (fnv1a_unit_interval (v ++ e)) as [Hlo Hhi].
  split; [destruct (Hash.Qltb _ (p / 100)); tauto|].
  assert (H0 : Hash.Qltb (Hash.fnv1a (v ++ e)) (0 / 100) = false).
  { apply Qltb_ge. apply Qle_trans with 0%Q; [discriminate | exact Hlo]. }
  assert (H100 : Hash.Qltb (Hash.fnv1a (v ++ e)) (100 / 100) = true).
  { apply Qltb_lt. apply Qlt_le_trans with 1%Q; [exact Hhi | discriminate]. }
  now rewrite H0, H100.
Qed.

(** X2.  Experiment mode with at least one variant: the result is -1 or an
    index between 0 and [variantCount - 1]; for a whole-number
    [trafficPercent] it is -1 exactly when the hash is at or above
    [trafficPercent / 100]. *)
Theorem bucket_experiment_range :
  forall (v e : Hash.jsstring) (c : Z) (p : Q),
    (1 <= c)%Z ->
    (-1 <= Hash.bucket v e c p (Some Hash.experiment) <= c - 1)%Z
    /\ forall z : Z,
         p = inject_Z z ->
         Hash.bucket v e c p (Some Hash.experiment) = (-1)%Z
         <-> (inject_Z z / 100 <= Hash.fnv1a (v ++ e))%Q.
Proof.
  intros v e c p Hc.
  destruct (bucket_experiment_cases v e c p Hc)
    as [[Hge Hb]|(Hlt & Hp & Hb & Hr)]; rewrite Hb.
  - split; [lia|]. intros z ->. tauto.
  - split; [lia|]. intros z ->.
    split; [lia|]. intros Hge. exfalso. now apply (Qlt_not_le _ _ Hlt).
Qed.

Lemma bucket_experiment_range_witness :
  (1 <= 3)%Z
  /\ (-1 <= Hash.bucket (Hash.ascii_units "visitor-1") (Hash.ascii_units "exp-2")
              3 40 (Some Hash.experiment) <= 3 - 1)%Z
  /\ (Hash.bucket (Hash.ascii_units "visitor-1") (Hash.ascii_units "exp-2")
        3 40 (Some Hash.experiment) = (-1)%Z
      <-> (inject_Z 40 / 100
           <= Hash.fnv1a (Hash.ascii_units "visitor-1"
                            ++ Hash.ascii_units "exp-2"))%Q).
Proof.
  split; [lia|].
  pose proof (bucket_experiment_range (Hash.ascii_units "visitor-1")
                (Hash.ascii_units "exp-2") 3 40 ltac:(lia)) as [Hrange Hiff].
  split; [exact Hrange | exact (Hiff 40%Z eq_refl)].
Defined.

(** X3.  Raising the traffic percentage never excludes a visitor that was
    included, even though the variant itself may change. *)
Theorem bucket_experiment_inclusion_monotone :
  forall (v e : Hash.jsstring) (c : Z) (p1 p2 : Q),
    (1 <= c)%Z ->
    (p1 <= p2)%Q ->
    Hash.bucket v e c p1 (Some Hash.experiment) <> (-1)%Z ->
    Hash.bucket v e c p2 (Some Hash.experiment) <> (-1)%Z.
Proof.
  intros v e c p1 p2 Hc Hp Hin.
  destruct (bucket_experiment_cases v e c p1 Hc)
    as [[_ Hb]|(Hlt & _)]; [congruence|].
  destruct (bucket_experiment_cases v e c p2 Hc)
    as [[Hge _]|(_ & _ & Hb & Hr)]; [|rewrite Hb; lia].
  exfalso. apply (Qlt_not_le _ _ Hlt).
  apply Qle_trans with (p2 / 100)%Q; [|exact Hge].
  unfold Qdiv. apply Qmult_le_compat_r; [exact Hp | discriminate].
Qed.

Lemma bucket_experiment_inclusion_monotone_witness :
  (1 <= 2)%Z /\ (10 <= 25)%Q
  /\ Hash.bucket (Hash.ascii_units "visitor-19") (Hash.ascii_units "flag-ramp")
       2 10 (Some Hash.experiment) <> (-1)%Z
  /\ Hash.bucket (Hash.ascii_units "visitor-19") (Hash.ascii_units "flag-ramp")
       2 25 (Some Hash.experiment) <> (-1)%Z.
Proof.
  assert (H10 : Hash.bucket (Hash.ascii_units "visitor-19")
                  (Hash.ascii_units "flag-ramp") 2 10 (Some Hash.experiment)
                <> (-1)%Z) by (vm_compute; discriminate).
  split; [lia|]. split; [discriminate|]. split; [exact H10|].
  apply (bucket_experiment_inclusion_monotone _ _ 2 10 25);
    [lia | discriminate | exact H10].
Defined.

(** X4.  The two modes agree on who is in the traffic sample: a visitor is
    "on" in flag mode exactly when experiment mode does not exclude it. *)
Theorem bucket_flag_on_iff_included :
  forall (v e : Hash.jsstring) (c c' : Z) (p : Q),
    (1 <= c)%Z ->
    Hash.bucket v e c' p (Some Hash.flag) = 1%Z
    <-> Hash.bucket v e c p (Some Hash.experiment) <> (-1)%Z.
Proof.
  intros v e c c' p Hc. rewrite bucket_flag_eq.
  destruct (bucket_experiment_cases v e c p Hc)
    as [[Hge Hb]|(Hlt & _ & Hb & Hr)]; rewrite Hb.
  - apply Qltb_ge in Hge. rewrite Hge. split; [discriminate | congruence].
  - apply Qltb_lt in Hlt. rewrite Hlt. split; [lia | reflexivity].
Qed.

Lemma bucket_flag_on_iff_included_witness :
  (1 <= 2)%Z
  /\ (Hash.bucket (Hash.ascii_units "visitor-0") (Hash.ascii_units "flag-ramp")
        1 10 (Some Hash.flag) = 1%Z
      <-> Hash.bucket (Hash.ascii_units "visitor-0") (Hash.ascii_units "flag-ramp")
            2 10 (Some Hash.experiment) <> (-1)%Z).
Proof.
  split; [lia|].
  apply (bucket_flag_on_iff_included _ _ 2 1 10). lia.
Defined.

(** The slice of variant [k] in the exact arithmetic of [Hash.bucket]. *)
Lemma bucket_experiment_slice :
  forall (v e : Hash.jsstring) (c k : Z) (p : Q),
    (1 <= c)%Z ->
    (0 <= k <= c - 1)%Z ->
    Hash.bucket v e c p (Some Hash.experiment) = k
    <-> (inject_Z k * p <= Hash.fnv1a (v ++ e) * 100 * inject_Z c
         /\ Hash.fnv1a (v ++ e) * 100 * inject_Z c < inject_Z (k + 1) * p)%Q.
Proof.
  intros v e c k p Hc Hk.
  destruct (fnv1a_unit_interval (v ++ e)) as [Hlo _].
  assert (Hc0 : (0 < inject_Z c)%Q).
  { change (inject_Z 0 < inject_Z c)%Q. rewrite <- Zlt_Qlt. lia. }
  assert (Hk1 : (inject_Z (k + 1) <= inject_Z c)%Q).
  { rewrite <- Zle_Qle. lia. }
  assert (Hk0 : (0 < inject_Z (k + 1))%Q).
  { change (inject_Z 0 < inject_Z (k + 1))%Q. rewrite <- Zlt_Qlt. lia. }
  assert (Hn0 : (0 <= Hash.fnv1a (v ++ e) * 100 * inject_Z c)%Q).
  { apply Qmult_le_0_compat; [apply Qmult_le_0_compat|].
    - exact Hlo.
    - discriminate.
    - now apply Qlt_le_weak. }
  destruct (bucket_experiment_cases v e c p Hc)
    as [[Hge Hb]|(Hlt & Hp & Hb & Hr)]; rewrite Hb.
  - split; [lia|]. intros [_ Hup]. exfalso.
    (* 100 c n >= c p >= (k+1) p when p > 0; and (k+1) p <= 0 otherwise *)
    destruct (Qlt_le_dec 0 p) as [Hp|Hp].
    + apply (Qlt_not_le _ _ Hup).
      apply Qle_trans with (inject_Z c * p)%Q.
      * apply Qmult_le_compat_r; [exact Hk1 | now apply Qlt_le_weak].
      * assert (E : (inject_Z c * p == p / 100 * 100 * inject_Z c)%Q) by field.
        rewrite E. apply Qmult_le_compat_r; [|now apply Qlt_le_weak].
        apply Qmult_le_compat_r; [exact Hge | discriminate].
    + apply (Qlt_not_le _ _ Hup).
      apply Qle_trans with 0%Q; [|exact Hn0].
      assert (E : (inject_Z (k + 1) * p == p * inject_Z (k + 1))%Q) by ring.
      rewrite E. apply Qle_trans with (0 * inject_Z (k + 1))%Q.
      * apply Qmult_le_compat_r; [exact Hp | now apply Qlt_le_weak].
      * rewrite Qmult_0_l. apply Qle_refl.
  - rewrite Qfloor_eq_iff.
    rewrite (Qle_div_iff _ _ p Hp), (Qdiv_lt_iff _ _ p Hp). reflexivity.
Qed.

(** X5.  Equal shares, away from the slice boundaries.  For a whole-number
    [trafficPercent] between 0 and 100, write [n] for the hash.  A visitor
    with
    [k * trafficPercent < 100 * variantCount * n < (k + 1) * trafficPercent],
    strictly inside the [k]-th of [variantCount] equal slices of the traffic
    window, gets variant [k]; and a visitor that gets variant [k] has its
    hash in that slice or on one of its two boundaries. *)
Theorem bucket_experiment_equal_shares :
  forall (v e : Hash.jsstring) (c k z : Z),
    (1 <= c)%Z ->
    (0 <= k <= c - 1)%Z ->
    (0 <= z <= 100)%Z ->
    let n := Hash.fnv1a (v ++ e) in
    let p := inject_Z z in
    ((inject_Z k * p < n * 100 * inject_Z c
      /\ n * 100 * inject_Z c < inject_Z (k + 1) * p)%Q ->
     Hash.bucket v e c p (Some Hash.experiment) = k)
    /\ (Hash.bucket v e c p (Some Hash.experiment) = k ->
        (inject_Z k * p <= n * 100 * inject_Z c
         /\ n * 100 * inject_Z c <= inject_Z (k + 1) * p)%Q).
Proof.
  intros v e c k z Hc Hk _ n p.
  pose proof (bucket_experiment_slice v e c k p Hc Hk) as H. fold n in H.
  split.
  - intros [Hlo Hhi]. apply H. split; [now apply Qlt_le_weak | exact Hhi].
  - intros Hb. apply H in Hb as [Hlo Hhi].
    split; [exact Hlo | now apply Qlt_le_weak].
Qed.

Lemma bucket_experiment_equal_shares_witness :
  let n := Hash.fnv1a (Hash.ascii_units "visitor-19"
                         ++ Hash.ascii_units "flag-ramp") in
  (1 <= 2)%Z /\ (0 <= 1 <= 2 - 1)%Z /\ (0 <= 10 <= 100)%Z
  /\ (inject_Z 1 * inject_Z 10 < n * 100 * inject_Z 2
      /\ n * 100 * inject_Z 2 < inject_Z (1 + 1) * inject_Z 10)%Q
  /\ Hash.bucket (Hash.ascii_units "visitor-19") (Hash.ascii_units "flag-ramp")
       2 (inject_Z 10) (Some Hash.experiment) = 1%Z.
Proof.
  intros n.
  assert (Hin : (inject_Z 1 * inject_Z 10 < n * 100 * inject_Z 2
                 /\ n * 100 * inject_Z 2 < inject_Z (1 + 1) * inject_Z 10)%Q)
    by (split; vm_compute; reflexivity).
  split; [lia|]. split; [lia|]. split; [lia|]. split; [exact Hin|].
  exact (proj1 (bucket_experiment_equal_shares (Hash.ascii_units "visitor-19")
                  (Hash.ascii_units "flag-ramp") 2 1 10
                  ltac:(lia) ltac:(lia) ltac:(lia))
           Hin).
Defined.

(** X6.  Experiment mode is not ramp-stable: in a two-variant experiment a
    ramp from 10% to 25% moves every visitor whose hash lies in
    [0.05, 0.10) from variant 1 to variant 0. *)
Theorem bucket_experiment_ramp_flips :
  forall (v e : Hash.jsstring),
    (1 # 20 <= Hash.fnv1a (v ++ e))%Q ->
    (Hash.fnv1a (v ++ e) < 1 # 10)%Q ->
    Hash.bucket v e 2 10 (Some Hash.experiment) = 1%Z
    /\ Hash.bucket v e 2 25 (Some Hash.experiment) = 0%Z.
Proof.
  intros v e Hlo Hhi.
  destruct (fnv1a_unit_interval (v ++ e)) as [H0 _].
  set (n := Hash.fnv1a (v ++ e)) in *.
  assert (E : forall a : Q, (n * 100 * inject_Z 2 / a == n * (200 / a))%Q).
  { intros a. unfold Qdiv. change (inject_Z 2) with 2%Q. ring. }
  split.
  - destruct (bucket_experiment_cases v e 2 10 ltac:(lia))
      as [[Hge _]|(_ & _ & Hb & _)].
    + exfalso. apply (Qlt_not_le _ _ Hhi).
      apply Qle_trans with (10 / 100)%Q; [discriminate | exact Hge].
    + rewrite Hb. apply Qfloor_eq_iff. fold n. rewrite E. split.
      * apply Qle_trans with ((1 # 20) * (200 / 10))%Q; [discriminate|].
        apply Qmult_le_compat_r; [exact Hlo | discriminate].
      * apply Qlt_le_trans with ((1 # 10) * (200 / 10))%Q; [|discriminate].
        apply Qmult_lt_compat_r; [reflexivity | exact Hhi].
  - destruct (bucket_experiment_cases v e 2 25 ltac:(lia))
      as [[Hge _]|(_ & _ & Hb & _)].
    + exfalso. apply (Qlt_not_le _ _ Hhi).
      apply Qle_trans with (25 / 100)%Q; [discriminate | exact Hge].
    + rewrite Hb. apply Qfloor_eq_iff. fold n. rewrite E. split.
      * apply Qmult_le_0_compat; [exact H0 | discriminate].
      * apply Qlt_le_trans with ((1 # 10) * (200 / 25))%Q; [|discriminate].
        apply Qmult_lt_compat_r; [reflexivity | exact Hhi].
Qed.

Lemma bucket_experiment_ramp_flips_witness :
  let v := Hash.ascii_units "visitor-19" in
  let e := Hash.ascii_units "flag-ramp" in
  (1 # 20 <= Hash.fnv1a (v ++ e))%Q
  /\ (Hash.fnv1a (v ++ e) < 1 # 10)%Q
  /\ Hash.bucket v e 2 10 (Some Hash.experiment) = 1%Z
  /\ Hash.bucket v e 2 25 (Some Hash.experiment) = 0%Z.
Proof.
  intros v e.
  assert (Hlo : (1 # 20 <= Hash.fnv1a (v ++ e))%Q) by (vm_compute; discriminate).
  assert (Hhi : (Hash.fnv1a (v ++ e) < 1 # 10)%Q) by (vm_compute; reflexivity).
  split; [exact Hlo|]. split; [exact Hhi|].
  exact (bucket_experiment_ramp_flips v e Hlo Hhi).
Defined.

(* ===================================================================== *)
(** * Further properties of the estimator *)
(* ===================================================================== *)

Lemma draws_per_call_value : Z.of_nat Stats.draws_per_call = 40000%Z.
Proof.
  unfold Stats.draws_per_call. rewrite Nat2Z.inj_mul, samples_nat. reflexivity.
Qed.

Lemma map_from_state (control : Stats.VariantData) (vs : list Stats.VariantData) :
  forall (i : nat) (g : Stats.Rng),
    i <> 0%nat ->
    snd (Stats.map_from control i vs g)
    = Stats.advance (Stats.draws_per_call * length vs) g.
Proof.
  induction vs as [|v vs IH]; intros i g Hi.
  - cbn [Stats.map_from snd length]. now rewrite Nat.mul_0_r, advance_0.
  - cbn [Stats.map_from].
    destruct (Nat.eqb_spec i 0) as [->|_]; [congruence|].
    pose proof (bayesianProbability_state
                  (Stats.conversions control) (Stats.total control)
                  (Stats.conversions v) (Stats.total v) g) as Hst.
    destruct (Stats.bayesianProbability _ _ _ _ g) as [x g'].
    cbn [snd] in Hst. subst g'.
    specialize (IH (S i) (Stats.advance Stats.draws_per_call g) ltac:(lia)).
    destruct (Stats.map_from control (S i) vs _) as [l r].
    cbn [snd] in IH |- *. rewrite IH, advance_advance. f_equal.
    cbn [length]. lia.
Qed.

(** Cost of the estimator in random draws: one call of
    [bayesianProbability] always consumes 40,000 numbers (the loop has no
    early exit and no dependence on the counts), and
    [multiVariantProbabilities] consumes that amount once per non-control
    variant and nothing for the control. *)
Theorem estimator_draws_consumed :
  forall (variants : list Stats.VariantData) (a b c d : R) (g : Stats.Rng),
    Z.of_nat Stats.draws_per_call = 40000%Z
    /\ snd (Stats.bayesianProbability a b c d g)
       = Stats.advance Stats.draws_per_call g
    /\ snd (Stats.multiVariantProbabilities variants g)
       = Stats.advance (Stats.draws_per_call * (length variants - 1)) g.
Proof.
  intros variants a b c d g.
  split; [apply draws_per_call_value|].
  split; [apply bayesianProbability_state|].
  destruct variants as [|control rest].
  - cbn [Stats.multiVariantProbabilities snd length].
    now rewrite Nat.mul_0_r, advance_0.
  - cbn [Stats.multiVariantProbabilities Stats.map_from Nat.eqb].
    pose proof (map_from_state control rest 1 g ltac:(lia)) as Hst.
    destruct (Stats.map_from control 1 rest g) as [l r].
    cbn [snd length] in Hst |- *. rewrite Hst. f_equal. lia.
Qed.

(* ===================================================================== *)
(** * Properties of the aggregation loops *)
(* ===================================================================== *)

Section AggregationFacts.

Context {K : Type} `{Countable K}.

Implicit Types (stats : gmap K Results.VariantStats) (v : K).

Lemma touch_lookup stats v k :
  Aggregation.touch stats v !! k
  = if decide (v = k) then Some (default Aggregation.zero (stats !! v))
    else stats !! k.
Proof.
  unfold Aggregation.touch. destruct (stats !! v) as [s|] eqn:Hs.
  - destruct (decide (v = k)) as [<-|]; [now rewrite Hs | reflexivity].
  - destruct (decide (v = k)) as [<-|Hne].
    + now rewrite lookup_insert_eq.
    + now rewrite lookup_insert_ne.
Qed.

Lemma add_row_lookup stats (row : Aggregation.AERow) k :
  Aggregation.add_row stats row !! k
  = if decide (Aggregation.variant row = k)
    then Some (Aggregation.row_effect row
                 (default Aggregation.zero (stats !! Aggregation.variant row)))
    else stats !! k.
Proof.
  unfold Aggregation.add_row, Aggregation.row_effect. cbv zeta.
  destruct (String.eqb (Aggregation.eventType row) "impression");
    [|destruct (String.eqb (Aggregation.eventType row) "conversion")];
    rewrite ?lookup_alter, touch_lookup;
    destruct (decide (Aggregation.variant row = k)) as [<-|Hne];
    rewrite ?touch_lookup; repeat case_decide; try congruence; reflexivity.
Qed.

Lemma add_revenue_lookup stats (row : Aggregation.AERevenueRow) k :
  Aggregation.add_revenue stats row !! k
  = if decide (Aggregation.revenue_variant row = k)
    then Some (Aggregation.add_totalRevenue (Aggregation.total_revenue row)
                 (default Aggregation.zero
                    (stats !! Aggregation.revenue_variant row)))
    else stats !! k.
Proof.
  unfold Aggregation.add_revenue. cbv zeta.
  rewrite lookup_alter, touch_lookup.
  destruct (decide (Aggregation.revenue_variant row = k)) as [<-|Hne];
    rewrite ?touch_lookup; repeat case_decide; try congruence; reflexivity.
Qed.

Lemma stats_ext (a a' b b' : Z) (c c' : Q) :
  a = a' -> b = b' -> c = c' ->
  Some {| Results.impressions := a; Results.conversions := b;
          Results.totalRevenue := c |}
  = Some {| Results.impressions := a'; Results.conversions := b';
            Results.totalRevenue := c' |}.
Proof. now intros -> -> ->. Qed.

Lemma fold_add_shift (l : list Z) (a : Z) :
  fold_left Z.add l a = (a + fold_left Z.add l 0)%Z.
Proof.
  revert a. induction l as [|x l IH]; intros a; cbn [fold_left]; [lia|].
  rewrite IH, (IH (0 + x)%Z). lia.
Qed.

Lemma counted_cons v (ty : string) (row : Aggregation.AERow)
    (rows : list Aggregation.AERow) :
  Aggregation.counted v ty (row :: rows)
  = ((if bool_decide (Aggregation.variant row = v)
         && String.eqb (Aggregation.eventType row) ty
      then Aggregation.count row else 0)
     + Aggregation.counted v ty rows)%Z.
Proof.
  unfold Aggregation.counted. cbn [List.filter].
  destruct (bool_decide (Aggregation.variant row = v)
            && String.eqb (Aggregation.eventType row) ty);
    cbn [map fold_left]; [|lia].
  rewrite fold_add_shift. lia.
Qed.

Lemma counted_absent v (ty : string) (rows : list Aggregation.AERow) :
  existsb (fun r => bool_decide (Aggregation.variant r = v)) rows = false ->
  Aggregation.counted v ty rows = 0%Z.
Proof.
  induction rows as [|row rows IH]; [reflexivity|].
  cbn [existsb]. intros Hex. apply orb_false_elim in Hex as [Hrow Hrest].
  rewrite counted_cons, Hrow, (IH Hrest). reflexivity.
Qed.

(** The entry of [v] after the first loop, when it exists beforehand. *)
Lemma rows_fold_some (rows : list Aggregation.AERow) :
  forall stats v (s : Results.VariantStats),
    stats !! v = Some s ->
    fold_left Aggregation.add_row rows stats !! v
    = Some {| Results.impressions :=
                Results.impressions s + Aggregation.counted v "impression" rows;
              Results.conversions :=
                Results.conversions s + Aggregation.counted v "conversion" rows;
              Results.totalRevenue := Results.totalRevenue s |}.
Proof.
  induction rows as [|row rows IH]; intros stats v s Hs; cbn [fold_left].
  - rewrite Hs. destruct s. unfold Aggregation.counted.
    cbn [List.filter map fold_left Results.impressions Results.conversions
         Results.totalRevenue].
    apply stats_ext; [lia | lia | reflexivity].
  - assert (Hstep : Aggregation.add_row stats row !! v
                    = Some (if decide (Aggregation.variant row = v)
                            then Aggregation.row_effect row s else s)).
    { rewrite add_row_lookup.
      destruct (decide (Aggregation.variant row = v)) as [E|_];
        [rewrite E, Hs; reflexivity | exact Hs]. }
    rewrite (IH _ _ _ Hstep), !counted_cons.
    unfold Aggregation.row_effect.
    destruct (decide (Aggregation.variant row = v)) as [E|Hne].
    + rewrite (bool_decide_eq_true_2 _ E). cbn [andb].
      destruct (String.eqb_spec (Aggregation.eventType row) "impression") as [Ei|_].
      * rewrite Ei. cbn. apply stats_ext; [lia | lia | reflexivity].
      * destruct (String.eqb (Aggregation.eventType row) "conversion");
          cbn; apply stats_ext; first [lia | reflexivity].
    + rewrite (bool_decide_eq_false_2 _ Hne). cbn [andb].
      apply stats_ext; [lia | lia | reflexivity].
Qed.

(** The entry of [v] after the first loop, when it is absent beforehand. *)
Lemma rows_fold_none (rows : list Aggregation.AERow) :
  forall stats v,
    stats !! v = None ->
    fold_left Aggregation.add_row rows stats !! v
    = if existsb (fun r => bool_decide (Aggregation.variant r = v)) rows
      then Some {| Results.impressions := Aggregation.counted v "impression" rows;
                   Results.conversions := Aggregation.counted v "conversion" rows;
                   Results.totalRevenue := 0 |}
      else None.
Proof.
  induction rows as [|row rows IH]; intros stats v Hs; cbn [fold_left existsb].
  - exact Hs.
  - destruct (decide (Aggregation.variant row = v)) as [E|Hne].
    + rewrite (bool_decide_eq_true_2 _ E). cbn [orb].
      assert (Hstep : Aggregation.add_row stats row !! v
                      = Some (Aggregation.row_effect row Aggregation.zero)).
      { rewrite add_row_lookup, decide_True by exact E. now rewrite E, Hs. }
      rewrite (rows_fold_some rows _ _ _ Hstep), !counted_cons.
      rewrite (bool_decide_eq_true_2 _ E). cbn [andb].
      unfold Aggregation.row_effect.
      destruct (String.eqb_spec (Aggregation.eventType row) "impression") as [Ei|_].
      * rewrite Ei. cbn. apply stats_ext; [lia | lia | reflexivity].
      * destruct (String.eqb (Aggregation.eventType row) "conversion");
          cbn; apply stats_ext; first [lia | reflexivity].
    + rewrite (bool_decide_eq_false_2 _ Hne). cbn [orb].
      assert (Hstep : Aggregation.add_row stats row !! v = None).
      { rewrite add_row_lookup, decide_False by exact Hne. exact Hs. }
      rewrite (IH _ _ Hstep), !counted_cons.
      rewrite (bool_decide_eq_false_2 _ Hne). cbn [andb]. reflexivity.
Qed.

(** The entry of [v] after the second loop. *)
Lemma revenue_fold_some (revenueRows : list Aggregation.AERevenueRow) :
  forall stats v (s : Results.VariantStats),
    stats !! v = Some s ->
    fold_left Aggregation.add_revenue revenueRows stats !! v
    = Some {| Results.impressions := Results.impressions s;
              Results.conversions := Results.conversions s;
              Results.totalRevenue :=
                fold_left Qplus
                  (map Aggregation.total_revenue
                     (List.filter
                        (fun r => bool_decide (Aggregation.revenue_variant r = v))
                        revenueRows))
                  (Results.totalRevenue s) |}.
Proof.
  induction revenueRows as [|row rows IH]; intros stats v s Hs;
    cbn [fold_left List.filter map].
  - rewrite Hs. now destruct s.
  - destruct (decide (Aggregation.revenue_variant row = v)) as [E|Hne].
    + rewrite (bool_decide_eq_true_2 _ E). cbn [map fold_left].
      assert (Hstep : Aggregation.add_revenue stats row !! v
                      = Some (Aggregation.add_totalRevenue
                                (Aggregation.total_revenue row) s)).
      { rewrite add_revenue_lookup, decide_True by exact E. now rewrite E, Hs. }
      now rewrite (IH _ _ _ Hstep).
    + rewrite (bool_decide_eq_false_2 _ Hne).
      assert (Hstep : Aggregation.add_revenue stats row !! v = Some s).
      { rewrite add_revenue_lookup, decide_False by exact Hne. exact Hs. }
      now rewrite (IH _ _ _ Hstep).
Qed.

Lemma revenue_fold_none (revenueRows : list Aggregation.AERevenueRow) :
  forall stats v,
    stats !! v = None ->
    fold_left Aggregation.add_revenue revenueRows stats !! v
    = if existsb (fun r => bool_decide (Aggregation.revenue_variant r = v))
           revenueRows
      then Some {| Results.impressions := 0; Results.conversions := 0;
                   Results.totalRevenue := Aggregation.revenue v revenueRows |}
      else None.
Proof.
  induction revenueRows as [|row rows IH]; intros stats v Hs;
    cbn [fold_left existsb].
  - exact Hs.
  - unfold Aggregation.revenue. cbn [List.filter].
    destruct (decide (Aggregation.revenue_variant row = v)) as [E|Hne].
    + rewrite (bool_decide_eq_true_2 _ E). cbn [orb map fold_left].
      assert (Hstep : Aggregation.add_revenue stats row !! v
                      = Some (Aggregation.add_totalRevenue
                                (Aggregation.total_revenue row) Aggregation.zero)).
      { rewrite add_revenue_lookup, decide_True by exact E. now rewrite E, Hs. }
      now rewrite (revenue_fold_some rows _ _ _ Hstep).
    + rewrite (bool_decide_eq_false_2 _ Hne). cbn [orb].
      assert (Hstep : Aggregation.add_revenue stats row !! v = None).
      { rewrite add_revenue_lookup, decide_False by exact Hne. exact Hs. }
      now rewrite (IH _ _ Hstep).
Qed.

(** X7.  The aggregate has an entry for exactly the variants that some
    count row or revenue row mentions; the entry's impressions and
    conversions are the sums of the counts of that variant's "impression"
    and "conversion" rows (rows of any other event type add nothing), and
    its revenue is the sum of that variant's revenue rows. *)
Theorem aggregate_lookup :
  forall (rows : list Aggregation.AERow)
         (revenueRows : list Aggregation.AERevenueRow) (v : K),
    Aggregation.aggregate rows revenueRows !! v
    = if Aggregation.mentioned v rows revenueRows
      then Some {| Results.impressions := Aggregation.counted v "impression" rows;
                   Results.conversions := Aggregation.counted v "conversion" rows;
                   Results.totalRevenue := Aggregation.revenue v revenueRows |}
      else None.
Proof.
  intros rows revenueRows v. unfold Aggregation.aggregate, Aggregation.mentioned.
  pose proof (rows_fold_none rows ∅ v (lookup_empty v)) as Hrows.
  destruct (existsb (fun r => bool_decide (Aggregation.variant r = v)) rows)
    eqn:Hex.
  - cbn [orb]. rewrite (revenue_fold_some revenueRows _ _ _ Hrows). reflexivity.
  - cbn [orb]. rewrite (revenue_fold_none revenueRows _ _ Hrows).
    now rewrite !(counted_absent v _ rows Hex).
Qed.

End AggregationFacts.

(* ===================================================================== *)
(** * Further properties of the evaluators *)
(* ===================================================================== *)

Section StopOutcome.

Variables (now : string) (experiment : Results.Experiment).
Variables (probabilities : list (option Q)) (expVariantNames : list string).

(** The loop either runs to its end without writing, or stops once, at one
    of the keys it was given, and writes the completed record. *)
Lemma stop_loop_outcome (control : nat) (rest : list nat) :
  forall (i : nat) (kv : Results.KV),
    Results.stop_loop now experiment probabilities expVariantNames control rest i kv
    = (Results.Ok None, kv)
    \/ exists v : nat,
         (v = control \/ v ∈ rest)
         /\ Results.stop_loop now experiment probabilities expVariantNames
              control rest i kv
            = (Results.Ok
                 (Some (Results.completed_with experiment
                          (Results.variantName expVariantNames v) now)),
               Results.with_json (Results.recordKey experiment)
                 (Results.completed_with experiment
                    (Results.variantName expVariantNames v) now) kv).
Proof.
  induction rest as [|v rest IH]; intros i kv; [now left|].
  cbn [Results.stop_loop]. cbv zeta.
  assert (Hnext :
    Results.stop_loop now experiment probabilities expVariantNames control rest
      (S i) kv = (Results.Ok None, kv)
    \/ exists v' : nat,
         (v' = control \/ v' ∈ v :: rest)
         /\ Results.stop_loop now experiment probabilities expVariantNames
              control rest (S i) kv
            = (Results.Ok
                 (Some (Results.completed_with experiment
                          (Results.variantName expVariantNames v') now)),
               Results.with_json (Results.recordKey experiment)
                 (Results.completed_with experiment
                    (Results.variantName expVariantNames v') now) kv)).
  { destruct (IH (S i) kv) as [Hn|(v' & [Hv'|Hv'] & Hr)]; [now left|right..].
    - exists v'. split; [now left | exact Hr].
    - exists v'. split; [right; now right | exact Hr]. }
  destruct (probabilities !! i) as [[p|]|]; cbn [Results.prob_gt Results.prob_lt];
    try exact Hnext.
  destruct (Hash.Qltb 0.99 p).
  - right. exists v. split; [right; left | reflexivity].
  - destruct (Hash.Qltb p 0.01); [|exact Hnext].
    right. exists control. split; [now left | reflexivity].
Qed.

Lemma evaluateExperimentStop_outcome (variantKeys : list nat)
    (stats : gmap nat Results.VariantStats) (kv : Results.KV) :
  let run := Results.evaluateExperimentStop now experiment variantKeys stats
               probabilities expVariantNames kv in
  (run = (Results.Thrown, kv)
   /\ exists k, k ∈ variantKeys /\ stats !! k = None)
  \/ run = (Results.Ok None, kv)
  \/ exists v : nat,
       v ∈ variantKeys
       /\ run = (Results.Ok
                   (Some (Results.completed_with experiment
                            (Results.variantName expVariantNames v) now)),
                 Results.with_json (Results.recordKey experiment)
                   (Results.completed_with experiment
                      (Results.variantName expVariantNames v) now) kv).
Proof.
  intros run. subst run.
  unfold Results.evaluateExperimentStop, Results.bind, Results.lift.
  destruct (Results.every_min variantKeys stats _) as [[|]|] eqn:Hmin.
  - cbn [negb]. destruct variantKeys as [|control rest]; [right; now left|].
    destruct (stop_loop_outcome control rest 1 kv) as [Hn|(v & Hv & Hr)].
    + right. now left.
    + right. right. exists v. split; [|exact Hr].
      destruct Hv as [->|Hv]; [left | now right].
  - right. now left.
  - left. split; [reflexivity|].
    clear -Hmin. induction variantKeys as [|k keys IH];
      cbn [Results.every_min] in Hmin; [discriminate|].
    unfold Results.stat in Hmin. destruct (stats !! k) as [s|] eqn:Hk.
    + destruct (_ <=? _)%Z; [|discriminate].
      destruct (IH Hmin) as (k' & Hk' & Hnone).
      exists k'. split; [now right | exact Hnone].
    + exists k. split; [left | exact Hk].
Qed.

End StopOutcome.

(** X8.  What [evaluateExperimentStop] can do, on any input: throw without
    writing (only when a key is missing from [stats]), return no decision
    without writing, or return a record that is [experiment] with
    [status = completed], a winner named after one of the given keys, and
    [completedAt] and [updatedAt] the current time, each of the other eight
    fields being that of [experiment]; in that case the namespace changes by
    exactly one put, of that record under the experiment's own key, and no
    counter is touched. *)
Theorem evaluateExperimentStop_effects :
  forall (now : string) (experiment : Results.Experiment)
         (variantKeys : list nat) (stats : gmap nat Results.VariantStats)
         (probabilities : list (option Q)) (expVariantNames : list string)
         (kv : Results.KV),
    let run := Results.evaluateExperimentStop now experiment variantKeys stats
                 probabilities expVariantNames kv in
    (run = (Results.Thrown, kv)
     /\ exists k, k ∈ variantKeys /\ stats !! k = None)
    \/ run = (Results.Ok None, kv)
    \/ exists (v : nat) (updated : Results.Experiment),
         v ∈ variantKeys
         /\ fst run = Results.Ok (Some updated)
         /\ Results.winner updated = Some (Results.variantName expVariantNames v)
         /\ Results.status updated = Results.completed
         /\ Results.completedAt updated = Some now
         /\ Results.updatedAt updated = now
         /\ Results.id updated = Results.id experiment
         /\ Results.name updated = Results.name experiment
         /\ Results.variants updated = Results.variants experiment
         /\ Results.trafficPercent updated = Results.trafficPercent experiment
         /\ Results.type updated = Results.type experiment
         /\ Results.createdAt updated = Results.createdAt experiment
         /\ Results.minSamplesPerVariant updated
            = Results.minSamplesPerVariant experiment
         /\ Results.autoStop updated = Results.autoStop experiment
         /\ Results.records (snd run)
            = <[Results.recordKey experiment := updated]> (Results.records kv)
         /\ Results.counters (snd run) = Results.counters kv
         /\ Results.puts (snd run)
            = Results.puts kv ++ [(Results.recordKey experiment, Results.Json updated)].
Proof.
  intros now experiment variantKeys stats probabilities expVariantNames kv run.
  destruct (evaluateExperimentStop_outcome now experiment probabilities
              expVariantNames variantKeys stats kv)
    as [Ht|[Hn|(v & Hv & Hr)]]; fold run in Ht || fold run in Hn || fold run in Hr.
  - now left.
  - right. now left.
  - right. right. exists v. eexists. rewrite Hr. cbn [fst snd].
    split; [exact Hv|]. repeat (split; [reflexivity|]). reflexivity.
Qed.

(** With events for fewer than two variants there is nothing to
    compare: [evaluateExperimentStop] returns no decision and writes
    nothing, whatever the probabilities array holds. *)
Theorem evaluateExperimentStop_needs_two_variants :
  forall (now : string) (experiment : Results.Experiment)
         (variantKeys : list nat) (stats : gmap nat Results.VariantStats)
         (probabilities : list (option Q)) (expVariantNames : list string)
         (kv : Results.KV),
    (length variantKeys <= 1)%nat ->
    (forall k, k ∈ variantKeys -> is_Some (stats !! k)) ->
    Results.evaluateExperimentStop now experiment variantKeys stats
      probabilities expVariantNames kv
    = (Results.Ok None, kv).
Proof.
  intros now experiment variantKeys stats probabilities expVariantNames kv Hlen Hall.
  unfold Results.evaluateExperimentStop, Results.bind, Results.lift.
  destruct variantKeys as [|k [|k' rest]]; [reflexivity| |simpl in Hlen; lia].
  cbn [Results.every_min]. unfold Results.stat.
  destruct (Hall k ltac:(left)) as [s ->].
  now destruct (_ <=? _)%Z.
Qed.

Lemma evaluateExperimentStop_needs_two_variants_witness :
  let stats : gmap nat Results.VariantStats :=
    {[ 0%nat := {| Results.impressions := 1000; Results.conversions := 10;
                   Results.totalRevenue := 0 |} ]} in
  let kv := Fixtures.kv_of Fixtures.stopTest None in
  (length [0%nat] <= 1)%nat
  /\ (forall k, k ∈ [0%nat] -> is_Some (stats !! k))
  /\ Results.evaluateExperimentStop "2026-01-01T00:00:00.000Z" Fixtures.stopTest
       [0%nat] stats [None] ["control"; "treatment"] kv
     = (Results.Ok None, kv).
Proof.
  intros stats kv.
  assert (Hall : forall k, k ∈ [0%nat] -> is_Some (stats !! k)).
  { intros k Hk. apply list_elem_of_singleton in Hk as ->. eexists. reflexivity. }
  split; [simpl; lia|]. split; [exact Hall|].
  apply evaluateExperimentStop_needs_two_variants; [simpl; lia | exact Hall].
Defined.

Section RampOutcome.

Variables (now : string) (experiment : Results.Experiment).

(** Every run of [evaluateFlagRamp] is one of: the null early return, a
    counter write alone, or a counter write, the ramped record, and the
    counter reset. *)
Lemma evaluateFlagRamp_outcome (probabilities : list (option Q)) (kv : Results.KV) :
  let key := Results.counterKey experiment in
  let run := Results.evaluateFlagRamp now experiment probabilities kv in
  run = (Results.Ok None, kv)
  \/ (exists n : Z, run = (Results.Ok None, Results.with_text key n kv))
  \/ exists (next : Q) (n : Z),
       Results.next_step (Results.trafficPercent experiment) next
       /\ run = (Results.Ok (Some (Results.ramped_to experiment next now)),
                 Results.with_text key 0
                   (Results.with_json (Results.recordKey experiment)
                      (Results.ramped_to experiment next now)
                      (Results.with_text key n kv))).
Proof.
  intros key run. subst run.
  destruct (probabilities !! 1%nat) as [[p|]|] eqn:Hp.
  - destruct (Hash.Qltb Results.FLAG_RAMP_THRESHOLD p) eqn:Hgt.
    + apply Qltb_lt in Hgt.
      rewrite (ramp_above now experiment probabilities p kv Hp Hgt). cbv zeta.
      destruct (3 <=? Results.incremented experiment kv)%Z;
        [|right; left; eexists; reflexivity].
      destruct (find _ Results.RAMP_SCHEDULE) as [next|] eqn:Hfind;
        [|right; left; eexists; reflexivity].
      right. right. exists next. eexists. split; [|reflexivity].
      now apply find_next_step.
    + right. left. exists 0%Z. apply ramp_below; rewrite Hp; [discriminate|].
      exact Hgt.
  - left. unfold Results.evaluateFlagRamp. now rewrite Hp.
  - right. left. exists 0%Z. apply ramp_below; rewrite Hp; [discriminate|].
    reflexivity.
Qed.

Lemma next_step_bounds (current next : Q) :
  Results.next_step current next -> (current < next)%Q /\ (next <= 100)%Q.
Proof.
  intros (Hin & Hlt & _). split; [exact Hlt|].
  unfold Results.RAMP_SCHEDULE in Hin. cbn [In] in Hin.
  repeat (destruct Hin as [<-|Hin]; [discriminate|]). contradiction.
Qed.

End RampOutcome.

(** X9.  What [evaluateFlagRamp] can do, on any input.  It never throws.
    When it returns a record, that record is [experiment] with a new
    [trafficPercent] taken from the schedule, strictly larger than before
    and at most 100, and the current time as [updatedAt]; each of the other
    ten fields is that of [experiment]; the record is stored under the flag's
    own key and the counter reads 0 afterwards.  When it returns no record,
    no experiment record has been written. *)
Theorem evaluateFlagRamp_effects :
  forall (now : string) (experiment : Results.Experiment)
         (probabilities : list (option Q)) (kv : Results.KV),
    let run := Results.evaluateFlagRamp now experiment probabilities kv in
    fst run <> Results.Thrown
    /\ (fst run = Results.Ok None -> Results.records (snd run) = Results.records kv)
    /\ forall updated : Results.Experiment,
         fst run = Results.Ok (Some updated) ->
         In (Results.trafficPercent updated) Results.RAMP_SCHEDULE
         /\ (Results.trafficPercent experiment < Results.trafficPercent updated)%Q
         /\ (Results.trafficPercent updated <= 100)%Q
         /\ Results.updatedAt updated = now
         /\ Results.status updated = Results.status experiment
         /\ Results.winner updated = Results.winner experiment
         /\ Results.completedAt updated = Results.completedAt experiment
         /\ Results.variants updated = Results.variants experiment
         /\ Results.id updated = Results.id experiment
         /\ Results.type updated = Results.type experiment
         /\ Results.name updated = Results.name experiment
         /\ Results.createdAt updated = Results.createdAt experiment
         /\ Results.minSamplesPerVariant updated
            = Results.minSamplesPerVariant experiment
         /\ Results.autoStop updated = Results.autoStop experiment
         /\ Results.records (snd run)
            = <[Results.recordKey experiment := updated]> (Results.records kv)
         /\ Results.counters (snd run) !! Results.counterKey experiment = Some 0%Z.
Proof.
  intros now experiment probabilities kv run.
  destruct (evaluateFlagRamp_outcome now experiment probabilities kv)
    as [Hr|[(n & Hr)|(next & n & Hnext & Hr)]]; fold run in Hr; rewrite Hr;
    cbn [fst snd].
  - split; [discriminate|]. split; [reflexivity | discriminate].
  - split; [discriminate|]. split; [reflexivity | discriminate].
  - split; [discriminate|]. split; [discriminate|].
    intros updated Hu. injection Hu as <-.
    destruct (next_step_bounds _ _ Hnext) as [Hlt Hle].
    destruct Hnext as (Hin & _).
    cbn [Results.ramped_to Results.trafficPercent Results.updatedAt
         Results.status Results.winner Results.completedAt Results.variants
         Results.id Results.type Results.name Results.createdAt
         Results.minSamplesPerVariant Results.autoStop].
    repeat (split; [first [assumption | reflexivity]|]).
    apply with_text_counter.
Qed.

Lemma evaluateFlagRamp_effects_witness :
  let kv := Fixtures.kv_of Fixtures.flagTest (Some 2%Z) in
  let run := Results.evaluateFlagRamp "2026-01-01T00:00:00.000Z" Fixtures.flagTest
               [None; Some 0.97%Q] kv in
  fst run = Results.Ok
              (Some (Results.ramped_to Fixtures.flagTest 25
                       "2026-01-01T00:00:00.000Z"))
  /\ (Results.trafficPercent Fixtures.flagTest
      < Results.trafficPercent
          (Results.ramped_to Fixtures.flagTest 25 "2026-01-01T00:00:00.000Z"))%Q.
Proof.
  intros kv run.
  assert (Hrun : fst run = Results.Ok
                   (Some (Results.ramped_to Fixtures.flagTest 25
                            "2026-01-01T00:00:00.000Z")))
    by (vm_compute; reflexivity).
  split; [exact Hrun|].
  pose proof (evaluateFlagRamp_effects "2026-01-01T00:00:00.000Z" Fixtures.flagTest
                [None; Some 0.97%Q] kv) as H.
  cbv zeta in H. destruct H as (_ & _ & H).
  exact (proj1 (proj2 (H _ Hrun))).
Defined.

Section RampSequences.

Variables (experiment : Results.Experiment).

Let key : string := Results.counterKey experiment.

Lemma ramp_hit_below_three (now : string) (probabilities : list (option Q))
    (p : Q) (kv : Results.KV) :
  probabilities !! 1%nat = Some (Some p) ->
  (0.95 < p)%Q ->
  (Results.incremented experiment kv < 3)%Z ->
  Results.evaluateFlagRamp now experiment probabilities kv
  = (Results.Ok None,
     Results.with_text key (Results.incremented experiment kv) kv).
Proof.
  intros Hp Hgt Hlt.
  rewrite (ramp_above now experiment probabilities p kv Hp Hgt). cbv zeta.
  apply Z.leb_gt in Hlt. now rewrite Hlt.
Qed.

Lemma incremented_after_text (n : Z) (kv : Results.KV) :
  Results.incremented experiment (Results.with_text key n kv) = (n + 1)%Z.
Proof.
  unfold Results.incremented. fold key. now rewrite with_text_counter.
Qed.

End RampSequences.

(** X10.  Three consecutive qualifying evaluations ramp once, on the third:
    starting with no counter or with a counter of 0, the first two
    evaluations above 0.95 only write the counter (1, then 2) and the third
    persists the next schedule step and resets the counter to 0. *)
Theorem three_hits_ramp_once :
  forall (experiment : Results.Experiment) (now1 now2 now3 : string)
         (probs1 probs2 probs3 : list (option Q)) (p1 p2 p3 next : Q)
         (kv : Results.KV),
    probs1 !! 1%nat = Some (Some p1) -> (0.95 < p1)%Q ->
    probs2 !! 1%nat = Some (Some p2) -> (0.95 < p2)%Q ->
    probs3 !! 1%nat = Some (Some p3) -> (0.95 < p3)%Q ->
    (Results.counters kv !! Results.counterKey experiment = None
     \/ Results.counters kv !! Results.counterKey experiment = Some 0%Z) ->
    Results.next_step (Results.trafficPercent experiment) next ->
    let run1 := Results.evaluateFlagRamp now1 experiment probs1 kv in
    let run2 := Results.evaluateFlagRamp now2 experiment probs2 (snd run1) in
    let run3 := Results.evaluateFlagRamp now3 experiment probs3 (snd run2) in
    fst run1 = Results.Ok None
    /\ Results.counters (snd run1) !! Results.counterKey experiment = Some 1%Z
    /\ fst run2 = Results.Ok None
    /\ Results.counters (snd run2) !! Results.counterKey experiment = Some 2%Z
    /\ Results.records (snd run2) = Results.records kv
    /\ fst run3 = Results.Ok (Some (Results.ramped_to experiment next now3))
    /\ Results.records (snd run3) !! Results.recordKey experiment
       = Some (Results.ramped_to experiment next now3)
    /\ Results.counters (snd run3) !! Results.counterKey experiment = Some 0%Z.
Proof.
  intros experiment now1 now2 now3 probs1 probs2 probs3 p1 p2 p3 next kv
         Hp1 Hg1 Hp2 Hg2 Hp3 Hg3 Hc Hnext run1 run2 run3.
  assert (Hinc : Results.incremented experiment kv = 1%Z).
  { unfold Results.incremented. destruct Hc as [-> | ->]; reflexivity. }
  assert (H1 : run1 = (Results.Ok None,
                       Results.with_text (Results.counterKey experiment) 1 kv)).
  { subst run1. rewrite (ramp_hit_below_three experiment now1 probs1 p1 kv Hp1 Hg1);
      rewrite Hinc; [reflexivity | lia]. }
  assert (H2 : run2 = (Results.Ok None,
                       Results.with_text (Results.counterKey experiment) 2
                         (Results.with_text (Results.counterKey experiment) 1 kv))).
  { subst run2. rewrite H1. cbn [snd].
    rewrite (ramp_hit_below_three experiment now2 probs2 p2 _ Hp2 Hg2);
      rewrite incremented_after_text; [reflexivity | lia]. }
  assert (H3 : run3 = (Results.Ok (Some (Results.ramped_to experiment next now3)),
                       Results.with_text (Results.counterKey experiment) 0
                         (Results.with_json (Results.recordKey experiment)
                            (Results.ramped_to experiment next now3)
                            (Results.with_text (Results.counterKey experiment) 3
                               (snd run2))))).
  { subst run3. rewrite H2. cbn [snd].
    rewrite (ramp_above now3 experiment probs3 p3 _ Hp3 Hg3). cbv zeta.
    rewrite incremented_after_text. cbn [Z.add Z.leb Z.compare Pos.compare
                                           Pos.add Pos.succ Pos.compare_cont].
    apply find_next_step in Hnext. now rewrite Hnext. }
  rewrite H1, H2 in *. rewrite H3. cbn [fst snd].
  split; [reflexivity|]. split; [apply with_text_counter|].
  split; [reflexivity|]. split; [apply with_text_counter|].
  split; [reflexivity|]. split; [reflexivity|].
  split; [|apply with_text_counter].
  rewrite with_text_records. apply with_json_record.
Qed.

Lemma three_hits_ramp_once_witness :
  let kv := Fixtures.kv_of Fixtures.flagTest None in
  let probs := [None; Some 0.97%Q] in
  let run1 := Results.evaluateFlagRamp "t1" Fixtures.flagTest probs kv in
  let run2 := Results.evaluateFlagRamp "t2" Fixtures.flagTest probs (snd run1) in
  let run3 := Results.evaluateFlagRamp "t3" Fixtures.flagTest probs (snd run2) in
  probs !! 1%nat = Some (Some 0.97%Q) /\ (0.95 < 0.97)%Q
  /\ Results.counters kv !! Results.counterKey Fixtures.flagTest = None
  /\ Results.next_step (Results.trafficPercent Fixtures.flagTest) 25
  /\ fst run1 = Results.Ok None
  /\ fst run2 = Results.Ok None
  /\ fst run3 = Results.Ok (Some (Results.ramped_to Fixtures.flagTest 25 "t3")).
Proof.
  intros kv probs run1 run2 run3.
  assert (Hnext : Results.next_step (Results.trafficPercent Fixtures.flagTest) 25)
    by (apply find_next_step; reflexivity).
  pose proof (three_hits_ramp_once Fixtures.flagTest "t1" "t2" "t3" probs probs probs
                0.97%Q 0.97%Q 0.97%Q 25%Q kv
                eq_refl eq_refl eq_refl eq_refl eq_refl eq_refl
                (or_introl eq_refl) Hnext) as H.
  cbv zeta in H. destruct H as (H1 & _ & H2 & _ & _ & H3 & _).
  split; [reflexivity|]. split; [reflexivity|]. split; [reflexivity|].
  split; [exact Hnext|]. split; [exact H1|]. split; [exact H2 | exact H3].
Defined.

(** X11.  A sub-threshold observation discards any streak: whatever the
    counter was, an evaluation that is not above 0.95 followed by two that
    are cannot ramp; no experiment record is written and the counter ends
    at 2. *)
Theorem miss_discards_streak :
  forall (experiment : Results.Experiment) (now1 now2 now3 : string)
         (probs1 probs2 probs3 : list (option Q)) (p2 p3 : Q)
         (kv : Results.KV),
    probs1 !! 1%nat <> Some None ->
    Results.prob_gt (probs1 !! 1%nat) 0.95 = false ->
    probs2 !! 1%nat = Some (Some p2) -> (0.95 < p2)%Q ->
    probs3 !! 1%nat = Some (Some p3) -> (0.95 < p3)%Q ->
    let run1 := Results.evaluateFlagRamp now1 experiment probs1 kv in
    let run2 := Results.evaluateFlagRamp now2 experiment probs2 (snd run1) in
    let run3 := Results.evaluateFlagRamp now3 experiment probs3 (snd run2) in
    fst run1 = Results.Ok None
    /\ fst run2 = Results.Ok None
    /\ fst run3 = Results.Ok None
    /\ Results.records (snd run3) = Results.records kv
    /\ Results.counters (snd run3) !! Results.counterKey experiment = Some 2%Z.
Proof.
  intros experiment now1 now2 now3 probs1 probs2 probs3 p2 p3 kv
         Hn1 Hm1 Hp2 Hg2 Hp3 Hg3 run1 run2 run3.
  assert (H1 : run1 = (Results.Ok None,
                       Results.with_text (Results.counterKey experiment) 0 kv)).
  { subst run1. now apply ramp_below. }
  assert (H2 : run2 = (Results.Ok None,
                       Results.with_text (Results.counterKey experiment) 1
                         (snd run1))).
  { subst run2. rewrite H1. cbn [snd].
    rewrite (ramp_hit_below_three experiment now2 probs2 p2 _ Hp2 Hg2);
      rewrite incremented_after_text; [reflexivity | lia]. }
  assert (H3 : run3 = (Results.Ok None,
                       Results.with_text (Results.counterKey experiment) 2
                         (snd run2))).
  { subst run3. rewrite H2. cbn [snd].
    rewrite (ramp_hit_below_three experiment now3 probs3 p3 _ Hp3 Hg3);
      rewrite incremented_after_text; [reflexivity | lia]. }
  rewrite H3, H2, H1. cbn [fst snd].
  split; [reflexivity|]. split; [reflexivity|]. split; [reflexivity|].
  split; [reflexivity | apply with_text_counter].
Qed.

Lemma miss_discards_streak_witness :
  let kv := Fixtures.kv_of Fixtures.flagTest (Some 2%Z) in
  let miss := [None; Some 0.5%Q] in
  let hit := [None; Some 0.97%Q] in
  let run1 := Results.evaluateFlagRamp "t1" Fixtures.flagTest miss kv in
  let run2 := Results.evaluateFlagRamp "t2" Fixtures.flagTest hit (snd run1) in
  let run3 := Results.evaluateFlagRamp "t3" Fixtures.flagTest hit (snd run2) in
  miss !! 1%nat <> Some None
  /\ Results.prob_gt (miss !! 1%nat) 0.95 = false
  /\ hit !! 1%nat = Some (Some 0.97%Q) /\ (0.95 < 0.97)%Q
  /\ fst run3 = Results.Ok None
  /\ Results.records (snd run3) = Results.records kv.
Proof.
  intros kv miss hit run1 run2 run3.
  assert (Hn : miss !! 1%nat <> Some None) by discriminate.
  pose proof (miss_discards_streak Fixtures.flagTest "t1" "t2" "t3" miss hit hit
                0.97%Q 0.97%Q kv Hn eq_refl eq_refl eq_refl eq_refl eq_refl) as H.
  cbv zeta in H. destruct H as (_ & _ & H3 & Hrec & _).
  split; [exact Hn|]. split; [reflexivity|]. split; [reflexivity|].
  split; [reflexivity|]. split; [exact H3 | exact Hrec].
Defined.

(* ===================================================================== *)
(** * Further properties of handleResults *)
(* ===================================================================== *)

Section HandleResultsRun.

Lemma mapi_from_lookup {A B} (f : A -> nat -> Results.Outcome B) (l : list A) :
  forall (i : nat) (ys : list B),
    Results.mapi_from f i l = Results.Ok ys ->
    length ys = length l
    /\ forall (j : nat) (y : B),
         ys !! j = Some y ->
         exists x, l !! j = Some x /\ f x (i + j)%nat = Results.Ok y.
Proof.
  induction l as [|x l IH]; intros i ys Hys; cbn [Results.mapi_from] in Hys.
  - injection Hys as <-. split; [reflexivity | intros j y Hj; discriminate].
  - destruct (f x i) as [y0|] eqn:Hy0; [|discriminate].
    destruct (Results.mapi_from f (S i) l) as [ys0|] eqn:Hys0; [|discriminate].
    injection Hys as <-. destruct (IH _ _ Hys0) as [Hlen Hlook].
    split; [simpl; now rewrite Hlen|].
    intros [|j] y Hj.
    + injection Hj as <-. exists x. rewrite Nat.add_0_r. now split.
    + destruct (Hlook j y Hj) as (x' & Hx' & Hf). exists x'.
      replace (i + S j)%nat with (S i + j)%nat by lia. now split.
Qed.

Lemma sorted_keys_strictly_ascending (stats : gmap nat Results.VariantStats) :
  StronglySorted lt (Results.sorted_keys stats).
Proof.
  assert (Hs : StronglySorted Nat.le (Results.sorted_keys stats)).
  { unfold Results.sorted_keys. apply StronglySorted_merge_sort; apply _. }
  assert (Hd : NoDup (Results.sorted_keys stats)).
  { unfold Results.sorted_keys. rewrite merge_sort_Permutation.
    apply NoDup_elements. }
  induction Hs as [|k l Hs IH Hall]; [constructor|].
  apply NoDup_cons in Hd as [Hk Hd]. constructor; [now apply IH|].
  rewrite Forall_forall in Hall |- *. intros k' Hk'.
  specialize (Hall k' Hk').
  assert (k <> k') by (intros ->; now apply Hk).
  unfold lt. lia.
Qed.

Lemma bayesianProbability_unit (a b c d : R) (g : Stats.Rng) :
  (0 <= fst (Stats.bayesianProbability a b c d g))%Q
  /\ (fst (Stats.bayesianProbability a b c d g) <= 1)%Q.
Proof.
  rewrite bayesianProbability_eq. cbn [fst].
  apply fraction_unit_interval. rewrite <- samples_nat.
  pose proof (winning_draws_le (Rmax 0 (Rmin a b)) (Rmax 0 b)
                (Rmax 0 (Rmin c d)) (Rmax 0 d) g (Z.to_nat Stats.SAMPLES)).
  lia.
Qed.

Lemma probabilities_lookup (datas : list Stats.VariantData) (g : Stats.Rng)
    (j : nat) :
  (j < length datas)%nat ->
  (j = 0%nat /\ fst (Stats.multiVariantProbabilities datas g) !! j = Some None)
  \/ ((1 <= j)%nat
      /\ exists q : Q,
           fst (Stats.multiVariantProbabilities datas g) !! j = Some (Some q)
           /\ (0 <= q)%Q /\ (q <= 1)%Q).
Proof.
  intros Hj. destruct datas as [|control rest]; [simpl in Hj; lia|].
  rewrite multiVariantProbabilities_cons.
  destruct j as [|j]; [left; now split|]. right. split; [lia|].
  simpl in Hj. destruct (lookup_lt_is_Some_2 rest j ltac:(lia)) as [v Hv].
  change ((None :: ?l) !! S j) with (l !! j).
  rewrite (map_from_lookup control rest 1 j g v ltac:(lia) Hv).
  eexists. split; [reflexivity|]. apply bayesianProbability_unit.
Qed.

Variables (experimentId : string) (stats : gmap nat Results.VariantStats).
Variables (now : string) (g : Stats.Rng) (kv : Results.KV).

Let experiment : option Results.Experiment :=
  Results.records kv !! ("experiment:" +:+ experimentId).
Let names : list string :=
  match experiment with Some e => Results.variants e | None => [] end.

(** [handleResults] up to its evaluation step: the two maps over the keys
    succeed and the response is assembled from their results. *)
Lemma handleResults_run :
  exists (datas : list Stats.VariantData) (rows : list Results.VariantRow),
    let probabilities := fst (Stats.multiVariantProbabilities datas g) in
    let g' := snd (Stats.multiVariantProbabilities datas g) in
    Results.mapi_from (Results.variantData stats) 0 (Results.sorted_keys stats)
    = Results.Ok datas
    /\ Results.mapi_from (Results.variantRow stats names probabilities) 0
         (Results.sorted_keys stats)
       = Results.Ok rows
    /\ Results.handleResults experimentId stats now g kv
       = match Results.evaluate now experiment (Results.sorted_keys stats) stats
                 probabilities names kv with
         | (Results.Ok finalExp, kv') =>
             (Results.Ok
                ({| Results.resp_experimentId := experimentId;
                    Results.resp_variants := rows;
                    Results.resp_status := option_map Results.status finalExp;
                    Results.resp_winner := finalExp ≫= Results.winner;
                    Results.resp_completedAt := finalExp ≫= Results.completedAt |},
                 g'), kv')
         | (Results.Thrown, kv') => (Results.Thrown, kv')
         end.
Proof.
  destruct (mapi_from_ok (Results.variantData stats) (Results.sorted_keys stats) 0)
    as (datas & Hdatas & _).
  { intros v k Hv. now apply variantData_ok. }
  exists datas.
  destruct (mapi_from_ok
              (Results.variantRow stats names
                 (fst (Stats.multiVariantProbabilities datas g)))
              (Results.sorted_keys stats) 0)
    as (rows & Hrows & _).
  { intros v k Hv. now apply variantRow_ok. }
  exists rows. cbv zeta. split; [exact Hdatas|]. split; [exact Hrows|].
  unfold Results.handleResults, Results.bind, Results.get_json, Results.lift.
  fold experiment. fold names. rewrite Hdatas.
  destruct (Stats.multiVariantProbabilities datas g) as [probabilities g'].
  cbn [fst snd] in Hrows |- *. rewrite Hrows.
  destruct (Results.evaluate now experiment _ stats probabilities names kv)
    as [[finalExp|] kv']; reflexivity.
Qed.

(** With the keys [handleResults] passes, the evaluation step returns. *)
Lemma evaluate_returns (probabilities : list (option Q)) :
  exists (finalExp : option Results.Experiment) (kv' : Results.KV),
    Results.evaluate now experiment (Results.sorted_keys stats) stats
      probabilities names kv
    = (Results.Ok finalExp, kv').
Proof.
  unfold Results.evaluate. destruct experiment as [e|]; [|now eexists _, _].
  destruct (Results.is_active (Results.status e)); [|now eexists _, _].
  destruct (Results.is_experiment _ && _).
  - unfold Results.bind.
    destruct (evaluateExperimentStop_outcome now e probabilities names
                (Results.sorted_keys stats) stats kv)
      as [[_ (k & Hk & Hnone)]|[Hr|(v & _ & Hr)]].
    + apply sorted_keys_elem in Hk. rewrite Hnone in Hk. now destruct Hk.
    + rewrite Hr. now eexists _, _.
    + rewrite Hr. now eexists _, _.
  - destruct (Results.is_flag _); [|now eexists _, _].
    unfold Results.bind.
    destruct (evaluateFlagRamp_outcome now e probabilities kv)
      as [Hr|[(n & Hr)|(next & n & _ & Hr)]]; rewrite Hr; now eexists _, _.
Qed.

End HandleResultsRun.

(** X12.  The response body of [handleResults].  On any aggregate and any
    namespace the request returns (nothing throws).  The rows follow the
    keys of [stats] in strictly ascending numeric order, one row per key,
    each carrying that key's counts.  The row of the smallest key is the
    control and has a null probability, whatever its index is; every later
    row has a probability between 0 and 1. *)
Theorem handleResults_rows :
  forall (experimentId : string) (stats : gmap nat Results.VariantStats)
         (now : string) (g : Stats.Rng) (kv : Results.KV),
  exists (resp : Results.Response) (g' : Stats.Rng) (kv' : Results.KV),
    Results.handleResults experimentId stats now g kv = (Results.Ok (resp, g'), kv')
    /\ Results.resp_experimentId resp = experimentId
    /\ map Results.row_index (Results.resp_variants resp) = Results.sorted_keys stats
    /\ StronglySorted lt (Results.sorted_keys stats)
    /\ (forall k : nat, k ∈ Results.sorted_keys stats <-> is_Some (stats !! k))
    /\ forall (j : nat) (row : Results.VariantRow),
         Results.resp_variants resp !! j = Some row ->
         stats !! Results.row_index row
         = Some {| Results.impressions := Results.row_impressions row;
                   Results.conversions := Results.row_conversions row;
                   Results.totalRevenue := Results.row_totalRevenue row |}
         /\ (j = 0%nat -> Results.row_probability row = None)
         /\ ((1 <= j)%nat ->
             exists q : Q, Results.row_probability row = Some q
                           /\ (0 <= q)%Q /\ (q <= 1)%Q).
Proof.
  intros experimentId stats now g kv.
  destruct (handleResults_run experimentId stats now g kv)
    as (datas & rows & Hdatas & Hrows & Hrun). cbv zeta in Hrows, Hrun.
  destruct (evaluate_returns experimentId stats now kv
              (fst (Stats.multiVariantProbabilities datas g)))
    as (finalExp & kv' & Hev).
  rewrite Hev in Hrun.
  eexists _, _, kv'. split; [exact Hrun|]. cbn [Results.resp_experimentId
                                               Results.resp_variants].
  destruct (mapi_from_lookup _ _ _ _ Hdatas) as [Hlen_d _].
  destruct (mapi_from_lookup _ _ _ _ Hrows) as [Hlen_r Hlook].
  split; [reflexivity|].
  split.
  { apply list_eq. intros j. rewrite list_lookup_fmap.
    destruct (rows !! j) as [row|] eqn:Hj.
    - destruct (Hlook j row Hj) as (v & Hv & Hf). rewrite Hv. cbn.
      unfold Results.variantRow in Hf. destruct (Results.stat stats v); [|discriminate].
      injection Hf as <-. reflexivity.
    - cbn. symmetry. apply lookup_ge_None. apply lookup_ge_None in Hj. lia. }
  split; [apply sorted_keys_strictly_ascending|].
  split; [apply sorted_keys_elem|].
  intros j row Hj.
  destruct (Hlook j row Hj) as (v & Hv & Hf). cbn [Nat.add] in Hf.
  unfold Results.variantRow, Results.stat in Hf.
  destruct (stats !! v) as [s|] eqn:Hs; [|discriminate].
  injection Hf as <-. cbn [Results.row_index Results.row_impressions
                             Results.row_conversions Results.row_totalRevenue
                             Results.row_probability].
  split; [rewrite Hs; now destruct s|].
  assert (Hjlen : (j < length datas)%nat).
  { rewrite Hlen_d. now apply lookup_lt_Some in Hv. }
  destruct (probabilities_lookup datas g j Hjlen)
    as [[-> Hp]|[Hpos (q & Hp & Hq)]]; rewrite Hp; cbn [default].
  - split; [reflexivity | lia].
  - split; [lia|]. intros _. now exists q.
Qed.

Lemma handleResults_rows_witness :
  exists (resp : Results.Response) (g' : Stats.Rng) (kv' : Results.KV),
    Results.handleResults "aabbccddeeff" (Fixtures.counts 1000 10 1000 900)
      "2026-01-01T00:00:00.000Z" Fixtures.fixed_draws
      (Fixtures.kv_of Fixtures.stoppedTest None)
    = (Results.Ok (resp, g'), kv')
    /\ map Results.row_index (Results.resp_variants resp) = [0; 1]%nat.
Proof.
  destruct (handleResults_rows "aabbccddeeff" (Fixtures.counts 1000 10 1000 900)
              "2026-01-01T00:00:00.000Z" Fixtures.fixed_draws
              (Fixtures.kv_of Fixtures.stoppedTest None))
    as (resp & g' & kv' & Hrun & _ & Hidx & _).
  exists resp, g', kv'. split; [exact Hrun|].
  rewrite Hidx. vm_compute. reflexivity.
Defined.

(** X13.  A lookup miss does not abort the request: when no record is
    stored under [experiment:<id>], [handleResults] still returns the rows,
    named "variant <index>", with no status, winner or completion time, and
    writes nothing. *)
Theorem handleResults_unknown_experiment :
  forall (experimentId : string) (stats : gmap nat Results.VariantStats)
         (now : string) (g : Stats.Rng) (kv : Results.KV),
    Results.records kv !! ("experiment:" +:+ experimentId) = None ->
    exists (resp : Results.Response) (g' : Stats.Rng),
      Results.handleResults experimentId stats now g kv = (Results.Ok (resp, g'), kv)
      /\ Results.resp_status resp = None
      /\ Results.resp_winner resp = None
      /\ Results.resp_completedAt resp = None
      /\ forall row : Results.VariantRow,
           row ∈ Results.resp_variants resp ->
           Results.row_name row = "variant " +:+ pretty (Results.row_index row).
Proof.
  intros experimentId stats now g kv Hnone.
  destruct (handleResults_run experimentId stats now g kv)
    as (datas & rows & Hdatas & Hrows & Hrun). cbv zeta in Hrows, Hrun.
  rewrite Hnone in Hrows, Hrun. cbn [Results.evaluate] in Hrun.
  unfold Results.ret in Hrun.
  eexists _, _. split; [exact Hrun|].
  cbn [Results.resp_status Results.resp_winner Results.resp_completedAt
       Results.resp_variants option_map mbind option_bind].
  repeat (split; [reflexivity|]).
  intros row Hrow. apply list_elem_of_lookup in Hrow as [j Hj].
  destruct (mapi_from_lookup _ _ _ _ Hrows) as [_ Hlook].
  destruct (Hlook j row Hj) as (v & _ & Hf).
  unfold Results.variantRow in Hf. destruct (Results.stat stats v); [|discriminate].
  injection Hf as <-. cbn [Results.row_name Results.row_index].
  unfold Results.variantName. now rewrite lookup_nil.
Qed.

Lemma handleResults_unknown_experiment_witness :
  let kv := Fixtures.kv_of Fixtures.flagTest None in
  Results.records kv !! ("experiment:" +:+ "aabbccddeeff") = None
  /\ exists (resp : Results.Response) (g' : Stats.Rng),
       Results.handleResults "aabbccddeeff" (Fixtures.counts 1000 10 1000 900)
         "2026-01-01T00:00:00.000Z" Fixtures.fixed_draws kv
       = (Results.Ok (resp, g'), kv)
       /\ Results.resp_status resp = None.
Proof.
  intros kv.
  assert (Hnone : Results.records kv !! ("experiment:" +:+ "aabbccddeeff") = None)
    by (vm_compute; reflexivity).
  split; [exact Hnone|].
  destruct (handleResults_unknown_experiment "aabbccddeeff"
              (Fixtures.counts 1000 10 1000 900) "2026-01-01T00:00:00.000Z"
              Fixtures.fixed_draws kv Hnone)
    as (resp & g' & Hrun & Hstatus & _).
  exists resp, g'. split; [exact Hrun | exact Hstatus].
Defined.

(** X14.  Opting out: an experiment-type record (type "experiment" or no
    type) whose [autoStop] is false is never evaluated, however strong the
    evidence; the request writes nothing and reports the stored status. *)
Theorem handleResults_autoStop_off :
  forall (experimentId : string) (stats : gmap nat Results.VariantStats)
         (now : string) (g : Stats.Rng) (kv : Results.KV)
         (e : Results.Experiment),
    Results.records kv !! ("experiment:" +:+ experimentId) = Some e ->
    Results.type e <> Some Results.TypeFlag ->
    Results.autoStop e = Some false ->
    exists (resp : Results.Response) (g' : Stats.Rng),
      Results.handleResults experimentId stats now g kv = (Results.Ok (resp, g'), kv)
      /\ Results.resp_status resp = Some (Results.status e)
      /\ Results.resp_winner resp = Results.winner e.
Proof.
  intros experimentId stats now g kv e Hrec Htype Hauto.
  destruct (handleResults_run experimentId stats now g kv)
    as (datas & rows & Hdatas & Hrows & Hrun). cbv zeta in Hrows, Hrun.
  rewrite Hrec in Hrows, Hrun.
  assert (Hev : forall probabilities,
             Results.evaluate now (Some e) (Results.sorted_keys stats) stats
               probabilities (Results.variants e) kv
             = (Results.Ok (Some e), kv)).
  { intros probabilities. unfold Results.evaluate. rewrite Hauto.
    destruct (Results.is_active (Results.status e)); [|reflexivity].
    destruct (Results.type e) as [[|]|]; try reflexivity. congruence. }
  rewrite Hev in Hrun.
  eexists _, _. split; [exact Hrun|]. split; reflexivity.
Qed.

Lemma handleResults_autoStop_off_witness :
  let e := {| Results.id := "aabbccddeeff"; Results.name := "Stop Test";
              Results.variants := ["control"; "treatment"];
              Results.trafficPercent := 100; Results.status := Results.active;
              Results.type := Some Results.TypeExperiment;
              Results.createdAt := ""; Results.updatedAt := "";
              Results.winner := None; Results.completedAt := None;
              Results.minSamplesPerVariant := Some 100%Z;
              Results.autoStop := Some false |} in
  let kv := Fixtures.kv_of e None in
  Results.records kv !! ("experiment:" +:+ "aabbccddeeff") = Some e
  /\ Results.type e <> Some Results.TypeFlag
  /\ Results.autoStop e = Some false
  /\ exists (resp : Results.Response) (g' : Stats.Rng),
       Results.handleResults "aabbccddeeff" (Fixtures.counts 1000 10 1000 900)
         "2026-01-01T00:00:00.000Z" Fixtures.fixed_draws kv
       = (Results.Ok (resp, g'), kv)
       /\ Results.resp_status resp = Some Results.active.
Proof.
  intros e kv.
  assert (Hrec : Results.records kv !! ("experiment:" +:+ "aabbccddeeff") = Some e)
    by reflexivity.
  assert (Htype : Results.type e <> Some Results.TypeFlag) by discriminate.
  split; [exact Hrec|]. split; [exact Htype|]. split; [reflexivity|].
  destruct (handleResults_autoStop_off "aabbccddeeff"
              (Fixtures.counts 1000 10 1000 900) "2026-01-01T00:00:00.000Z"
              Fixtures.fixed_draws kv e Hrec Htype eq_refl)
    as (resp & g' & Hrun & Hstatus & _).
  exists resp, g'. split; [exact Hrun | exact Hstatus].
Defined.

Section StopIsFinal.

Lemma handleResults_of_inactive (experimentId : string)
    (stats : gmap nat Results.VariantStats) (now : string) (g : Stats.Rng)
    (kv : Results.KV) (e : Results.Experiment) :
  Results.records kv !! ("experiment:" +:+ experimentId) = Some e ->
  Results.status e <> Results.active ->
  exists (resp : Results.Response) (g' : Stats.Rng),
    Results.handleResults experimentId stats now g kv = (Results.Ok (resp, g'), kv)
    /\ Results.resp_status resp = Some (Results.status e)
    /\ Results.resp_winner resp = Results.winner e
    /\ Results.resp_completedAt resp = Results.completedAt e.
Proof.
  intros Hrec Hstatus.
  destruct (handleResults_run experimentId stats now g kv)
    as (datas & rows & _ & _ & Hrun). cbv zeta in Hrun.
  rewrite Hrec in Hrun. rewrite evaluate_inactive in Hrun by exact Hstatus.
  eexists _, _. split; [exact Hrun|]. repeat split.
Qed.

(** A request on an active record that answers "completed" has stored the
    completed record under the record's own key. *)
Lemma handleResults_completed (experimentId : string)
    (stats : gmap nat Results.VariantStats) (now : string) (g g1 : Stats.Rng)
    (kv kv1 : Results.KV) (e : Results.Experiment) (resp : Results.Response) :
  Results.records kv !! ("experiment:" +:+ experimentId) = Some e ->
  Results.status e = Results.active ->
  Results.handleResults experimentId stats now g kv = (Results.Ok (resp, g1), kv1) ->
  Results.resp_status resp = Some Results.completed ->
  exists w : string,
    kv1 = Results.with_json (Results.recordKey e)
            (Results.completed_with e w now) kv
    /\ Results.resp_winner resp = Some w
    /\ Results.resp_completedAt resp = Some now.
Proof.
  intros Hrec Hactive Hrun Hdone.
  destruct (handleResults_run experimentId stats now g kv)
    as (datas & rows & _ & _ & Hrun'). cbv zeta in Hrun'.
  rewrite Hrun, Hrec in Hrun'. clear Hrun.
  unfold Results.evaluate in Hrun'. rewrite Hactive in Hrun'.
  cbn [Results.is_active] in Hrun'.
  destruct (Results.is_experiment _ && _).
  - unfold Results.bind in Hrun'.
    destruct (evaluateExperimentStop_outcome now e
                (fst (Stats.multiVariantProbabilities datas g))
                (Results.variants e) (Results.sorted_keys stats) stats kv)
      as [[Hr _]|[Hr|(v & _ & Hr)]]; rewrite Hr in Hrun'.
    + discriminate.
    + injection Hrun' as -> _ _. cbn in Hdone. congruence.
    + injection Hrun' as -> _ ->. eexists. split; [reflexivity|]. now split.
  - destruct (Results.is_flag _).
    + unfold Results.bind in Hrun'.
      destruct (evaluateFlagRamp_outcome now e
                  (fst (Stats.multiVariantProbabilities datas g)) kv)
        as [Hr|[(n & Hr)|(next & n & _ & Hr)]]; rewrite Hr in Hrun';
        injection Hrun' as -> _ _; cbn in Hdone; congruence.
    + injection Hrun' as -> _ _. cbn in Hdone. congruence.
Qed.

End StopIsFinal.

(** X15.  Auto-stop is final.  If a request on an active record, stored
    under its own id, answers "completed", then the completed record is what
    the store now holds, and every later request for that id, whatever
    counts and draws it sees, writes nothing and reports the same status,
    winner and completion time. *)
Theorem auto_stop_is_final :
  forall (experimentId : string) (stats stats2 : gmap nat Results.VariantStats)
         (now now2 : string) (g g1 g2 : Stats.Rng) (kv kv1 : Results.KV)
         (e : Results.Experiment) (resp : Results.Response),
    Results.records kv !! ("experiment:" +:+ experimentId) = Some e ->
    Results.id e = experimentId ->
    Results.status e = Results.active ->
    Results.handleResults experimentId stats now g kv = (Results.Ok (resp, g1), kv1) ->
    Results.resp_status resp = Some Results.completed ->
    exists (resp2 : Results.Response) (g2' : Stats.Rng),
      Results.handleResults experimentId stats2 now2 g2 kv1
      = (Results.Ok (resp2, g2'), kv1)
      /\ Results.resp_status resp2 = Some Results.completed
      /\ Results.resp_winner resp2 = Results.resp_winner resp
      /\ Results.resp_completedAt resp2 = Results.resp_completedAt resp.
Proof.
  intros experimentId stats stats2 now now2 g g1 g2 kv kv1 e resp
         Hrec Hid Hactive Hrun Hdone.
  destruct (handleResults_completed experimentId stats now g g1 kv kv1 e resp
              Hrec Hactive Hrun Hdone) as (w & -> & Hw & Hc).
  assert (Hrec1 : Results.records
                    (Results.with_json (Results.recordKey e)
                       (Results.completed_with e w now) kv)
                  !! ("experiment:" +:+ experimentId)
                  = Some (Results.completed_with e w now)).
  { unfold Results.recordKey. rewrite Hid. apply with_json_record. }
  destruct (handleResults_of_inactive experimentId stats2 now2 g2 _ _ Hrec1)
    as (resp2 & g2' & Hrun2 & Hs2 & Hw2 & Hc2); [discriminate|].
  exists resp2, g2'. split; [exact Hrun2|].
  rewrite Hs2, Hw2, Hc2, Hw, Hc. repeat split.
Qed.

Section Noiseless.

Local Open Scope R_scope.

Variable g : Stats.Rng.
Hypothesis quarter : forall k : nat, Stats.draws g k = 1 / 4.

Lemma sampleBeta_noiseless (alpha beta : R) (k : nat) :
  fst (Stats.sampleBeta alpha beta (Stats.advance k g))
  = Rmax 0 (Rmin 1 (alpha / (alpha + beta))).
Proof.
  unfold Stats.sampleBeta, Stats.Math_random. cbn [fst Stats.draws Stats.advance
                                                  Stats.cursor].
  rewrite !quarter.
  replace (2 * PI * (1 / 4)) with (PI / 2) by field.
  rewrite cos_PI2, !Rmult_0_r, Rplus_0_r. reflexivity.
Qed.

Lemma treatment_wins_noiseless (cc ct tc tt : R) (i : nat) :
  Stats.treatment_wins cc ct tc tt g i
  = Stats.Rgtb (Rmax 0 (Rmin 1 ((tc + 1) / (tc + 1 + (tt - tc + 1)))))
               (Rmax 0 (Rmin 1 ((cc + 1) / (cc + 1 + (ct - cc + 1))))).
Proof.
  unfold Stats.treatment_wins, Stats.draw_pair.
  now rewrite !sampleBeta_noiseless.
Qed.

Lemma winning_draws_all (cc ct tc tt : R) (n : nat) :
  Stats.Rgtb (Rmax 0 (Rmin 1 ((tc + 1) / (tc + 1 + (tt - tc + 1)))))
             (Rmax 0 (Rmin 1 ((cc + 1) / (cc + 1 + (ct - cc + 1))))) = true ->
  Stats.winning_draws cc ct tc tt g n = n.
Proof.
  intros Hwin. unfold Stats.winning_draws.
  rewrite (List.filter_ext _ (fun _ => true)).
  - rewrite <- (List.length_seq n 0) at 2. f_equal.
    induction (seq 0 n) as [|x l IH]; [reflexivity|]. cbn. now rewrite IH.
  - intros i. now rewrite treatment_wins_noiseless.
Qed.

(** The route's strong-signal counts (control 10/1000, treatment 900/1000)
    under the noiseless generator: the treatment wins every draw. *)
Lemma strong_signal_noiseless :
  fst (Stats.bayesianProbability 10 1000 900 1000 g)
  = (inject_Z 10000 / inject_Z 10000)%Q.
Proof.
  rewrite bayesianProbability_eq. cbn [fst].
  rewrite winning_draws_all, samples_nat; [reflexivity|].
  unfold Stats.Rgtb. destruct (Rlt_dec _ _) as [|Hn]; [reflexivity|].
  exfalso. apply Hn. unfold Rmax, Rmin.
  repeat destruct (Rle_dec _ _); try lra.
Qed.

End Noiseless.

(** The route's "stops experiment and records winner" case, run with the
    noiseless generator. *)
Lemma strong_signal_request :
  exists (rows : list Results.VariantRow) (g1 : Stats.Rng),
    Results.handleResults "aabbccddeeff" (Fixtures.counts 1000 10 1000 900)
      "2026-01-01T00:00:00.000Z" Scenarios.quarter_draws
      (Fixtures.kv_of Fixtures.stopTest None)
    = (Results.Ok
         ({| Results.resp_experimentId := "aabbccddeeff";
             Results.resp_variants := rows;
             Results.resp_status := Some Results.completed;
             Results.resp_winner := Some "treatment";
             Results.resp_completedAt := Some "2026-01-01T00:00:00.000Z" |}, g1),
       Results.with_json "experiment:aabbccddeeff"
         (Results.completed_with Fixtures.stopTest "treatment"
            "2026-01-01T00:00:00.000Z")
         (Fixtures.kv_of Fixtures.stopTest None)).
Proof.
  destruct (handleResults_run "aabbccddeeff" (Fixtures.counts 1000 10 1000 900)
              "2026-01-01T00:00:00.000Z" Scenarios.quarter_draws
              (Fixtures.kv_of Fixtures.stopTest None))
    as (datas & rows & Hdatas & _ & Hrun). cbv zeta in Hrun.
  assert (Hd : Results.mapi_from
                 (Results.variantData (Fixtures.counts 1000 10 1000 900)) 0
                 (Results.sorted_keys (Fixtures.counts 1000 10 1000 900))
               = Results.Ok [ {| Stats.conversions := 10; Stats.total := 1000 |};
                              {| Stats.conversions := 900; Stats.total := 1000 |} ])
    by reflexivity.
  rewrite Hd in Hdatas. injection Hdatas as <-.
  assert (Hp : fst (Stats.multiVariantProbabilities
                      [ {| Stats.conversions := 10; Stats.total := 1000 |};
                        {| Stats.conversions := 900; Stats.total := 1000 |} ]
                      Scenarios.quarter_draws)
               = [None; Some (inject_Z 10000 / inject_Z 10000)%Q]).
  { rewrite multiVariantProbabilities_cons. cbn [Stats.map_from Nat.eqb].
    pose proof (strong_signal_noiseless Scenarios.quarter_draws
                  (fun _ => eq_refl)) as Hs.
    cbn [Stats.conversions Stats.total].
    destruct (Stats.bayesianProbability 10 1000 900 1000 Scenarios.quarter_draws)
      as [x gx]. cbn [fst] in Hs |- *. now rewrite Hs. }
  rewrite Hp in Hrun.
  assert (Hrec : Results.records (Fixtures.kv_of Fixtures.stopTest None)
                 !! ("experiment:" +:+ "aabbccddeeff") = Some Fixtures.stopTest)
    by reflexivity.
  rewrite Hrec in Hrun.
  assert (Hev : Results.evaluate "2026-01-01T00:00:00.000Z" (Some Fixtures.stopTest)
                  (Results.sorted_keys (Fixtures.counts 1000 10 1000 900))
                  (Fixtures.counts 1000 10 1000 900)
                  [None; Some (inject_Z 10000 / inject_Z 10000)%Q]
                  (Results.variants Fixtures.stopTest)
                  (Fixtures.kv_of Fixtures.stopTest None)
                = (Results.Ok
                     (Some (Results.completed_with Fixtures.stopTest "treatment"
                              "2026-01-01T00:00:00.000Z")),
                   Results.with_json "experiment:aabbccddeeff"
                     (Results.completed_with Fixtures.stopTest "treatment"
                        "2026-01-01T00:00:00.000Z")
                     (Fixtures.kv_of Fixtures.stopTest None)))
    by (vm_compute; reflexivity).
  rewrite Hev in Hrun. eexists _, _. exact Hrun.
Qed.

Lemma auto_stop_is_final_witness :
  let kv := Fixtures.kv_of Fixtures.stopTest None in
  let kv1 := Results.with_json "experiment:aabbccddeeff"
               (Results.completed_with Fixtures.stopTest "treatment"
                  "2026-01-01T00:00:00.000Z") kv in
  Results.records kv !! ("experiment:" +:+ "aabbccddeeff") = Some Fixtures.stopTest
  /\ Results.id Fixtures.stopTest = "aabbccddeeff"
  /\ Results.status Fixtures.stopTest = Results.active
  /\ exists (resp : Results.Response) (g1 : Stats.Rng),
       Results.handleResults "aabbccddeeff" (Fixtures.counts 1000 10 1000 900)
         "2026-01-01T00:00:00.000Z" Scenarios.quarter_draws kv
       = (Results.Ok (resp, g1), kv1)
       /\ Results.resp_status resp = Some Results.completed
       /\ exists (resp2 : Results.Response) (g2 : Stats.Rng),
            Results.handleResults "aabbccddeeff" (Fixtures.counts 2000 20 2000 1800)
              "2026-01-02T00:00:00.000Z" Fixtures.fixed_draws kv1
            = (Results.Ok (resp2, g2), kv1)
            /\ Results.resp_status resp2 = Some Results.completed.
Proof.
  intros kv kv1.
  assert (Hrec : Results.records kv !! ("experiment:" +:+ "aabbccddeeff")
                 = Some Fixtures.stopTest) by reflexivity.
  split; [exact Hrec|]. split; [reflexivity|]. split; [reflexivity|].
  destruct strong_signal_request as (rows & g1 & Hrun).
  eexists _, g1. split; [exact Hrun|]. split; [reflexivity|].
  destruct (auto_stop_is_final "aabbccddeeff" (Fixtures.counts 1000 10 1000 900)
              (Fixtures.counts 2000 20 2000 1800)
              "2026-01-01T00:00:00.000Z" "2026-01-02T00:00:00.000Z"
              Scenarios.quarter_draws g1 Fixtures.fixed_draws kv kv1
              Fixtures.stopTest _ Hrec eq_refl eq_refl Hrun eq_refl)
    as (resp2 & g2 & Hrun2 & Hs2 & _).
  exists resp2, g2. split; [exact Hrun2 | exact Hs2].
Defined.

(* ===================================================================== *)
(** * Properties of the experiment records *)
(* ===================================================================== *)

Section AdminFacts.

Lemma key_inj (a b : string) :
  "experiment:" +:+ a = "experiment:" +:+ b -> a = b.
Proof. intros H. cbn in H. now simplify_eq. Qed.

Lemma truthy_some (s : string) : Admin.truthy (Some s) = true <-> s <> EmptyString.
Proof.
  unfold Admin.truthy. rewrite negb_true_iff. apply String.eqb_neq.
Qed.

Lemma out_of_range_false (t : Q) :
  Admin.out_of_range t = false <-> (0 <= t)%Q /\ (t <= 100)%Q.
Proof.
  unfold Admin.out_of_range. rewrite orb_false_iff.
  split.
  - intros [H0 H100]. split; now apply Qltb_ge.
  - intros [H0 H100]. split; now apply Qltb_ge.
Qed.

Lemma getRecord_put (i j : string) (e : Results.Experiment) (st : Admin.Store) :
  Admin.getRecord j (Admin.putRecord i e st)
  = if decide (i = j) then Some e else Admin.getRecord j st.
Proof.
  unfold Admin.getRecord, Admin.putRecord. cbn.
  destruct (decide (i = j)) as [->|Hne].
  - apply lookup_insert_eq.
  - apply lookup_insert_ne. intros H. now apply key_inj in H.
Qed.

Lemma getRecord_delete (i j : string) (st : Admin.Store) :
  Admin.getRecord j (Admin.deleteRecord i st)
  = if decide (i = j) then None else Admin.getRecord j st.
Proof.
  unfold Admin.getRecord, Admin.deleteRecord. cbn.
  destruct (decide (i = j)) as [->|Hne].
  - apply lookup_delete_eq.
  - apply lookup_delete_ne. intros H. now apply key_inj in H.
Qed.

End AdminFacts.

(** X16.  Creating and reading back.  A POST whose body has a name, at
    least two variants (or none given: control and treatment) and a traffic
    percentage within [0, 100] (or none given: 100) answers 201 with the new
    record; a GET of its id then answers 200 with the same record and
    changes nothing; the id is appended to the index.  The record takes
    only name, variants, trafficPercent and status from the body: its type,
    autoStop, minSamplesPerVariant and winner are unset whatever the body
    says. *)
Theorem create_then_read :
  forall (body : Admin.Body) (uuid now : string) (st : Admin.Store),
    let variants := default ["control"; "treatment"] (Admin.b_variants body) in
    let trafficPercent := default 100%Q (Admin.b_trafficPercent body) in
    let e := Admin.created body variants trafficPercent uuid now in
    let run := Admin.handleExperiments Admin.POST None (Some body) uuid now st in
    Admin.truthy (Admin.b_name body) = true ->
    (2 <= length variants)%nat ->
    (0 <= trafficPercent)%Q -> (trafficPercent <= 100)%Q ->
    uuid <> EmptyString ->
    fst run = Admin.ReplyExperiment 201 e
    /\ (forall (body' : option Admin.Body) (uuid' now' : string),
          Admin.handleExperiments Admin.GET (Some uuid) body' uuid' now' (snd run)
          = (Admin.ReplyExperiment 200 e, snd run))
    /\ Admin.getIndex (snd run) = Admin.getIndex st ++ [uuid]
    /\ Results.id e = uuid
    /\ Results.status e = default Results.active (Admin.b_status body)
    /\ Results.type e = None /\ Results.autoStop e = None
    /\ Results.minSamplesPerVariant e = None /\ Results.winner e = None.
Proof.
  intros body uuid now st variants trafficPercent e run Hname Hlen H0 H100 Huuid.
  assert (Hrun : run = (Admin.ReplyExperiment 201 e,
                        Admin.setIndex (Admin.getIndex st ++ [uuid])
                          (Admin.putRecord uuid e st))).
  { subst run. unfold Admin.handleExperiments. cbn [Admin.truthy].
    rewrite Hname. cbn [negb]. fold variants.
    destruct (length variants <? 2)%nat eqn:Hl;
      [apply Nat.ltb_lt in Hl; lia|].
    fold trafficPercent.
    rewrite (proj2 (out_of_range_false trafficPercent) (conj H0 H100)).
    reflexivity. }
  rewrite Hrun. cbn [fst snd].
  split; [reflexivity|]. split.
  - intros body' uuid' now'. unfold Admin.handleExperiments.
    rewrite (proj2 (truthy_some uuid) Huuid).
    change (default EmptyString (Some uuid)) with uuid.
    replace (Admin.getRecord uuid _) with (Some e); [reflexivity|].
    symmetry. unfold Admin.setIndex, Admin.getRecord. cbn [Admin.kv].
    change (Admin.getRecord uuid (Admin.putRecord uuid e st) = Some e).
    rewrite getRecord_put. now destruct (decide (uuid = uuid)).
  - repeat split; reflexivity.
Qed.

Lemma create_then_read_witness :
  let body :=
    {| Admin.b_id := None; Admin.b_name := Some "checkout";
       Admin.b_variants := None; Admin.b_trafficPercent := Some 50%Q;
       Admin.b_status := None; Admin.b_type := Some Results.TypeFlag;
       Admin.b_createdAt := None; Admin.b_updatedAt := None;
       Admin.b_winner := None; Admin.b_completedAt := None;
       Admin.b_minSamplesPerVariant := None; Admin.b_autoStop := Some false |} in
  let st := {| Admin.kv := Fixtures.kv_of Fixtures.stopTest None;
               Admin.index := Some ["aabbccddeeff"] |} in
  let run := Admin.handleExperiments Admin.POST None (Some body) "0123"
               "2026-01-01T00:00:00.000Z" st in
  Admin.getIndex (snd run) = ["aabbccddeeff"; "0123"]
  /\ exists e, fst run = Admin.ReplyExperiment 201 e /\ Results.type e = None.
Proof.
  intros body st run.
  pose proof (create_then_read body "0123" "2026-01-01T00:00:00.000Z" st
                eq_refl ltac:(simpl; lia) ltac:(discriminate) ltac:(discriminate)
                ltac:(discriminate)) as H.
  cbv zeta in H. destruct H as (Hreply & _ & Hindex & _ & _ & Htype & _).
  split; [exact Hindex|]. eexists. split; [exact Hreply | exact Htype].
Defined.

(** What POST refuses.  A body that does not parse, has no name (or
    an empty one), lists fewer than two variants, or asks for a traffic
    percentage below 0 or above 100 is answered 400, and neither a record
    nor the index is written. *)
Theorem create_rejects :
  forall (body : option Admin.Body) (uuid now : string) (st : Admin.Store),
    match body with
    | None => True
    | Some b =>
        Admin.truthy (Admin.b_name b) = false
        \/ (length (default ["control"; "treatment"] (Admin.b_variants b)) < 2)%nat
        \/ (default 100 (Admin.b_trafficPercent b) < 0)%Q
        \/ (100 < default 100 (Admin.b_trafficPercent b))%Q
    end ->
    exists error : string,
      Admin.handleExperiments Admin.POST None body uuid now st
      = (Admin.ReplyError 400 error, st).
Proof.
  intros [b|] uuid now st H; unfold Admin.handleExperiments; cbn [Admin.truthy];
    [|now eexists].
  destruct (Admin.truthy (Admin.b_name b)) eqn:Hname; cbn [negb]; [|now eexists].
  destruct (length _ <? 2)%nat eqn:Hlen; [now eexists|].
  destruct (Admin.out_of_range _) eqn:Hrange; [now eexists|].
  apply Nat.ltb_ge in Hlen. apply out_of_range_false in Hrange as [H0 H100].
  destruct H as [H|[H|[H|H]]].
  - discriminate.
  - lia.
  - now apply Qlt_not_le in H.
  - now apply Qlt_not_le in H.
Qed.

Lemma create_rejects_witness :
  let body :=
    {| Admin.b_id := None; Admin.b_name := Some "checkout";
       Admin.b_variants := Some ["only"]; Admin.b_trafficPercent := None;
       Admin.b_status := None; Admin.b_type := None;
       Admin.b_createdAt := None; Admin.b_updatedAt := None;
       Admin.b_winner := None; Admin.b_completedAt := None;
       Admin.b_minSamplesPerVariant := None; Admin.b_autoStop := None |} in
  let st := {| Admin.kv := Fixtures.kv_of Fixtures.stopTest None;
               Admin.index := Some ["aabbccddeeff"] |} in
  exists error : string,
    Admin.handleExperiments Admin.POST None (Some body) "0123"
      "2026-01-01T00:00:00.000Z" st
    = (Admin.ReplyError 400 error, st).
Proof.
  intros body st.
  apply (create_rejects (Some body) "0123" "2026-01-01T00:00:00.000Z" st).
  right. left. simpl. lia.
Defined.

(** X17.  Updating.  For a stored record, PUT and PATCH do the same.  A body
    that names [variants] is refused with 400 and nothing is written.
    Otherwise, if the body's traffic percentage (when it has one) lies
    within [0, 100], the answer is 200 with the merged record: name,
    trafficPercent, status, type, winner, completedAt, minSamplesPerVariant
    and autoStop are the body's where it has them and the stored ones where
    it has not; id, createdAt and variants are the stored ones whatever the
    body says; updatedAt is the clock.  That record is what a later read of
    the id returns; the index, the other records and the counters are not
    touched. *)
Theorem update_keeps_identity :
  forall (i : string) (body : Admin.Body) (uuid now : string) (st : Admin.Store)
         (existing : Results.Experiment),
    i <> EmptyString ->
    Admin.getRecord i st = Some existing ->
    let run := Admin.handleExperiments Admin.PATCH (Some i) (Some body) uuid now st in
    let updated :=
      {| Results.id := Results.id existing;
         Results.name :=
           match Admin.b_name body with
           | Some x => x | None => Results.name existing end;
         Results.variants := Results.variants existing;
         Results.trafficPercent :=
           match Admin.b_trafficPercent body with
           | Some x => x | None => Results.trafficPercent existing end;
         Results.status :=
           match Admin.b_status body with
           | Some x => x | None => Results.status existing end;
         Results.type :=
           match Admin.b_type body with
           | Some x => Some x | None => Results.type existing end;
         Results.createdAt := Results.createdAt existing;
         Results.updatedAt := now;
         Results.winner :=
           match Admin.b_winner body with
           | Some x => Some x | None => Results.winner existing end;
         Results.completedAt :=
           match Admin.b_completedAt body with
           | Some x => Some x | None => Results.completedAt existing end;
         Results.minSamplesPerVariant :=
           match Admin.b_minSamplesPerVariant body with
           | Some x => Some x | None => Results.minSamplesPerVariant existing end;
         Results.autoStop :=
           match Admin.b_autoStop body with
           | Some x => Some x | None => Results.autoStop existing end |} in
    Admin.handleExperiments Admin.PUT (Some i) (Some body) uuid now st = run
    /\ (Admin.b_variants body <> None ->
        exists error : string, run = (Admin.ReplyError 400 error, st))
    /\ (Admin.b_variants body = None ->
        (forall t, Admin.b_trafficPercent body = Some t -> (0 <= t)%Q /\ (t <= 100)%Q) ->
        fst run = Admin.ReplyExperiment 200 updated
        /\ Admin.getRecord i (snd run) = Some updated
        /\ (forall (body' : option Admin.Body) (uuid' now' : string),
              Admin.handleExperiments Admin.GET (Some i) body' uuid' now' (snd run)
              = (Admin.ReplyExperiment 200 updated, snd run))
        /\ Admin.index (snd run) = Admin.index st
        /\ (forall j : string, j <> i ->
              Admin.getRecord j (snd run) = Admin.getRecord j st)
        /\ Results.counters (Admin.kv (snd run)) = Results.counters (Admin.kv st)).
Proof.
  intros i body uuid now st existing Hi Hrec run updated.
  split; [reflexivity|].
  subst run. unfold Admin.handleExperiments.
  rewrite (proj2 (truthy_some i) Hi).
  change (default EmptyString (Some i)) with i. rewrite Hrec.
  split.
  - intros Hv. destruct (Admin.b_variants body) as [vs|]; [|congruence].
    rewrite bool_decide_eq_true_2 by (now eexists). now eexists.
  - intros Hv Ht.
    rewrite bool_decide_eq_false_2 by (rewrite Hv; now intros [? ?]).
    assert (Hrange : match Admin.b_trafficPercent body with
                     | Some t => Admin.out_of_range t
                     | None => false
                     end = false).
    { destruct (Admin.b_trafficPercent body) as [t|]; [|reflexivity].
      apply out_of_range_false. now apply Ht. }
    rewrite Hrange. cbn [fst snd].
    assert (Hmerged : Admin.merged existing body now = updated).
    { unfold Admin.merged, Admin.over. rewrite Hv. reflexivity. }
    rewrite Hmerged.
    assert (Hget : Admin.getRecord i (Admin.putRecord i updated st) = Some updated).
    { rewrite getRecord_put. now destruct (decide (i = i)). }
    split; [reflexivity|]. split; [exact Hget|]. split.
    { intros body' uuid' now'. now rewrite Hget. }
    split; [reflexivity|]. split; [|reflexivity].
    intros j Hj. rewrite getRecord_put.
    destruct (decide (i = j)); [congruence | reflexivity].
Qed.

Lemma update_keeps_identity_witness :
  let body :=
    {| Admin.b_id := Some "other"; Admin.b_name := None;
       Admin.b_variants := None; Admin.b_trafficPercent := Some 50%Q;
       Admin.b_status := None; Admin.b_type := Some Results.TypeFlag;
       Admin.b_createdAt := Some "1999-01-01T00:00:00.000Z";
       Admin.b_updatedAt := None;
       Admin.b_winner := None; Admin.b_completedAt := None;
       Admin.b_minSamplesPerVariant := None; Admin.b_autoStop := None |} in
  let st := {| Admin.kv := Fixtures.kv_of Fixtures.stopTest None;
               Admin.index := Some ["aabbccddeeff"] |} in
  let run := Admin.handleExperiments Admin.PATCH (Some "aabbccddeeff") (Some body)
               "0123" "2026-01-01T00:00:00.000Z" st in
  fst run
  = Admin.ReplyExperiment 200
      {| Results.id := "aabbccddeeff"; Results.name := "Stop Test";
         Results.variants := ["control"; "treatment"];
         Results.trafficPercent := 50;
         Results.status := Results.active;
         Results.type := Some Results.TypeFlag;
         Results.createdAt := Results.createdAt Fixtures.stopTest;
         Results.updatedAt := "2026-01-01T00:00:00.000Z";
         Results.winner := None; Results.completedAt := None;
         Results.minSamplesPerVariant := Some 100%Z;
         Results.autoStop := Some true |}.
Proof.
  intros body st run.
  pose proof (update_keeps_identity "aabbccddeeff" body "0123"
                "2026-01-01T00:00:00.000Z" st Fixtures.stopTest
                ltac:(discriminate) eq_refl) as H.
  cbv zeta in H. destruct H as (_ & _ & H).
  destruct (H eq_refl) as (Hreply & _).
  { intros t Ht. injection Ht as <-. split; discriminate. }
  exact Hreply.
Defined.

Lemma elem_of_without (i j : string) (ids : list string) :
  j ∈ List.filter (fun k => negb (String.eqb k i)) ids <-> j ∈ ids /\ j <> i.
Proof.
  rewrite !list_elem_of_In, filter_In, negb_true_iff.
  now rewrite String.eqb_neq.
Qed.

(** X18.  Deleting.  DELETE of an id always answers 200, whether or not a
    record exists.  Afterwards the id has no record and is not in the index,
    a GET of it answers 404, and every other id keeps its record and its
    place in the index.  The counters are not touched: the streak counter
    of a deleted flag stays in the namespace. *)
Theorem delete_forgets :
  forall (i : string) (body : option Admin.Body) (uuid now : string)
         (st : Admin.Store),
    i <> EmptyString ->
    let run := Admin.handleExperiments Admin.DELETE (Some i) body uuid now st in
    fst run = Admin.ReplyDeleted 200 i
    /\ Admin.getRecord i (snd run) = None
    /\ (i ∉ Admin.getIndex (snd run))
    /\ (forall j : string, j <> i ->
          Admin.getRecord j (snd run) = Admin.getRecord j st
          /\ (j ∈ Admin.getIndex (snd run) <-> j ∈ Admin.getIndex st))
    /\ Results.counters (Admin.kv (snd run)) = Results.counters (Admin.kv st)
    /\ forall (body' : option Admin.Body) (uuid' now' : string),
         Admin.handleExperiments Admin.GET (Some i) body' uuid' now' (snd run)
         = (Admin.ReplyError 404 "Not found", snd run).
Proof.
  intros i body uuid now st Hi run.
  assert (Hrun : run
                 = (Admin.ReplyDeleted 200 i,
                    Admin.setIndex
                      (List.filter (fun k => negb (String.eqb k i))
                         (Admin.getIndex st))
                      (Admin.deleteRecord i st))).
  { subst run. unfold Admin.handleExperiments.
    rewrite (proj2 (truthy_some i) Hi). reflexivity. }
  rewrite Hrun. cbn [fst snd].
  assert (Hget : forall j,
             Admin.getRecord j
               (Admin.setIndex
                  (List.filter (fun k => negb (String.eqb k i)) (Admin.getIndex st))
                  (Admin.deleteRecord i st))
             = if decide (i = j) then None else Admin.getRecord j st).
  { intros j. rewrite <- getRecord_delete. reflexivity. }
  split; [reflexivity|]. split.
  { rewrite Hget. now destruct (decide (i = i)). }
  split.
  { unfold Admin.setIndex, Admin.getIndex at 1. cbn [Admin.index default].
    change (i ∉ List.filter (fun k => negb (String.eqb k i)) (Admin.getIndex st)).
    rewrite elem_of_without. now intros [_ H]. }
  split.
  { intros j Hj. split.
    - rewrite Hget. destruct (decide (i = j)); [congruence | reflexivity].
    - unfold Admin.setIndex, Admin.getIndex at 1. cbn [Admin.index].
      change (j ∈ List.filter (fun k => negb (String.eqb k i)) (Admin.getIndex st)
              <-> j ∈ Admin.getIndex st).
      rewrite elem_of_without. tauto. }
  split; [reflexivity|].
  intros body' uuid' now'. unfold Admin.handleExperiments.
  rewrite (proj2 (truthy_some i) Hi).
  change (default EmptyString (Some i)) with i.
  rewrite Hget. now destruct (decide (i = i)).
Qed.

Lemma delete_forgets_witness :
  let st := {| Admin.kv := Fixtures.kv_of Fixtures.flagTest (Some 2%Z);
               Admin.index := Some ["f1a9f1a9f1a9"] |} in
  let run := Admin.handleExperiments Admin.DELETE (Some "f1a9f1a9f1a9") None
               "0123" "2026-01-01T00:00:00.000Z" st in
  Admin.getRecord "f1a9f1a9f1a9" (snd run) = None
  /\ Results.counters (Admin.kv (snd run)) !! "autostop:f1a9f1a9f1a9" = Some 2%Z.
Proof.
  intros st run.
  pose proof (delete_forgets "f1a9f1a9f1a9" None "0123" "2026-01-01T00:00:00.000Z"
                st ltac:(discriminate)) as H.
  cbv zeta in H. destruct H as (_ & Hgone & _ & _ & Hcounters & _).
  split; [exact Hgone|].
  subst run. rewrite Hcounters. reflexivity.
Defined.

(* ===================================================================== *)
(** * The records stay well formed *)
(* ===================================================================== *)

Section Consistency.

Lemma well_formed_put (i : string) (e : Results.Experiment) (st : Admin.Store) :
  Admin.well_formed (Admin.kv st) ->
  Results.id e = i ->
  Admin.admissible e ->
  Admin.well_formed (Admin.kv (Admin.putRecord i e st)).
Proof.
  intros Hwf Hid Hadm key e' Hlook.
  unfold Admin.putRecord in Hlook. cbn in Hlook.
  apply lookup_insert_Some in Hlook as [[<- <-]|[_ Hlook]].
  - split; [now rewrite Hid | exact Hadm].
  - now apply Hwf.
Qed.

Lemma well_formed_insert (e e' : Results.Experiment) (kv kv' : Results.KV) :
  Admin.well_formed kv ->
  Results.records kv' = <[Results.recordKey e := e']> (Results.records kv) ->
  Results.id e' = Results.id e ->
  Admin.admissible e' ->
  Admin.well_formed kv'.
Proof.
  intros Hwf Hrec Hid Hadm key x Hlook. rewrite Hrec in Hlook.
  apply lookup_insert_Some in Hlook as [[<- <-]|[_ Hlook]].
  - split; [unfold Results.recordKey; now rewrite Hid | exact Hadm].
  - now apply Hwf.
Qed.

Lemma well_formed_id (i : string) (e : Results.Experiment) (st : Admin.Store) :
  Admin.well_formed (Admin.kv st) ->
  Admin.getRecord i st = Some e ->
  Results.id e = i /\ Admin.admissible e.
Proof.
  intros Hwf Hrec. destruct (Hwf _ _ Hrec) as [Hkey Hadm].
  split; [symmetry; now apply key_inj | exact Hadm].
Qed.

(** What an evaluation can do to the records: nothing, or replace the
    evaluated record by one with the same id and variants whose traffic
    percentage is the same or the next step of the schedule. *)
Lemma evaluate_records (now : string) (e : Results.Experiment)
    (variantKeys : list nat) (stats : gmap nat Results.VariantStats)
    (probabilities : list (option Q)) (names : list string)
    (kv kv' : Results.KV) (out : Results.Outcome (option Results.Experiment)) :
  Results.evaluate now (Some e) variantKeys stats probabilities names kv
  = (out, kv') ->
  Results.records kv' = Results.records kv
  \/ exists e' : Results.Experiment,
       Results.records kv' = <[Results.recordKey e := e']> (Results.records kv)
       /\ Results.id e' = Results.id e
       /\ Results.variants e' = Results.variants e
       /\ (Results.trafficPercent e' = Results.trafficPercent e
           \/ Results.next_step (Results.trafficPercent e)
                (Results.trafficPercent e')).
Proof.
  unfold Results.evaluate.
  destruct (Results.is_active (Results.status e));
    [|intros H; injection H as _ <-; now left].
  destruct (Results.is_experiment _ && _).
  - unfold Results.bind.
    destruct (evaluateExperimentStop_outcome now e probabilities names
                variantKeys stats kv)
      as [[Hr _]|[Hr|(v & _ & Hr)]]; rewrite Hr; intros H.
    + injection H as _ <-. now left.
    + injection H as _ <-. now left.
    + injection H as _ <-. right. eexists. split; [reflexivity|].
      split; [reflexivity|]. split; [reflexivity|]. now left.
  - destruct (Results.is_flag _); [|intros H; injection H as _ <-; now left].
    unfold Results.bind.
    destruct (evaluateFlagRamp_outcome now e probabilities kv)
      as [Hr|[(n & Hr)|(next & n & Hnext & Hr)]]; rewrite Hr; intros H.
    + injection H as _ <-. now left.
    + injection H as _ <-. now left.
    + injection H as _ <-. right. eexists. split; [reflexivity|].
      split; [reflexivity|]. split; [reflexivity|]. now right.
Qed.

Lemma consistent_replace (i : string) (existing e' : Results.Experiment)
    (st : Admin.Store) :
  Admin.consistent st ->
  Admin.getRecord i st = Some existing ->
  Results.id e' = Results.id existing ->
  Admin.admissible e' ->
  Admin.consistent (Admin.putRecord i e' st).
Proof.
  intros [Hwf [Hnodup Hlisted]] Hrec Hid Hadm.
  destruct (well_formed_id i existing st Hwf Hrec) as [Hi _].
  split; [apply well_formed_put; [exact Hwf | congruence | exact Hadm]|].
  split; [exact Hnodup|].
  intros j. change (Admin.getIndex (Admin.putRecord i e' st)) with (Admin.getIndex st).
  rewrite getRecord_put, Hlisted.
  destruct (decide (i = j)) as [<-|_]; [|reflexivity].
  rewrite Hrec. split; intros _; now eexists.
Qed.

Lemma merged_admissible (existing : Results.Experiment) (b : Admin.Body)
    (now : string) :
  Admin.admissible existing ->
  bool_decide (is_Some (Admin.b_variants b)) = false ->
  match Admin.b_trafficPercent b with
  | Some t => Admin.out_of_range t
  | None => false
  end = false ->
  Admin.admissible (Admin.merged existing b now).
Proof.
  intros (Hlen & H0 & H100) Hvs Hrange.
  unfold Admin.admissible, Admin.merged.
  cbn [Results.variants Results.trafficPercent].
  split.
  - destruct (Admin.b_variants b) as [vs|]; [|exact Hlen].
    apply bool_decide_eq_false in Hvs. exfalso. apply Hvs. now eexists.
  - destruct (Admin.b_trafficPercent b) as [t|]; [|now split].
    now apply out_of_range_false.
Qed.

Lemma consistent_delete (i : string) (st : Admin.Store) :
  Admin.consistent st ->
  Admin.consistent
    (Admin.setIndex
       (List.filter (fun k => negb (String.eqb k i))
          (Admin.getIndex (Admin.deleteRecord i st)))
       (Admin.deleteRecord i st)).
Proof.
  intros [Hwf [Hnodup Hlisted]].
  change (Admin.getIndex (Admin.deleteRecord i st)) with (Admin.getIndex st).
  split.
  - intros key e Hlook. cbn in Hlook.
    apply lookup_delete_Some in Hlook as [_ Hlook]. now apply Hwf.
  - split.
    + change (NoDup (List.filter (fun k => negb (String.eqb k i))
                       (Admin.getIndex st))).
      apply NoDup_ListNoDup, List.NoDup_filter. now apply NoDup_ListNoDup.
    + intros j.
      change (j ∈ List.filter (fun k => negb (String.eqb k i)) (Admin.getIndex st)
              <-> is_Some (Admin.getRecord j (Admin.deleteRecord i st))).
      rewrite elem_of_without, getRecord_delete, Hlisted.
      destruct (decide (i = j)) as [->|Hne].
      * split; [now intros [_ H] | intros [x Hx]; discriminate].
      * split; [now intros [H _] | intros H; split; [exact H | congruence]].
Qed.

End Consistency.

(** X19.  No request to the experiments API breaks the namespace.  If every
    stored record sits under the key of its own id with at least two
    variants and a traffic percentage within [0, 100], and the index lists
    exactly the ids that have a record, each once, then the same holds after
    any request, whatever its method, path and body.  The one assumption is
    that the identifier drawn for a POST is not already in use. *)
Theorem handleExperiments_keeps_consistent :
  forall (method : Admin.Method) (id : option string) (body : option Admin.Body)
         (uuid now : string) (st : Admin.Store),
    Admin.consistent st ->
    (method = Admin.POST -> Admin.getRecord uuid st = None) ->
    Admin.consistent (snd (Admin.handleExperiments method id body uuid now st)).
Proof.
  intros method id body uuid now st Hc Hfresh.
  pose proof Hc as [Hwf [Hnodup Hlisted]].
  unfold Admin.handleExperiments.
  destruct method, (Admin.truthy id) eqn:Hid; try exact Hc.
  - (* GET of one id *)
    destruct (Admin.getRecord (default EmptyString id) st); exact Hc.
  - (* POST *)
    specialize (Hfresh eq_refl).
    destruct body as [b|]; [|exact Hc].
    destruct (negb _); [exact Hc|].
    destruct (length _ <? 2)%nat eqn:Hlen; [exact Hc|].
    destruct (Admin.out_of_range _) eqn:Hrange; [exact Hc|].
    apply Nat.ltb_ge in Hlen. apply out_of_range_false in Hrange.
    set (e := Admin.created b _ _ uuid now).
    change (Results.id e) with uuid. cbn [snd].
    split.
    + apply well_formed_put; [exact Hwf | reflexivity|].
      split; [exact Hlen | exact Hrange].
    + split.
      * change (NoDup (Admin.getIndex st ++ [uuid])).
        apply NoDup_app. split; [exact Hnodup|]. split; [|apply NoDup_singleton].
        intros j Hj Hj'. apply list_elem_of_singleton in Hj' as ->.
        apply Hlisted in Hj. rewrite Hfresh in Hj. now destruct Hj.
      * intros j.
        change (j ∈ Admin.getIndex st ++ [uuid]
                <-> is_Some (Admin.getRecord j (Admin.putRecord uuid e st))).
        rewrite getRecord_put, elem_of_app, list_elem_of_singleton.
        destruct (decide (uuid = j)) as [->|Hne].
        -- split; [now eexists | now right].
        -- rewrite Hlisted. split; [intros [H|H]; [exact H | congruence] | now left].
  - (* PUT *)
    destruct id as [i|]; [|discriminate].
    change (default EmptyString (Some i)) with i.
    destruct (Admin.getRecord i st) as [existing|] eqn:Hrec; [|exact Hc].
    destruct body as [b|]; [|exact Hc].
    destruct (bool_decide (is_Some (Admin.b_variants b))) eqn:Hvs; [exact Hc|].
    destruct (match Admin.b_trafficPercent b with
              | Some t => Admin.out_of_range t | None => false end) eqn:Hrange;
      [exact Hc|].
    cbn [snd].
    apply (consistent_replace i existing); [exact Hc | exact Hrec | reflexivity|].
    apply merged_admissible; [|exact Hvs | exact Hrange].
    now apply (well_formed_id i existing st Hwf Hrec).
  - (* PATCH *)
    destruct id as [i|]; [|discriminate].
    change (default EmptyString (Some i)) with i.
    destruct (Admin.getRecord i st) as [existing|] eqn:Hrec; [|exact Hc].
    destruct body as [b|]; [|exact Hc].
    destruct (bool_decide (is_Some (Admin.b_variants b))) eqn:Hvs; [exact Hc|].
    destruct (match Admin.b_trafficPercent b with
              | Some t => Admin.out_of_range t | None => false end) eqn:Hrange;
      [exact Hc|].
    cbn [snd].
    apply (consistent_replace i existing); [exact Hc | exact Hrec | reflexivity|].
    apply merged_admissible; [|exact Hvs | exact Hrange].
    now apply (well_formed_id i existing st Hwf Hrec).
  - (* DELETE *)
    cbn [snd]. now apply consistent_delete.
Qed.

Lemma fixture_consistent (e : Results.Experiment) (counter : option Z) :
  Admin.admissible e ->
  Admin.consistent {| Admin.kv := Fixtures.kv_of e counter;
                      Admin.index := Some [Results.id e] |}.
Proof.
  intros Hadm. split.
  - intros key x Hlook. cbn in Hlook.
    apply lookup_singleton_Some in Hlook as [<- <-]. now split.
  - split.
    + apply NoDup_singleton.
    + intros j. unfold Admin.getIndex, Admin.getRecord. cbn.
      rewrite list_elem_of_singleton. split.
      * intros ->. eexists. apply lookup_singleton_eq.
      * intros [x Hx]. apply lookup_singleton_Some in Hx as [Hkey _].
        symmetry. now apply key_inj.
Qed.

Lemma stopTest_admissible : Admin.admissible Fixtures.stopTest.
Proof. split; [simpl; lia | split; discriminate]. Qed.

Lemma flagTest_admissible : Admin.admissible Fixtures.flagTest.
Proof. split; [simpl; lia | split; discriminate]. Qed.

Lemma handleExperiments_keeps_consistent_witness :
  let body :=
    {| Admin.b_id := None; Admin.b_name := Some "checkout";
       Admin.b_variants := None; Admin.b_trafficPercent := Some 50%Q;
       Admin.b_status := None; Admin.b_type := None;
       Admin.b_createdAt := None; Admin.b_updatedAt := None;
       Admin.b_winner := None; Admin.b_completedAt := None;
       Admin.b_minSamplesPerVariant := None; Admin.b_autoStop := None |} in
  let st := {| Admin.kv := Fixtures.kv_of Fixtures.stopTest None;
               Admin.index := Some ["aabbccddeeff"] |} in
  Admin.consistent st
  /\ Admin.getRecord "0123" st = None
  /\ Admin.consistent
       (snd (Admin.handleExperiments Admin.POST None (Some body) "0123"
               "2026-01-01T00:00:00.000Z" st)).
Proof.
  intros body st.
  assert (Hc : Admin.consistent st)
    by exact (fixture_consistent Fixtures.stopTest None stopTest_admissible).
  split; [exact Hc|]. split; [reflexivity|].
  apply (handleExperiments_keeps_consistent Admin.POST None (Some body) "0123"
           "2026-01-01T00:00:00.000Z" st Hc).
  intros _. reflexivity.
Defined.

(** X20.  No results request breaks the namespace either.  On a consistent
    namespace a results request returns, and the namespace it leaves is
    consistent with the same index.  The record of the experiment, if there
    is one, is still there with the same variants and a traffic percentage
    that is not smaller than before: auto-stop and auto-ramp never alter the
    variants and never reduce the traffic. *)
Theorem handleResults_keeps_consistent :
  forall (experimentId : string) (stats : gmap nat Results.VariantStats)
         (now : string) (g : Stats.Rng) (st : Admin.Store),
    Admin.consistent st ->
    exists (resp : Results.Response) (g' : Stats.Rng) (kv' : Results.KV),
      Results.handleResults experimentId stats now g (Admin.kv st)
      = (Results.Ok (resp, g'), kv')
      /\ Admin.consistent {| Admin.kv := kv'; Admin.index := Admin.index st |}
      /\ forall e : Results.Experiment,
           Admin.getRecord experimentId st = Some e ->
           exists e' : Results.Experiment,
             Results.records kv' !! ("experiment:" +:+ experimentId) = Some e'
             /\ Results.variants e' = Results.variants e
             /\ (Results.trafficPercent e <= Results.trafficPercent e')%Q.
Proof.
  intros experimentId stats now g st Hc.
  destruct (handleResults_run experimentId stats now g (Admin.kv st))
    as (datas & rows & _ & _ & Hrun). cbv zeta in Hrun.
  set (probabilities := fst (Stats.multiVariantProbabilities datas g)) in *.
  destruct (evaluate_returns experimentId stats now (Admin.kv st) probabilities)
    as (finalExp & kv' & Hev).
  rewrite Hev in Hrun. eexists _, _, kv'. split; [exact Hrun|].
  clear Hrun.
  destruct (Results.records (Admin.kv st) !! ("experiment:" +:+ experimentId))
    as [e|] eqn:Hrec.
  - destruct (well_formed_id experimentId e st (proj1 Hc) Hrec) as [Hid Hadm].
    apply evaluate_records in Hev as [Hsame|(e' & Hnew & Hid' & Hvs & Htp)].
    + split.
      * destruct Hc as [Hwf Hl]. split.
        -- intros key x Hx. cbn in Hx. rewrite Hsame in Hx. now apply Hwf.
        -- destruct Hl as [Hnd Hl]. split; [exact Hnd|]. intros j.
           unfold Admin.getRecord. cbn [Admin.kv]. rewrite Hsame. apply Hl.
      * intros e0 He0. unfold Admin.getRecord in He0. rewrite Hrec in He0.
        injection He0 as <-. exists e. rewrite Hsame.
        split; [exact Hrec|]. split; [reflexivity | apply Qle_refl].
    + assert (Hle : (Results.trafficPercent e <= Results.trafficPercent e')%Q).
      { destruct Htp as [->|Hn]; [apply Qle_refl|].
        apply Qlt_le_weak. now apply next_step_bounds in Hn. }
      assert (Hkey : Results.recordKey e = "experiment:" +:+ experimentId).
      { unfold Results.recordKey. now rewrite Hid. }
      split.
      * destruct Hc as [Hwf [Hnd Hl]]. split.
        -- apply (well_formed_insert e e' (Admin.kv st) kv' Hwf Hnew Hid').
           destruct Hadm as (Hlen & H0 & H100).
           split; [now rewrite Hvs|]. split.
           ++ eapply Qle_trans; eassumption.
           ++ destruct Htp as [->|Hn]; [exact H100|].
              now apply next_step_bounds in Hn.
        -- split; [exact Hnd|]. intros j.
           unfold Admin.getRecord. cbn [Admin.kv]. rewrite Hnew, Hkey.
           change (Admin.getIndex {| Admin.kv := kv'; Admin.index := Admin.index st |})
             with (Admin.getIndex st).
           rewrite Hl. unfold Admin.getRecord.
           destruct (decide (experimentId = j)) as [<-|Hne].
           ++ rewrite lookup_insert_eq, Hrec. split; intros _; now eexists.
           ++ rewrite lookup_insert_ne; [reflexivity|].
              intros H. now apply key_inj in H.
      * intros e0 He0. unfold Admin.getRecord in He0. rewrite Hrec in He0.
        injection He0 as <-. exists e'. rewrite Hnew, Hkey, lookup_insert_eq.
        split; [reflexivity|]. split; [exact Hvs | exact Hle].
  - unfold Results.evaluate in Hev. injection Hev as _ <-.
    split; [now destruct st|].
    intros e He. unfold Admin.getRecord in He. congruence.
Qed.

Lemma handleResults_keeps_consistent_witness :
  let st := {| Admin.kv := Fixtures.kv_of Fixtures.flagTest (Some 2%Z);
               Admin.index := Some ["f1a9f1a9f1a9"] |} in
  Admin.consistent st
  /\ exists (resp : Results.Response) (g' : Stats.Rng) (kv' : Results.KV),
       Results.handleResults "f1a9f1a9f1a9" (Fixtures.counts 1000 10 1000 900)
         "2026-01-01T00:00:00.000Z" Scenarios.quarter_draws (Admin.kv st)
       = (Results.Ok (resp, g'), kv')
       /\ Admin.consistent {| Admin.kv := kv'; Admin.index := Admin.index st |}.
Proof.
  intros st.
  assert (Hc : Admin.consistent st)
    by exact (fixture_consistent Fixtures.flagTest (Some 2%Z) flagTest_admissible).
  split; [exact Hc|].
  destruct (handleResults_keeps_consistent "f1a9f1a9f1a9"
              (Fixtures.counts 1000 10 1000 900) "2026-01-01T00:00:00.000Z"
              Scenarios.quarter_draws st Hc)
    as (resp & g' & kv' & Hrun & Hc' & _).
  exists resp, g', kv'. split; [exact Hrun | exact Hc'].
Defined.

Lemma omap_ids (st : Admin.Store) (ids : list string) :
  Admin.well_formed (Admin.kv st) ->
  (forall i, i ∈ ids -> is_Some (Admin.getRecord i st)) ->
  map Results.id (omap (fun i => Admin.getRecord i st) ids) = ids.
Proof.
  intros Hwf. induction ids as [|i ids IH]; intros Hall; [reflexivity|].
  cbn [omap list_omap].
  destruct (Hall i ltac:(left)) as [e He].
  change (list_omap ?f ?l) with (omap f l).
  rewrite He. cbn [map].
  destruct (well_formed_id i e st Hwf He) as [-> _].
  f_equal. apply IH. intros j Hj. apply Hall. now right.
Qed.

(** X21.  Listing.  On a consistent namespace, GET without an id answers 200
    with the stored records in the order of the index: the ids of the listed
    records are the index itself, and a record is listed exactly when it is
    stored; nothing is written. *)
Theorem list_returns_all :
  forall (body : option Admin.Body) (uuid now : string) (st : Admin.Store),
    Admin.consistent st ->
    exists experiments : list Results.Experiment,
      Admin.handleExperiments Admin.GET None body uuid now st
      = (Admin.ReplyList 200 experiments, st)
      /\ map Results.id experiments = Admin.getIndex st
      /\ NoDup experiments
      /\ forall e : Results.Experiment,
           e ∈ experiments
           <-> exists key : string, Results.records (Admin.kv st) !! key = Some e.
Proof.
  intros body uuid now st [Hwf [Hnd Hl]].
  eexists. split; [reflexivity|].
  assert (Hids : map Results.id
                   (omap (fun i => Admin.getRecord i st) (Admin.getIndex st))
                 = Admin.getIndex st).
  { apply omap_ids; [exact Hwf|]. intros i Hi. now apply Hl. }
  split; [exact Hids|]. split.
  - apply (NoDup_fmap_1 Results.id). 
    change (NoDup (map Results.id
                     (omap (fun i => Admin.getRecord i st) (Admin.getIndex st)))).
    now rewrite Hids.
  - intros e. rewrite list_elem_of_omap. split.
    + intros (i & _ & Hi). exists ("experiment:" +:+ i). exact Hi.
    + intros (key & Hkey). destruct (Hwf _ _ Hkey) as [-> _].
      exists (Results.id e). split; [|exact Hkey].
      apply Hl. exists e. exact Hkey.
Qed.

Lemma list_returns_all_witness :
  let st := {| Admin.kv := Fixtures.kv_of Fixtures.stopTest None;
               Admin.index := Some ["aabbccddeeff"] |} in
  Admin.consistent st
  /\ exists experiments : list Results.Experiment,
       Admin.handleExperiments Admin.GET None None "0123"
         "2026-01-01T00:00:00.000Z" st
       = (Admin.ReplyList 200 experiments, st)
       /\ map Results.id experiments = ["aabbccddeeff"].
Proof.
  intros st.
  assert (Hc : Admin.consistent st)
    by exact (fixture_consistent Fixtures.stopTest None stopTest_admissible).
  split; [exact Hc|].
  destruct (list_returns_all None "0123" "2026-01-01T00:00:00.000Z" st Hc)
    as (experiments & Hrun & Hids & _).
  exists experiments. split; [exact Hrun | exact Hids].
Defined.

(* ===================================================================== *)
(** * Properties of the assignments *)
(* ===================================================================== *)

Section InitFacts.

Variable visitorId : Hash.jsstring.

(** The loop over [experiments], seen from one id whose records all bucket
    to the same value [w]. *)
Lemma assign_fold_lookup (i : string) (w : Z) (experiments : list Results.Experiment) :
  forall init : gmap string Z,
    (forall exp, exp ∈ experiments -> Results.id exp = i ->
                 Init.variant_of visitorId exp = w) ->
    fold_left (Init.assign_step visitorId) experiments init !! i
    = if existsb (fun exp => String.eqb (Results.id exp) i) experiments
         && (0 <=? w)%Z
      then Some w else init !! i.
Proof.
  induction experiments as [|exp rest IH]; intros init Hall; [reflexivity|].
  cbn [fold_left existsb]. rewrite IH by (intros x Hx; apply Hall; now right).
  unfold Init.assign_step.
  destruct (String.eqb (Results.id exp) i) eqn:Hid.
  - apply String.eqb_eq in Hid.
    rewrite (Hall exp ltac:(left) Hid). cbn [orb].
    destruct (0 <=? w)%Z.
    + rewrite andb_true_r. rewrite Hid, lookup_insert_eq.
      now destruct (existsb _ rest).
    + now rewrite !andb_false_r.
  - apply String.eqb_neq in Hid. cbn [orb].
    destruct (existsb _ rest && (0 <=? w)%Z); [reflexivity|].
    destruct (0 <=? Init.variant_of visitorId exp)%Z; [|reflexivity].
    now apply lookup_insert_ne.
Qed.

Lemma load_elem (order : list string) (st : Admin.Store) (exp : Results.Experiment) :
  exp ∈ Init.load order st
  <-> Results.status exp = Results.active
      /\ exists i, i ∈ order /\ Admin.getRecord i st = Some exp.
Proof.
  unfold Init.load. rewrite list_elem_of_In, filter_In, <- list_elem_of_In.
  rewrite list_elem_of_omap.
  assert (Hs : Results.is_active (Results.status exp) = true
               <-> Results.status exp = Results.active)
    by (destruct (Results.status exp); cbn; split; congruence).
  rewrite Hs. tauto.
Qed.

Lemma load_exists (order : list string) (st : Admin.Store) (i : string) :
  Admin.well_formed (Admin.kv st) ->
  existsb (fun exp => String.eqb (Results.id exp) i) (Init.load order st) = true
  <-> exists exp, i ∈ order /\ Admin.getRecord i st = Some exp
                  /\ Results.status exp = Results.active.
Proof.
  intros Hwf. rewrite existsb_exists. split.
  - intros (exp & Hin & Hid). apply String.eqb_eq in Hid.
    apply list_elem_of_In, load_elem in Hin as (Hs & j & Hj & Hrec).
    destruct (well_formed_id j exp st Hwf Hrec) as [Hj' _].
    exists exp. assert (j = i) as -> by congruence. now split.
  - intros (exp & Hi & Hrec & Hs). exists exp. split.
    + apply list_elem_of_In, load_elem. split; [exact Hs | now exists i].
    + apply String.eqb_eq. now apply (well_formed_id i exp st Hwf Hrec).
Qed.

Lemma variant_of_range (exp : Results.Experiment) :
  Admin.admissible exp ->
  (-1 <= Init.variant_of visitorId exp
   <= Z.of_nat (length (Results.variants exp)) - 1)%Z.
Proof.
  intros (Hlen & _ & _). unfold Init.variant_of. rewrite bucket_default_type.
  destruct (bucket_experiment_cases visitorId
              (Hash.ascii_units (Results.id exp))
              (Z.of_nat (length (Results.variants exp)))
              (Results.trafficPercent exp) ltac:(lia))
    as [[_ ->]|(_ & _ & -> & Hr)]; lia.
Qed.

End InitFacts.

(** The assignment of one id, in whatever order the records were read. *)
Lemma assign_load_lookup (visitor : Hash.jsstring) (order : list string)
    (st : Admin.Store) (i : string) :
  Admin.well_formed (Admin.kv st) ->
  order ≡ₚ Admin.getIndex st ->
  Init.assign visitor (Init.load order st) !! i
  = match Admin.getRecord i st with
    | Some exp =>
        if bool_decide (i ∈ Admin.getIndex st)
           && Results.is_active (Results.status exp)
           && (0 <=? Init.variant_of visitor exp)%Z
        then Some (Init.variant_of visitor exp)
        else None
    | None => None
    end.
Proof.
  intros Hwf Hperm.
  unfold Init.assign.
  destruct (Admin.getRecord i st) as [exp|] eqn:Hrec.
  - rewrite (assign_fold_lookup visitor i (Init.variant_of visitor exp)).
    + rewrite lookup_empty.
      destruct (existsb _ (Init.load order st)) eqn:Hex.
      * apply load_exists in Hex as (exp' & Hi & Hrec' & Hs); [|exact Hwf].
        assert (exp' = exp) as -> by congruence.
        rewrite bool_decide_eq_true_2 by (now rewrite <- Hperm).
        rewrite Hs. reflexivity.
      * destruct (bool_decide (i ∈ Admin.getIndex st)) eqn:Hin;
          [|reflexivity].
        destruct (Results.is_active (Results.status exp)) eqn:Hs;
          [|reflexivity].
        exfalso. apply bool_decide_eq_true in Hin.
        assert (Hex' : existsb (fun x => String.eqb (Results.id x) i)
                         (Init.load order st) = true).
        { apply load_exists; [exact Hwf|]. exists exp.
          split; [now rewrite Hperm|]. split; [exact Hrec|].
          now destruct (Results.status exp). }
        congruence.
    + intros x Hx Hid. apply load_elem in Hx as (_ & j & _ & Hj).
      destruct (well_formed_id j x st Hwf Hj) as [Hj' _].
      assert (j = i) as -> by congruence. congruence.
  - rewrite (assign_fold_lookup visitor i 0).
    + rewrite lookup_empty.
      destruct (existsb _ (Init.load order st)) eqn:Hex; [|reflexivity].
      apply load_exists in Hex as (exp' & _ & Hrec' & _); [|exact Hwf].
      congruence.
    + intros x Hx Hid. apply load_elem in Hx as (_ & j & _ & Hj).
      destruct (well_formed_id j x st Hwf Hj) as [Hj' _].
      assert (j = i) as -> by congruence. congruence.
Qed.

(** X22.  The assignments of [/init].  On a well-formed namespace, in
    whatever order the reads of the records complete, the answer assigns an
    id exactly when the id is in the index, its record is active and the
    bucketing of the visitor (called without a type, so in experiment mode
    also for flags) is not -1; the value is then that bucket.  An assigned
    value is a valid variant index of the record: never negative, and below
    the number of variants.  The visitor id is the query parameter when there
    is one, else the generated id. *)
Theorem handleInit_assignments :
  forall (param : option Hash.jsstring) (generated : Hash.jsstring)
         (order : list string) (st : Admin.Store) (i : string),
    Admin.well_formed (Admin.kv st) ->
    order ≡ₚ Admin.getIndex st ->
    let answer := Init.handleInit param generated order st in
    let visitor := default generated param in
    Init.visitorId answer = visitor
    /\ Init.assignments answer !! i
       = match Admin.getRecord i st with
         | Some exp =>
             if bool_decide (i ∈ Admin.getIndex st)
                && Results.is_active (Results.status exp)
                && (0 <=? Init.variant_of visitor exp)%Z
             then Some (Init.variant_of visitor exp)
             else None
         | None => None
         end
    /\ forall w : Z,
         Init.assignments answer !! i = Some w ->
         exists exp : Results.Experiment,
           Admin.getRecord i st = Some exp
           /\ (0 <= w < Z.of_nat (length (Results.variants exp)))%Z.
Proof.
  intros param generated order st i Hwf Hperm answer visitor.
  assert (Hlook : Init.assignments answer !! i
                  = match Admin.getRecord i st with
                    | Some exp =>
                        if bool_decide (i ∈ Admin.getIndex st)
                           && Results.is_active (Results.status exp)
                           && (0 <=? Init.variant_of visitor exp)%Z
                        then Some (Init.variant_of visitor exp)
                        else None
                    | None => None
                    end)
    by (now apply assign_load_lookup).
  split; [reflexivity|]. split; [exact Hlook|].
  intros w Hw. rewrite Hlook in Hw.
  destruct (Admin.getRecord i st) as [exp|] eqn:Hrec; [|discriminate].
  exists exp. split; [reflexivity|].
  destruct (_ && _ && (0 <=? _)%Z) eqn:Hc; [|discriminate].
  injection Hw as <-.
  apply andb_true_iff in Hc as [_ Hpos]. apply Z.leb_le in Hpos.
  pose proof (variant_of_range visitor exp
                (proj2 (well_formed_id i exp st Hwf Hrec))).
  lia.
Qed.

Lemma handleInit_assignments_witness :
  let st := {| Admin.kv := Fixtures.kv_of Fixtures.stopTest None;
               Admin.index := Some ["aabbccddeeff"] |} in
  let answer := Init.handleInit (Some (Hash.ascii_units "visitor-19"))
                  (Hash.ascii_units "0011223344556677") ["aabbccddeeff"] st in
  Admin.well_formed (Admin.kv st)
  /\ ["aabbccddeeff"] ≡ₚ Admin.getIndex st
  /\ Init.visitorId answer = Hash.ascii_units "visitor-19"
  /\ forall w : Z,
       Init.assignments answer !! "aabbccddeeff" = Some w -> (0 <= w < 2)%Z.
Proof.
  intros st answer.
  assert (Hwf : Admin.well_formed (Admin.kv st))
    by exact (proj1 (fixture_consistent Fixtures.stopTest None stopTest_admissible)).
  split; [exact Hwf|]. split; [reflexivity|].
  pose proof (handleInit_assignments (Some (Hash.ascii_units "visitor-19"))
                (Hash.ascii_units "0011223344556677") ["aabbccddeeff"] st
                "aabbccddeeff" Hwf (reflexivity _)) as H.
  cbv zeta in H. destruct H as (Hv & _ & Hr).
  split; [exact Hv|].
  intros w Hw. destruct (Hr w Hw) as (exp & Hrec & Hrange).
  assert (Hrec0 : Admin.getRecord "aabbccddeeff" st = Some Fixtures.stopTest)
    by apply lookup_singleton_eq.
  assert (exp = Fixtures.stopTest) as -> by congruence.
  exact Hrange.
Defined.

(* ===================================================================== *)
(** * Properties of bot detection *)
(* ===================================================================== *)

Section BotFacts.

Lemma matches_at_search (pattern s : string) :
  BotDetect.matches_at pattern s = true -> BotDetect.search pattern s = true.
Proof. intros H. destruct s; cbn [BotDetect.search]; now rewrite H. Qed.

Lemma search_tail (pattern : string) (c : Ascii.ascii) (s : string) :
  BotDetect.search pattern s = true ->
  BotDetect.search pattern (String c s) = true.
Proof. intros H. cbn [BotDetect.search]. rewrite H. apply orb_true_r. Qed.

Lemma matches_at_prefix (a b : string) :
  forall s, BotDetect.matches_at (a +:+ b) s = true ->
            BotDetect.matches_at a s = true.
Proof.
  induction a as [|c a IH]; intros s H; [reflexivity|].
  destruct s as [|c' s]; [discriminate|].
  cbn [String.append BotDetect.matches_at] in *.
  apply andb_true_iff in H as [-> H]. now apply IH.
Qed.

Lemma matches_at_suffix (a b : string) :
  forall s, BotDetect.matches_at (a +:+ b) s = true ->
            BotDetect.search b s = true.
Proof.
  induction a as [|c a IH]; intros s H.
  - now apply matches_at_search.
  - destruct s as [|c' s]; [discriminate|].
    cbn [String.append BotDetect.matches_at] in H.
    apply andb_true_iff in H as [_ H]. apply search_tail. now apply IH.
Qed.

Lemma search_prefix (a b : string) :
  forall s, BotDetect.search (a +:+ b) s = true -> BotDetect.search a s = true.
Proof.
  induction s as [|c s IH]; cbn [BotDetect.search]; intros H.
  - rewrite orb_false_r in H. apply matches_at_prefix in H. now rewrite H.
  - apply orb_true_iff in H as [H|H].
    + apply matches_at_prefix in H. now rewrite H.
    + rewrite (IH H). apply orb_true_r.
Qed.

Lemma search_suffix (a b : string) :
  forall s, BotDetect.search (a +:+ b) s = true -> BotDetect.search b s = true.
Proof.
  induction s as [|c s IH]; intros H.
  - cbn [BotDetect.search] in H. rewrite orb_false_r in H.
    now apply matches_at_suffix in H.
  - cbn [BotDetect.search] in H. apply orb_true_iff in H as [H|H].
    + now apply matches_at_suffix in H.
    + apply search_tail. now apply IH.
Qed.

(** A literal that contains [core] only matches where [core] matches. *)
Lemma search_inside (pre core post s : string) :
  BotDetect.search (pre +:+ core +:+ post) s = true ->
  BotDetect.search core s = true.
Proof.
  intros H. apply search_suffix in H. now apply search_prefix in H.
Qed.

End BotFacts.

Ltac by_core pre core post :=
  match goal with
  | Hs : BotDetect.search _ ?s = true |- _ =>
      apply existsb_exists; exists core;
      split; [cbn; auto 30 | exact (search_inside pre core post s Hs)]
  end.

(** X23.  The bot pattern is equivalent to ten of its twenty-four
    alternatives: a User-Agent is a bot's exactly when it contains, in any
    letter case, one of bot, crawler, spider, scraper, slurp,
    facebookexternalhit, whatsapp, claude-web, anthropic or google-extended;
    the other fourteen alternatives each contain "bot" or "spider" and add
    nothing.  A request without the header, or with an empty one, is not a
    bot's. *)
Theorem isBot_core_alternatives :
  forall userAgent : option string,
    BotDetect.isBot userAgent
    = BotDetect.test BotDetect.CORE_PATTERN (default EmptyString userAgent)
    /\ BotDetect.isBot None = false
    /\ BotDetect.isBot (Some EmptyString) = false.
Proof.
  intros userAgent. split; [|split; reflexivity].
  unfold BotDetect.isBot. set (s := default EmptyString userAgent). clearbody s.
  apply Bool.eq_iff_eq_true. unfold BotDetect.test. split.
  - intros H. apply existsb_exists in H as (p & Hin & Hs).
    unfold BotDetect.BOT_UA_PATTERN in Hin. cbn [In] in Hin.
    destruct Hin as [<-|Hin]; [by_core EmptyString "bot" EmptyString|].
    destruct Hin as [<-|Hin]; [by_core EmptyString "crawler" EmptyString|].
    destruct Hin as [<-|Hin]; [by_core EmptyString "spider" EmptyString|].
    destruct Hin as [<-|Hin]; [by_core EmptyString "scraper" EmptyString|].
    destruct Hin as [<-|Hin]; [by_core "google" "bot" EmptyString|].
    destruct Hin as [<-|Hin]; [by_core "bing" "bot" EmptyString|].
    destruct Hin as [<-|Hin]; [by_core EmptyString "slurp" EmptyString|].
    destruct Hin as [<-|Hin]; [by_core "duckduck" "bot" EmptyString|].
    destruct Hin as [<-|Hin]; [by_core "baidu" "spider" EmptyString|].
    destruct Hin as [<-|Hin]; [by_core "yandex" "bot" EmptyString|].
    destruct Hin as [<-|Hin]; [by_core EmptyString "facebookexternalhit" EmptyString|].
    destruct Hin as [<-|Hin]; [by_core "twitter" "bot" EmptyString|].
    destruct Hin as [<-|Hin]; [by_core "linkedin" "bot" EmptyString|].
    destruct Hin as [<-|Hin]; [by_core EmptyString "whatsapp" EmptyString|].
    destruct Hin as [<-|Hin]; [by_core "telegram" "bot" EmptyString|].
    destruct Hin as [<-|Hin]; [by_core "gpt" "bot" EmptyString|].
    destruct Hin as [<-|Hin]; [by_core EmptyString "claude-web" EmptyString|].
    destruct Hin as [<-|Hin]; [by_core EmptyString "anthropic" EmptyString|].
    destruct Hin as [<-|Hin]; [by_core "cc" "bot" EmptyString|].
    destruct Hin as [<-|Hin]; [by_core EmptyString "google-extended" EmptyString|].
    destruct Hin as [<-|Hin]; [by_core "perplexity" "bot" EmptyString|].
    destruct Hin as [<-|Hin]; [by_core "apple" "bot" EmptyString|].
    destruct Hin as [<-|Hin]; [by_core "amazon" "bot" EmptyString|].
    destruct Hin as [<-|Hin]; [by_core "byte" "spider" EmptyString|].
    contradiction.
  - intros H. apply existsb_exists in H as (p & Hin & Hs).
    apply existsb_exists. exists p. split; [|exact Hs].
    unfold BotDetect.CORE_PATTERN in Hin. cbn [In] in Hin.
    repeat (destruct Hin as [<-|Hin]; [cbn; auto 30|]). contradiction.
Qed.

(* ===================================================================== *)
(** * Properties of event tracking *)
(* ===================================================================== *)

Section TrackFacts.

Lemma record_event_bot (userAgent : option string) (body : Track.TrackPayload)
    (event : string) (visitorId : Hash.jsstring) (variantIndex : Z)
    (dataset : list Track.DataPoint) :
  BotDetect.isBot userAgent = true ->
  Track.record_event userAgent body event visitorId variantIndex dataset
  = (Track.no_content, dataset).
Proof. intros H. unfold Track.record_event. now rewrite H. Qed.

Lemma record_event_visitor (userAgent : option string) (body : Track.TrackPayload)
    (event : string) (visitorId : Hash.jsstring) (variantIndex : Z)
    (dataset : list Track.DataPoint) :
  BotDetect.isBot userAgent = false ->
  Track.record_event userAgent body event visitorId variantIndex dataset
  = (Track.no_content,
     dataset ++ [ {| Track.blob1 := Track.experimentId body;
                     Track.blob2 := variantIndex;
                     Track.blob3 := event;
                     Track.blob4 := default EmptyString (Track.eventName body);
                     Track.double1 := default 1%Q (Track.value body);
                     Track.index1 := visitorId |} ]).
Proof. intros H. unfold Track.record_event. now rewrite H. Qed.

(** [handleTrack] either refuses the request or reaches its last step. *)
Lemma handleTrack_outcome (body : option Track.TrackPayload)
    (userAgent : option string) (generated : Hash.jsstring) (st : Admin.Store)
    (dataset : list Track.DataPoint) :
  (exists (status : nat) (error : string),
     (status = 400 \/ status = 404)%nat
     /\ Track.handleTrack body userAgent generated st dataset
        = (Track.failure status error, dataset))
  \/ exists (b : Track.TrackPayload) (event : string) (visitorId : Hash.jsstring)
            (variantIndex : Z),
       body = Some b
       /\ Track.handleTrack body userAgent generated st dataset
          = Track.record_event userAgent b event visitorId variantIndex dataset.
Proof.
  unfold Track.handleTrack. destruct body as [b|]; [|left; eexists _, _; now split; [left|]].
  destruct (negb (Admin.truthy (Track.event b)));
    [left; eexists _, _; now split; [left|]|].
  destruct (String.eqb _ "pageview"); [right; now eexists _, _, _, _|].
  destruct (negb _ || negb _); [left; eexists _, _; now split; [left|]|].
  destruct (Admin.getRecord _ st);
    [right; now eexists _, _, _, _ | left; eexists _, _; now split; [right|]].
Qed.

End TrackFacts.

(** X24.  What a tracking request can do.  It answers 204, 400 or 404 and
    writes at most one data point.  Only a 204 answer to a request that is
    not a bot's writes one: a refused request writes nothing, and a bot's
    request is answered 204 like any other but leaves no trace.  A pageview
    needs neither a visitor id nor an experiment: its point carries variant 0
    and the visitor id generated by the server, whatever the body says. *)
Theorem handleTrack_effects :
  forall (body : option Track.TrackPayload) (userAgent : option string)
         (generated : Hash.jsstring) (st : Admin.Store)
         (dataset : list Track.DataPoint),
    let run := Track.handleTrack body userAgent generated st dataset in
    let status := Track.reply_status (fst run) in
    (status = 204 \/ status = 400 \/ status = 404)%nat
    /\ (status <> 204%nat -> snd run = dataset)
    /\ (BotDetect.isBot userAgent = true -> snd run = dataset)
    /\ (status = 204%nat -> BotDetect.isBot userAgent = false ->
        exists point, snd run = dataset ++ [point])
    /\ forall b : Track.TrackPayload,
         body = Some b -> Track.event b = Some "pageview" ->
         BotDetect.isBot userAgent = false ->
         run = (Track.no_content,
                dataset ++ [ {| Track.blob1 := Track.experimentId b;
                                Track.blob2 := 0;
                                Track.blob3 := "pageview";
                                Track.blob4 := default EmptyString (Track.eventName b);
                                Track.double1 := default 1%Q (Track.value b);
                                Track.index1 := generated |} ]).
Proof.
  intros body userAgent generated st dataset run status.
  assert (Hmain : (status = 204 \/ status = 400 \/ status = 404)%nat
                  /\ (status <> 204%nat -> snd run = dataset)
                  /\ (BotDetect.isBot userAgent = true -> snd run = dataset)
                  /\ (status = 204%nat -> BotDetect.isBot userAgent = false ->
                      exists point, snd run = dataset ++ [point])).
  { subst status run.
    destruct (handleTrack_outcome body userAgent generated st dataset)
      as [(code & error & Hcode & ->)|(b & ev & v & w & _ & ->)].
    - cbn [fst snd Track.failure Track.reply_status].
      split; [destruct Hcode as [->| ->]; auto|].
      split; [reflexivity|]. split; [reflexivity|].
      intros H. destruct Hcode as [->| ->]; discriminate.
    - destruct (BotDetect.isBot userAgent) eqn:Hbot.
      + rewrite record_event_bot by exact Hbot. cbn [fst snd].
        split; [now left|]. split; [reflexivity|]. split; [reflexivity|].
        discriminate.
      + rewrite record_event_visitor by exact Hbot. cbn [fst snd].
        split; [now left|]. split; [intros H; now destruct H|].
        split; [discriminate|]. intros _ _. now eexists. }
  destruct Hmain as (H1 & H2 & H3 & H4).
  split; [exact H1|]. split; [exact H2|]. split; [exact H3|]. split; [exact H4|].
  intros b -> Hev Hbot. subst run. unfold Track.handleTrack.
  rewrite Hev. cbn [Admin.truthy String.eqb negb].
  change (default EmptyString (Some "pageview")) with "pageview".
  change (String.eqb "pageview" "pageview") with true. cbv iota.
  change (negb (String.eqb "pageview" EmptyString)) with true. cbn [negb].
  now apply record_event_visitor.
Qed.

(** X25.  The variant of an impression or conversion is computed by the
    server.  For an event other than a pageview, with a non-empty visitor id
    and the id of a stored record, from a client that is not a bot, the
    request is answered 204 and writes one point whose variant is the bucket
    of the visitor in that record (experiment mode, as in [/init]).  The
    [variantIndex] the client sends plays no part, and neither does the
    status of the record: events are recorded for paused and completed
    records too.  For an admissible record the written variant lies between
    -1 and the last variant index; when the traffic percentage of the record
    is a whole number, it is -1 exactly when the hash of the visitor and the
    id is at or above that percentage over 100, that is, when the visitor is
    outside the traffic of the record. *)
Theorem handleTrack_server_variant :
  forall (visitor : Hash.jsstring) (i event : string) (claimed : option Z)
         (eventName : option string) (value : option Q)
         (userAgent : option string) (generated : Hash.jsstring)
         (st : Admin.Store) (dataset : list Track.DataPoint)
         (exp : Results.Experiment),
    visitor <> [] -> i <> EmptyString ->
    event <> EmptyString -> event <> "pageview" ->
    Admin.getRecord i st = Some exp ->
    BotDetect.isBot userAgent = false ->
    let body := {| Track.visitorId := Some visitor;
                   Track.experimentId := Some i;
                   Track.event := Some event;
                   Track.variantIndex := claimed;
                   Track.eventName := eventName;
                   Track.value := value |} in
    let variant := Hash.bucket visitor (Hash.ascii_units i)
                     (Z.of_nat (length (Results.variants exp)))
                     (Results.trafficPercent exp) None in
    Track.handleTrack (Some body) userAgent generated st dataset
    = (Track.no_content,
       dataset ++ [ {| Track.blob1 := Some i;
                       Track.blob2 := variant;
                       Track.blob3 := event;
                       Track.blob4 := default EmptyString eventName;
                       Track.double1 := default 1%Q value;
                       Track.index1 := visitor |} ])
    /\ (Admin.admissible exp ->
        (-1 <= variant <= Z.of_nat (length (Results.variants exp)) - 1)%Z
        /\ forall z : Z,
             Results.trafficPercent exp = inject_Z z ->
             variant = (-1)%Z
             <-> (inject_Z z / 100
                  <= Hash.fnv1a (visitor ++ Hash.ascii_units i))%Q).
Proof.
  intros visitor i event claimed eventName value userAgent generated st dataset
         exp Hv Hi Hev Hpv Hrec Hbot body variant.
  split; [|intros (Hlen & _ & _); split].
  - unfold Track.handleTrack. cbn [Track.event body].
    rewrite (proj2 (truthy_some event) Hev). cbn [negb].
    change (default EmptyString (Some event)) with event.
    rewrite (proj2 (String.eqb_neq _ _) Hpv).
    cbn [Track.visitorId Track.experimentId body].
    rewrite (proj2 (truthy_some i) Hi).
    assert (Hhas : Track.has_visitor (Some visitor) = true)
      by (destruct visitor; [congruence | reflexivity]).
    rewrite Hhas. cbn [negb orb].
    change (default EmptyString (Some i)) with i.
    change (default [] (Some visitor)) with visitor.
    rewrite Hrec. now rewrite record_event_visitor by exact Hbot.
  - subst variant. rewrite bucket_default_type.
    destruct (bucket_experiment_cases visitor (Hash.ascii_units i)
                (Z.of_nat (length (Results.variants exp)))
                (Results.trafficPercent exp) ltac:(lia))
      as [[_ ->]|(_ & _ & -> & Hr)]; lia.
  - intros z Hz. subst variant. rewrite bucket_default_type, <- Hz.
    destruct (bucket_experiment_cases visitor (Hash.ascii_units i)
                (Z.of_nat (length (Results.variants exp)))
                (Results.trafficPercent exp) ltac:(lia))
      as [[Hge ->]|(Hlt & _ & -> & Hr)].
    + tauto.
    + split; [lia|]. intros Hge. exfalso. now apply (Qlt_not_le _ _ Hlt).
Qed.

Lemma handleTrack_server_variant_witness :
  let st := {| Admin.kv := Fixtures.kv_of Fixtures.stoppedTest None;
               Admin.index := Some ["aabbccddeeff"] |} in
  let body := {| Track.visitorId := Some (Hash.ascii_units "visitor-19");
                 Track.experimentId := Some "aabbccddeeff";
                 Track.event := Some "impression";
                 Track.variantIndex := Some 7%Z;
                 Track.eventName := None;
                 Track.value := None |} in
  Results.status Fixtures.stoppedTest = Results.completed
  /\ exists point : Track.DataPoint,
       Track.handleTrack (Some body) (Some "Mozilla/5.0") [] st []
       = (Track.no_content, [point])
       /\ Track.blob2 point
          = Hash.bucket (Hash.ascii_units "visitor-19")
              (Hash.ascii_units "aabbccddeeff") 2 100 None.
Proof.
  intros st body. split; [reflexivity|].
  pose proof (handleTrack_server_variant (Hash.ascii_units "visitor-19")
                "aabbccddeeff" "impression" (Some 7%Z) None None
                (Some "Mozilla/5.0") [] st [] Fixtures.stoppedTest
                ltac:(discriminate) ltac:(discriminate) ltac:(discriminate)
                ltac:(discriminate) (lookup_singleton_eq _ _) eq_refl) as H.
  cbv zeta in H. destruct H as (Hrun & _).
  eexists. split; [exact Hrun | reflexivity].
Defined.

(* ===================================================================== *)
(** * Properties of the client *)
(* ===================================================================== *)

Section SdkFacts.

Lemma getVariant_assigned (i : string) (s : Sdk.State) (w : Z) :
  Sdk.getVariant i s = w -> (0 <= w)%Z ->
  Sdk._status s = Sdk.ready /\ Sdk._assignments s !! i = Some w.
Proof.
  unfold Sdk.getVariant. intros H Hw.
  destruct (Sdk._status s); cbn [Sdk.is_ready negb] in H; try lia.
  split; [reflexivity|].
  destruct (Sdk._assignments s !! i) as [x|]; cbn in H; [congruence | lia].
Qed.

Lemma init_ready (endpoint : string) (fetched : Sdk.Fetched) (s0 : Sdk.State) :
  Sdk._status (snd (Sdk.init endpoint fetched s0)) = Sdk.ready ->
  exists data : Init.InitResponse,
    fetched = Sdk.Data data
    /\ Init.assignments data <> ∅
    /\ Sdk._assignments (snd (Sdk.init endpoint fetched s0)) = Init.assignments data
    /\ Sdk._visitorId (snd (Sdk.init endpoint fetched s0)) = Init.visitorId data
    /\ Sdk._endpoint (snd (Sdk.init endpoint fetched s0)) = endpoint.
Proof.
  unfold Sdk.init. destruct fetched as [code|data|t m]; cbn; try discriminate.
  intros H. exists data. split; [reflexivity|].
  destruct (bool_decide (Init.assignments data = ∅)) eqn:He; [discriminate|].
  apply bool_decide_eq_false in He. now repeat split.
Qed.

End SdkFacts.

(** X26.  What the client shows is what the server records.  Let the client
    be initialised from the answer of [/init] on a well-formed namespace.
    If [getVariant] then reports a variant [w >= 0] for an id, an event
    tracked for that id is posted, and [/track], on the same namespace and
    for a client that is not a bot, answers 204 and records the event under
    the same variant [w] and under the visitor id that [/init] returned.
    The visitor id and the experiment id must not be empty strings, which
    [/track] refuses. *)
Theorem sdk_variant_is_recorded :
  forall (param : option Hash.jsstring) (generated generated' : Hash.jsstring)
         (order : list string) (st : Admin.Store) (endpoint : string)
         (s0 : Sdk.State) (i event : string) (eventName : option string)
         (value : option Q) (userAgent : option string)
         (dataset : list Track.DataPoint) (w : Z),
    Admin.well_formed (Admin.kv st) ->
    order ≡ₚ Admin.getIndex st ->
    let answer := Init.handleInit param generated order st in
    let s := snd (Sdk.init endpoint (Sdk.Data answer) s0) in
    Sdk.getVariant i s = w -> (0 <= w)%Z ->
    Init.visitorId answer <> [] -> i <> EmptyString ->
    event <> EmptyString -> event <> "pageview" ->
    BotDetect.isBot userAgent = false ->
    exists payload : Track.TrackPayload,
      Sdk.track event {| Sdk.experimentId := i; Sdk.eventName := eventName;
                         Sdk.value := value |} s
      = Some payload
      /\ Track.handleTrack (Some payload) userAgent generated' st dataset
         = (Track.no_content,
            dataset ++ [ {| Track.blob1 := Some i;
                            Track.blob2 := w;
                            Track.blob3 := event;
                            Track.blob4 := default EmptyString eventName;
                            Track.double1 := default 1%Q value;
                            Track.index1 := Init.visitorId answer |} ]).
Proof.
  intros param generated generated' order st endpoint s0 i event eventName value
         userAgent dataset w Hwf Hperm answer s Hget Hw Hvis Hi Hev Hpv Hbot.
  destruct (getVariant_assigned i s w Hget Hw) as [Hready Hassigned].
  destruct (init_ready endpoint (Sdk.Data answer) s0 Hready)
    as (data & Hdata & _ & Hass & Hvid & _).
  injection Hdata as <-. fold s in Hass, Hvid.
  rewrite Hass in Hassigned.
  unfold answer, Init.handleInit in Hassigned. cbn [Init.assignments] in Hassigned.
  rewrite (assign_load_lookup _ order st i Hwf Hperm) in Hassigned.
  destruct (Admin.getRecord i st) as [exp|] eqn:Hrec; [|discriminate].
  destruct (_ && _ && (0 <=? _)%Z); [|discriminate].
  injection Hassigned as <-.
  destruct (well_formed_id i exp st Hwf Hrec) as [Hid _].
  eexists. split.
  - unfold Sdk.track. rewrite Hready. cbn [Sdk.is_ready negb]. reflexivity.
  - rewrite Hvid. cbn [Sdk.experimentId Sdk.eventName Sdk.value].
    unfold Track.handleTrack. cbn [Track.event].
    rewrite (proj2 (truthy_some event) Hev). cbn [negb].
    change (default EmptyString (Some event)) with event.
    rewrite (proj2 (String.eqb_neq _ _) Hpv).
    cbn [Track.visitorId Track.experimentId].
    rewrite (proj2 (truthy_some i) Hi).
    assert (Hhas : Track.has_visitor (Some (Init.visitorId answer)) = true)
      by (destruct (Init.visitorId answer); [congruence | reflexivity]).
    rewrite Hhas. cbn [negb orb].
    change (default EmptyString (Some i)) with i.
    change (default [] (Some (Init.visitorId answer))) with (Init.visitorId answer).
    rewrite Hrec. rewrite record_event_visitor by exact Hbot.
    unfold Init.variant_of. rewrite Hid. reflexivity.
Qed.

Lemma sdk_variant_is_recorded_witness :
  let st := {| Admin.kv := Fixtures.kv_of Fixtures.stopTest None;
               Admin.index := Some ["aabbccddeeff"] |} in
  let answer := Init.handleInit (Some (Hash.ascii_units "visitor-19")) []
                  ["aabbccddeeff"] st in
  let s := snd (Sdk.init "https://fog.example" (Sdk.Data answer) Sdk.reset) in
  (0 <= Sdk.getVariant "aabbccddeeff" s)%Z
  /\ exists payload : Track.TrackPayload,
       Sdk.track "impression"
         {| Sdk.experimentId := "aabbccddeeff"; Sdk.eventName := None;
            Sdk.value := None |} s
       = Some payload
       /\ Track.handleTrack (Some payload) (Some "Mozilla/5.0") [] st []
          = (Track.no_content,
             [ {| Track.blob1 := Some "aabbccddeeff";
                  Track.blob2 := Sdk.getVariant "aabbccddeeff" s;
                  Track.blob3 := "impression";
                  Track.blob4 := EmptyString;
                  Track.double1 := 1;
                  Track.index1 := Hash.ascii_units "visitor-19" |} ]).
Proof.
  intros st answer s.
  assert (Hw : (0 <= Sdk.getVariant "aabbccddeeff" s)%Z)
    by (vm_compute; discriminate).
  split; [exact Hw|].
  exact (sdk_variant_is_recorded (Some (Hash.ascii_units "visitor-19")) [] []
           ["aabbccddeeff"] st "https://fog.example" Sdk.reset "aabbccddeeff"
           "impression" None None (Some "Mozilla/5.0") []
           (Sdk.getVariant "aabbccddeeff" s)
           (proj1 (fixture_consistent Fixtures.stopTest None stopTest_admissible))
           (reflexivity _) eq_refl Hw ltac:(discriminate) ltac:(discriminate)
           ltac:(discriminate) ltac:(discriminate) eq_refl).
Defined.

(** X27.  The client only speaks when it is ready.  After [init], whatever
    the state before and whatever the request came to, [getVariant] reports
    a variant other than -1 only if the request delivered an answer that
    assigns that very variant to the id, and [track] posts only if the
    request delivered an answer with at least one assignment.  In
    particular, after a failed re-initialisation the assignments of the
    previous answer are no longer served, although they are still in the
    state; and a visitor left out of every experiment ("excluded") sends no
    events at all. *)
Theorem sdk_gates_on_ready :
  forall (endpoint : string) (fetched : Sdk.Fetched) (s0 : Sdk.State),
    let s := snd (Sdk.init endpoint fetched s0) in
    (forall i : string,
       Sdk.getVariant i s <> (-1)%Z ->
       exists data, fetched = Sdk.Data data
                    /\ Init.assignments data !! i = Some (Sdk.getVariant i s))
    /\ (forall (event : string) (options : Sdk.TrackOptions),
          is_Some (Sdk.track event options s) ->
          exists data, fetched = Sdk.Data data /\ Init.assignments data <> ∅)
    /\ (forall i : string, Sdk.isEnabled i s = true ->
          exists data, fetched = Sdk.Data data
                       /\ Init.assignments data !! i = Some 1%Z)
    /\ (forall data, fetched = Sdk.Data data ->
          fst (Sdk.init endpoint fetched s0)
          = Sdk.Settled (if bool_decide (Init.assignments data = ∅)
                         then Sdk.excluded else Sdk.ready))
    /\ ((forall data, fetched <> Sdk.Data data) ->
          Sdk._status s = Sdk.error
          /\ Sdk._assignments s = Sdk._assignments s0).
Proof.
  intros endpoint fetched s0 s.
  assert (Hnot : Sdk._status s <> Sdk.ready ->
                 (forall i, Sdk.getVariant i s = (-1)%Z)
                 /\ forall event options, Sdk.track event options s = None).
  { intros Hs. split; [intros i | intros event options];
      unfold Sdk.getVariant, Sdk.track; now destruct (Sdk._status s). }
  assert (Hdec : Sdk._status s = Sdk.ready \/ Sdk._status s <> Sdk.ready)
    by (destruct (Sdk._status s); auto; right; discriminate).
  assert (Hvar : forall i : string,
             Sdk.getVariant i s <> (-1)%Z ->
             exists data, fetched = Sdk.Data data
                          /\ Init.assignments data !! i = Some (Sdk.getVariant i s)).
  { intros i Hi.
    destruct Hdec as [Hr|Hr];
      [|now rewrite (proj1 (Hnot Hr) i) in Hi].
    destruct (init_ready endpoint fetched s0 Hr) as (data & -> & _ & Hass & _).
    exists data. split; [reflexivity|]. fold s in Hass. rewrite <- Hass.
    unfold Sdk.getVariant in Hi |- *. rewrite Hr in Hi |- *.
    cbn [Sdk.is_ready negb] in Hi |- *.
    destruct (Sdk._assignments s !! i); [reflexivity | now cbn in Hi]. }
  split; [exact Hvar|]. split; [|split; [|split]].
  - intros event options [p Hp].
    destruct Hdec as [Hr|Hr];
      [|now rewrite (proj2 (Hnot Hr)) in Hp].
    destruct (init_ready endpoint fetched s0 Hr) as (data & -> & Hne & _).
    now exists data.
  - intros i Hi. unfold Sdk.isEnabled in Hi. apply Z.eqb_eq in Hi.
    destruct (Hvar i ltac:(lia)) as (data & Hd & Ha).
    exists data. split; [exact Hd | now rewrite Ha, Hi].
  - intros data ->. reflexivity.
  - intros Hno. subst s. destruct fetched as [code|data|t m];
      [now split | now destruct (Hno data) | now split].
Qed.

(* ===================================================================== *)
(** * Properties of the address truncation and of the daily salt *)
(* ===================================================================== *)

Section IdentityFacts.

Lemma split_dotless (s : string) :
  Identity.dotless s = true -> Identity.split Identity.dot s = [s].
Proof.
  induction s as [|c s IH]; intros H; [reflexivity|].
  cbn [Identity.dotless] in H. apply andb_true_iff in H as [Hc Hs].
  cbn [Identity.split]. apply negb_true_iff in Hc. rewrite Hc.
  now rewrite (IH Hs).
Qed.

Lemma split_nonempty (s : string) : Identity.split Identity.dot s <> [].
Proof.
  destruct s as [|c s]; cbn [Identity.split]; [discriminate|].
  destruct (Ascii.eqb c Identity.dot); [discriminate|].
  now destruct (Identity.split Identity.dot s).
Qed.

Lemma split_piece (a rest : string) :
  Identity.dotless a = true ->
  Identity.split Identity.dot (a +:+ String Identity.dot rest)
  = a :: Identity.split Identity.dot rest.
Proof.
  induction a as [|c a IH]; intros H.
  - change (EmptyString +:+ ?s) with s.
    cbn [Identity.split]. now rewrite Ascii.eqb_refl.
  - cbn [Identity.dotless] in H. apply andb_true_iff in H as [Hc Ha].
    apply negb_true_iff in Hc.
    change (String c a +:+ ?s) with (String c (a +:+ s)).
    cbn [Identity.split]. rewrite Hc. now rewrite (IH Ha).
Qed.

Lemma dot_cons (s : string) : "." +:+ s = String Identity.dot s.
Proof. reflexivity. Qed.

End IdentityFacts.

(** X28.  What the truncation keeps.  An address with at least three dots
    is cut before the third dot: of [a.b.c.d] only [a.b.c] is hashed, so
    addresses that differ only after the third dot are not told apart.  An
    address without any dot, such as an IPv6 address in colon notation, is
    not shortened at all.  A request without the header counts as 0.0.0. *)
Theorem truncatedIp_keeps_three_pieces :
  forall a b c d : string,
    Identity.dotless a = true -> Identity.dotless b = true ->
    Identity.dotless c = true ->
    Identity.truncatedIp (Some (a +:+ "." +:+ b +:+ "." +:+ c +:+ "." +:+ d))
    = a +:+ "." +:+ b +:+ "." +:+ c
    /\ Identity.truncatedIp (Some a) = a
    /\ Identity.truncatedIp None = "0.0.0".
Proof.
  intros a b c d Ha Hb Hc. split; [|split; [|reflexivity]].
  - unfold Identity.truncatedIp.
    change (default "0.0.0.0" (Some ?s)) with s.
    rewrite !dot_cons, !split_piece by assumption.
    destruct (Identity.split Identity.dot d) as [|p ps] eqn:Hd;
      [now apply split_nonempty in Hd|].
    reflexivity.
  - unfold Identity.truncatedIp. change (default "0.0.0.0" (Some a)) with a.
    now rewrite split_dotless.
Qed.

Lemma truncatedIp_keeps_three_pieces_witness :
  Identity.truncatedIp (Some "203.0.113.77") = "203.0.113"
  /\ Identity.truncatedIp (Some "203") = "203".
Proof.
  destruct (truncatedIp_keeps_three_pieces "203" "0" "113" "77"
              eq_refl eq_refl eq_refl) as (H1 & H2 & _).
  split; [exact H1 | exact H2].
Defined.

Section SaltFacts.

Lemma truthy_lookup (salts : Salt.Salts) (day : Z) :
  Admin.truthy (salts !! day) = true ->
  exists salt, salts !! day = Some salt /\ salt <> EmptyString.
Proof.
  destruct (salts !! day) as [salt|]; [|discriminate].
  intros H. exists salt. split; [reflexivity | now apply truthy_some].
Qed.

(** A call that misses the cache, on a day whose salt is stored. *)
Lemma getSalt_stored (today : Z) (fresh salt : string) (cached : Salt.Cache)
    (salts : Salt.Salts) :
  Salt.hit cached today = None ->
  salts !! today = Some salt -> salt <> EmptyString ->
  Salt.getSalt today fresh cached salts = (salt, Some (today, salt), salts).
Proof.
  intros Hmiss Hs Hne. unfold Salt.getSalt. rewrite Hmiss, Hs.
  now rewrite (proj2 (truthy_some salt) Hne).
Qed.

(** A call that hits the cache. *)
Lemma getSalt_cached (today : Z) (fresh salt : string) (salts : Salt.Salts) :
  Salt.getSalt today fresh (Some (today, salt)) salts
  = (salt, Some (today, salt), salts).
Proof. unfold Salt.getSalt, Salt.hit. now rewrite Z.eqb_refl. Qed.

End SaltFacts.

(** X29.  One salt per day.  Let an isolate whose cache is empty or holds
    another day's salt ask for today's salt.  It gets a non-empty salt,
    which is afterwards the one stored for today (the stored one if there
    was one, else the freshly generated one, which it stores); the salts of
    other days are not touched.  From then on the same isolate gets that
    salt from its cache, and any other isolate that misses its cache reads
    that same salt, whatever their generators would have produced. *)
Theorem getSalt_one_per_day :
  forall (today : Z) (fresh : string) (cached : Salt.Cache) (salts : Salt.Salts),
    fresh <> EmptyString ->
    Salt.hit cached today = None ->
    exists (salt : string) (salts' : Salt.Salts),
      Salt.getSalt today fresh cached salts = (salt, Some (today, salt), salts')
      /\ salt <> EmptyString
      /\ salts' !! today = Some salt
      /\ (Admin.truthy (salts !! today) = true ->
          salts !! today = Some salt /\ salts' = salts)
      /\ (forall day : Z, day <> today -> salts' !! day = salts !! day)
      /\ (forall fresh' : string,
            Salt.getSalt today fresh' (Some (today, salt)) salts'
            = (salt, Some (today, salt), salts'))
      /\ (forall (fresh' : string) (other : Salt.Cache),
            Salt.hit other today = None ->
            Salt.getSalt today fresh' other salts'
            = (salt, Some (today, salt), salts')).
Proof.
  intros today fresh cached salts Hfresh Hmiss.
  destruct (Admin.truthy (salts !! today)) eqn:Hstored.
  - destruct (truthy_lookup salts today Hstored) as (salt & Hs & Hne).
    exists salt, salts.
    split; [now apply getSalt_stored|]. split; [exact Hne|].
    split; [exact Hs|]. split; [now split|]. split; [reflexivity|].
    split; [intros fresh'; apply getSalt_cached|].
    intros fresh' other Hother. now apply getSalt_stored.
  - exists fresh, (<[today := fresh]> salts).
    split; [unfold Salt.getSalt; now rewrite Hmiss, Hstored|].
    split; [exact Hfresh|]. split; [apply lookup_insert_eq|].
    split; [discriminate|].
    split; [intros day Hday; now apply lookup_insert_ne|].
    split; [intros fresh'; apply getSalt_cached|].
    intros fresh' other Hother.
    apply getSalt_stored; [exact Hother | apply lookup_insert_eq | exact Hfresh].
Qed.

Lemma getSalt_one_per_day_witness :
  exists (salt : string) (salts' : Salt.Salts),
    Salt.getSalt 20454 "5f2a" (Some (20453%Z, "9c41")) {[ 20453%Z := "9c41" ]}
    = (salt, Some (20454%Z, salt), salts')
    /\ salts' !! 20454%Z = Some salt.
Proof.
  destruct (getSalt_one_per_day 20454 "5f2a" (Some (20453%Z, "9c41"))
              {[ 20453%Z := "9c41" ]} ltac:(discriminate) eq_refl)
    as (salt & salts' & Hrun & _ & Hstored & _).
  exists salt, salts'. split; [exact Hrun | exact Hstored].
Defined.

(** X30.  The nightly rotation.  After [handleScheduled] on day [today],
    tomorrow has a non-empty salt (the one already stored, if any, else the
    generated one), yesterday has none, and every other day, today
    included, is as before.  Tomorrow every isolate that misses its cache
    reads that salt and writes nothing. *)
Theorem handleScheduled_rotates :
  forall (today : Z) (fresh : string) (salts : Salt.Salts),
    fresh <> EmptyString ->
    let salts' := Salt.handleScheduled today fresh salts in
    exists salt : string,
      salt <> EmptyString
      /\ salts' !! (today + 1)%Z = Some salt
      /\ (Admin.truthy (salts !! (today + 1)%Z) = true ->
          salts !! (today + 1)%Z = Some salt)
      /\ salts' !! (today - 1)%Z = None
      /\ (forall day : Z, day <> (today + 1)%Z -> day <> (today - 1)%Z ->
            salts' !! day = salts !! day)
      /\ forall (fresh' : string) (cached : Salt.Cache),
           Salt.hit cached (today + 1) = None ->
           Salt.getSalt (today + 1) fresh' cached salts'
           = (salt, Some ((today + 1)%Z, salt), salts').
Proof.
  intros today fresh salts Hfresh salts'.
  assert (Hne : (today + 1 <> today - 1)%Z) by lia.
  assert (Hex : exists salt,
             salt <> EmptyString
             /\ salts' !! (today + 1)%Z = Some salt
             /\ (Admin.truthy (salts !! (today + 1)%Z) = true ->
                 salts !! (today + 1)%Z = Some salt)
             /\ forall day : Z, day <> (today + 1)%Z -> day <> (today - 1)%Z ->
                  salts' !! day = salts !! day).
  { subst salts'. unfold Salt.handleScheduled. cbv zeta.
    destruct (Admin.truthy (salts !! (today + 1)%Z)) eqn:Hstored.
    - destruct (truthy_lookup salts _ Hstored) as (salt & Hs & Hsne).
      exists salt. split; [exact Hsne|].
      split; [rewrite <- Hs; apply lookup_delete_ne; lia|].
      split; [now intros _|].
      intros day _ Hday. apply lookup_delete_ne. congruence.
    - exists fresh. split; [exact Hfresh|].
      split.
      { etransitivity; [apply lookup_delete_ne; lia | apply lookup_insert_eq]. }
      split; [discriminate|].
      intros day Hday Hday'.
      etransitivity; [apply lookup_delete_ne; congruence|].
      apply lookup_insert_ne. congruence. }
  destruct Hex as (salt & Hsne & Hs & Hold & Hother).
  exists salt. split; [exact Hsne|]. split; [exact Hs|]. split; [exact Hold|].
  split; [apply lookup_delete_eq|]. split; [exact Hother|].
  intros fresh' cached Hmiss. now apply getSalt_stored.
Qed.

Lemma handleScheduled_rotates_witness :
  let salts' := Salt.handleScheduled 20454 "5f2a"
                  {[ 20453%Z := "9c41"; 20454%Z := "d07e" ]} in
  exists salt : string,
    salts' !! 20455%Z = Some salt /\ salts' !! 20453%Z = None.
Proof.
  intros salts'.
  destruct (handleScheduled_rotates 20454 "5f2a"
              {[ 20453%Z := "9c41"; 20454%Z := "d07e" ]} ltac:(discriminate))
    as (salt & _ & Hs & _ & Hgone & _).
  exists salt. split; [exact Hs | exact Hgone].
Defined.
